(** * Student management system: grade aggregation, attendance, upserts

    A shallow embedding of the parts of the application that carry its
    invariants:

    - the shared schema: the table rows, the insert types and the
      constraints the tables declare;
    - the gradebook and the grade entry form: [calculateStudentTotal],
      [getLetterGrade], [calculateLetterGrade];
    - the attendance form: [getStatusCounts];
    - the storage layer [DatabaseStorage]: [createGrade], [updateGrade],
      [deleteGrade], [markAttendance], [updateAttendance], the cascading
      deletes and the attendance rate of [getDashboardStats];
    - the routes: the [POST /api/grades] handler;
    - the settings page: the grade boundaries inputs.

    JavaScript numbers are IEEE 754 binary64 values, modelled by Rocq's
    primitive floats, whose operations are the same correctly rounded
    ones.  A PostgreSQL [decimal(p,2)] value is a count of hundredths, or
    the NaN that the type admits; the string sent for such a column is
    kept by what PostgreSQL reads from it. *)

From Stdlib Require Import ZArith List String Bool Lia Floats Uint63 QArith Qround.
From Stdlib Require Import Permutation.
Import ListNotations.

Local Open Scope string_scope.
Local Open Scope Z_scope.

(** ** JavaScript numbers *)

Module JS.

Definition number := float.

(** The double holding an integer; exact below 2^53. *)
Definition of_Z (z : Z) : number :=
  match z with
  | Z0 => 0%float
  | Zpos _ => PrimFloat.of_uint63 (Uint63.of_Z z)
  | Zneg p => (- PrimFloat.of_uint63 (Uint63.of_Z (Zpos p)))%float
  end.

(** A stored [decimal(p,2)] value.  It reaches JavaScript as a string such
    as ["80.00"], kept here as the count of hundredths, or as ["NaN"], the
    one special value a column with a precision holds. *)
Inductive Decimal :=
| hundredths (z : Z)
| decimal_NaN.

Coercion hundredths : Z >-> Decimal.

(** [Number(s)] on the string of a stored value: the double nearest to
    the decimal value (both operands of the division are exact, and the
    division is correctly rounded), and NaN for ["NaN"]. *)
Definition Number (d : Decimal) : number :=
  match d with
  | hundredths z => (of_Z z / 100)%float
  | decimal_NaN => nan
  end.

(** The exact rational value of a finite double. *)
Definition to_Q (x : number) : option Q :=
  match Prim2SF x with
  | S754_zero _ => Some 0%Q
  | S754_finite s m e =>
      let z := if s then Zneg m else Zpos m in
      Some (if 0 <=? e then inject_Z (z * 2 ^ e)
            else Qmake z (Z.to_pos (2 ^ (- e))))
  | _ => None
  end.

(** [Math.round(x)]: the integer nearest to [x], a tie going towards
    +infinity, that is floor(x + 1/2) computed exactly; NaN, the
    infinities and the zeros are returned as they are, and a result of
    zero keeps the sign of [x]. *)
Definition Math_round (x : number) : number :=
  match Prim2SF x with
  | S754_finite s m e =>
      if 0 <=? e then x
      else
        let z := if s then Zneg m else Zpos m in
        let n := (2 * z + 2 ^ (- e)) / 2 ^ (- e + 1) in
        if n =? 0 then (if s then (-0)%float else 0%float) else of_Z n
  | _ => x
  end.

(** A JS object used as a map from strings: its entries in the order in
    which JavaScript lists them, each key once. *)
Definition object (V : Type) := list (string * V).

Fixpoint get {V} (o : object V) (k : string) : option V :=
  match o with
  | [] => None
  | (k', v) :: o' => if String.eqb k' k then Some v else get o' k
  end.

Definition Object_values {V} (o : object V) : list V := map snd o.

End JS.

Import JS.

(** ** The shared schema *)

Module Schema.

Definition Id := string.
Definition Timestamp := Z.
(** A [date] column: a day number. *)
Definition Date := Z.

Inductive AttendanceStatus := PRESENT | ABSENT | LATE | EXCUSED.
Inductive AssessmentType := QUIZ | ASSIGNMENT | MIDTERM | FINAL | PROJECT.

Definition AttendanceStatus_eqb (a b : AttendanceStatus) : bool :=
  match a, b with
  | PRESENT, PRESENT | ABSENT, ABSENT | LATE, LATE | EXCUSED, EXCUSED => true
  | _, _ => false
  end.

Definition AssessmentType_eqb (a b : AssessmentType) : bool :=
  match a, b with
  | QUIZ, QUIZ | ASSIGNMENT, ASSIGNMENT | MIDTERM, MIDTERM
  | FINAL, FINAL | PROJECT, PROJECT => true
  | _, _ => false
  end.

(** The value of the enum as the client sees it. *)
Definition status_name (s : AttendanceStatus) : string :=
  match s with
  | PRESENT => "PRESENT" | ABSENT => "ABSENT"
  | LATE => "LATE" | EXCUSED => "EXCUSED"
  end.

Record Attendance := {
  at_id : Id;
  at_studentId : Id;
  at_courseId : Id;
  at_date : Date;
  at_status : AttendanceStatus;
  at_notes : option string;
  at_markedBy : Id;
  at_markedAt : option Timestamp }.

Record Assessment := {
  as_id : Id;
  as_courseId : Id;
  as_name : string;
  as_type : AssessmentType;
  as_maxScore : Decimal;
  as_weight : Decimal;
  as_dueDate : option Date;
  as_description : option string;
  as_createdAt : option Timestamp;
  as_updatedAt : option Timestamp }.

Record Grade := {
  g_id : Id;
  g_studentId : Id;
  g_assessmentId : Id;
  g_score : Decimal;
  g_letterGrade : option string;
  g_feedback : option string;
  g_gradedBy : Id;
  g_gradedAt : option Timestamp;
  g_updatedAt : option Timestamp }.

(** The string sent for a [decimal] column, kept by what PostgreSQL's
    numeric input reads from it: a number, taken at the two decimals the
    column rounds it to, or NaN; an infinity; or no number at all. *)
Inductive NumericText :=
| numeric (value : Decimal)
| numeric_infinity
| not_numeric.

Coercion numeric : Decimal >-> NumericText.

(** [insertAttendanceSchema]: the row without [id] and [markedAt].  A key
    of a nullable column may be absent ([None]), null ([Some None]) or
    hold a value.  The date is the string of a day, kept as that day. *)
Record InsertAttendance := {
  ia_studentId : Id;
  ia_courseId : Id;
  ia_date : Date;
  ia_status : AttendanceStatus;
  ia_notes : option (option string);
  ia_markedBy : Id }.

(** [insertGradeSchema]: the row without [id], [gradedAt], [updatedAt].
    The score is the string the schema asks for. *)
Record InsertGrade := {
  ig_studentId : Id;
  ig_assessmentId : Id;
  ig_score : NumericText;
  ig_letterGrade : option (option string);
  ig_feedback : option (option string);
  ig_gradedBy : Id }.

End Schema.

Import Schema.

(** ** The gradebook and the grade entry form *)

Module Gradebook.

Local Open Scope float_scope.

(** [filterType] is [""] (no filter) or the name of a type. *)
Definition filteredAssessments (filterType : option AssessmentType)
    (assessments : list Assessment) : list Assessment :=
  filter (fun assessment =>
            match filterType with
            | None => true
            | Some t => AssessmentType_eqb (as_type assessment) t
            end) assessments.

Definition getGradeForStudentAssessment (grades : list Grade)
    (studentId assessmentId : Id) : option Grade :=
  find (fun grade => String.eqb (g_studentId grade) studentId
                     && String.eqb (g_assessmentId grade) assessmentId)
       grades.

Definition gradeKey (studentId assessmentId : Id) : string :=
  (studentId ++ "-" ++ assessmentId)%string.

(** [gradeChanges[gradeKey] ?? (grade ? Number(grade.score) : 0)] *)
Definition currentScore (grades : list Grade) (gradeChanges : object number)
    (studentId : Id) (assessment : Assessment) : number :=
  let grade := getGradeForStudentAssessment grades studentId (as_id assessment) in
  match get gradeChanges (gradeKey studentId (as_id assessment)) with
  | Some edited => edited
  | None => match grade with
            | Some g => Number (g_score g)
            | None => 0
            end
  end.

(** The body of the [forEach]: one step on the two running totals. *)
Definition accumulate (grades : list Grade) (gradeChanges : object number)
    (studentId : Id) (totals : number * number) (assessment : Assessment)
    : number * number :=
  let '(totalScore, totalPossible) := totals in
  (totalScore + currentScore grades gradeChanges studentId assessment
                * Number (as_weight assessment),
   totalPossible + Number (as_maxScore assessment)
                   * Number (as_weight assessment)).

Definition calculateStudentTotal (filterType : option AssessmentType)
    (assessments : list Assessment) (grades : list Grade)
    (gradeChanges : object number) (studentId : Id) : number :=
  let '(totalScore, totalPossible) :=
    fold_left (accumulate grades gradeChanges studentId)
              (filteredAssessments filterType assessments) (0, 0) in
  if 0 <? totalPossible then totalScore / totalPossible * 100 else 0.

Definition getLetterGrade (percentage : number) : string :=
  if 90 <=? percentage then "A"
  else if 80 <=? percentage then "B"
  else if 70 <=? percentage then "C"
  else if 60 <=? percentage then "D"
  else "F".

Definition calculateLetterGrade (score maxScore : number) : string :=
  let percentage := score / maxScore * 100 in
  if 90 <=? percentage then "A"
  else if 80 <=? percentage then "B"
  else if 70 <=? percentage then "C"
  else if 60 <=? percentage then "D"
  else "F".

End Gradebook.

Import Gradebook.

(** ** The attendance form *)

Module AttendanceForm.

(** [const counts = { PRESENT: 0, ABSENT: 0, LATE: 0, EXCUSED: 0 }].  The
    counters stay far below 2^53, where [++] on doubles is exact. *)
Record Counts := {
  count_PRESENT : nat;
  count_ABSENT : nat;
  count_LATE : nat;
  count_EXCUSED : nat }.

(** [if (status in counts) counts[status]++].  A name that [in] finds
    only on the prototype of [counts] creates a property of its own and
    leaves the four counters alone. *)
Definition tally (counts : Counts) (status : string) : Counts :=
  if String.eqb status "PRESENT" then
    {| count_PRESENT := S (count_PRESENT counts);
       count_ABSENT := count_ABSENT counts;
       count_LATE := count_LATE counts;
       count_EXCUSED := count_EXCUSED counts |}
  else if String.eqb status "ABSENT" then
    {| count_PRESENT := count_PRESENT counts;
       count_ABSENT := S (count_ABSENT counts);
       count_LATE := count_LATE counts;
       count_EXCUSED := count_EXCUSED counts |}
  else if String.eqb status "LATE" then
    {| count_PRESENT := count_PRESENT counts;
       count_ABSENT := count_ABSENT counts;
       count_LATE := S (count_LATE counts);
       count_EXCUSED := count_EXCUSED counts |}
  else if String.eqb status "EXCUSED" then
    {| count_PRESENT := count_PRESENT counts;
       count_ABSENT := count_ABSENT counts;
       count_LATE := count_LATE counts;
       count_EXCUSED := S (count_EXCUSED counts) |}
  else counts.

(** [attendanceData] maps a student id to the status chosen for the
    session. *)
Definition getStatusCounts (attendanceData : object string) : Counts :=
  fold_left tally (Object_values attendanceData)
    {| count_PRESENT := 0; count_ABSENT := 0;
       count_LATE := 0; count_EXCUSED := 0 |}.

End AttendanceForm.

Import AttendanceForm.

(** ** The storage layer

    The statements of [DatabaseStorage] as PostgreSQL executes them, each
    one atomic, on a connection that works and on strings that it stores
    as text (it refuses a string with a NUL character). *)

Module Storage.

(** What the tables of the schema declare beyond their primary
    keys: whether a unique index covers (student_id, assessment_id) of
    [grades], and (student_id, course_id, date) of [attendance]. *)
Record Constraints := {
  grades_student_assessment_unique : bool;
  attendance_student_course_date_unique : bool }.

(** Neither [pgTable("grades", ...)] nor [pgTable("attendance", ...)]
    declares a unique index or constraint: only [id] is a key. *)
Definition declared : Constraints :=
  {| grades_student_assessment_unique := false;
     attendance_student_course_date_unique := false |}.

(** The schema the upserts are written for. *)
Definition with_unique_keys : Constraints :=
  {| grades_student_assessment_unique := true;
     attendance_student_course_date_unique := true |}.

(** The tables.  Of [users], [students] and [courses] only the primary
    keys matter to the operations below. *)
Record Database := {
  users : list Id;
  students : list Id;
  courses : list Id;
  assessments : list Assessment;
  attendance : list Attendance;
  grades : list Grade }.

Definition empty_store : Database :=
  {| users := []; students := []; courses := []; assessments := [];
     attendance := []; grades := [] |}.

Inductive PgError :=
| invalid_text_representation  (* 22P02: invalid input syntax *)
| numeric_value_out_of_range   (* 22003: numeric field overflow *)
| invalid_column_reference     (* 42P10: no unique or exclusion constraint
                                  matching the ON CONFLICT specification *)
| foreign_key_violation        (* 23503 *)
| unique_violation.            (* 23505 *)

Inductive StorageError :=
| Pg (e : PgError)
| NoValuesToSet.             (* drizzle: update().set({}) *)

Inductive result (A : Type) :=
| Ok (a : A)
| Err (e : StorageError).
Arguments Ok {A} a.
Arguments Err {A} e.

Definition mem (id : Id) (ids : list Id) : bool :=
  existsb (String.eqb id) ids.

Fixpoint distinctb {K} (eqb : K -> K -> bool) (l : list K) : bool :=
  match l with
  | [] => true
  | k :: l' => negb (existsb (eqb k) l') && distinctb eqb l'
  end.

(** *** Parameters of the statements

    A value fits [decimal(precision, 2)] when, at its two decimals, it has
    at most [precision] digits; NaN fits every precision. *)
Definition fits (precision : Z) (d : Decimal) : bool :=
  match d with
  | hundredths z => Z.abs z <? 10 ^ precision
  | decimal_NaN => true
  end.

(** The string bound to a parameter of a [decimal(precision, 2)] column.
    The input function reads it when the parameters are bound, and the
    cast to the precision of the column is evaluated when the statement
    is planned: both come before anything else of the statement. *)
Definition numeric_parameter (precision : Z) (text : NumericText)
    : result Decimal :=
  match text with
  | numeric value =>
      if fits precision value then Ok value
      else Err (Pg numeric_value_out_of_range)
  | numeric_infinity => Err (Pg numeric_value_out_of_range)
  | not_numeric => Err (Pg invalid_text_representation)
  end.

(** The same for a key that may be absent from a [set]. *)
Definition optional_numeric_parameter (precision : Z)
    (text : option NumericText) : result (option Decimal) :=
  match text with
  | None => Ok None
  | Some t =>
      match numeric_parameter precision t with
      | Ok value => Ok (Some value)
      | Err e => Err e
      end
  end.

(** A key of a [set]: drizzle leaves a key whose value is [undefined] out
    of the SET list, so that the column keeps what it holds. *)
Definition or_keep {A} (new : option A) (old : A) : A :=
  match new with Some a => a | None => old end.

(** A key of [values] for a nullable column: an absent key takes the
    default of the column, which is null. *)
Definition or_null {A} (new : option (option A)) : option A :=
  match new with Some a => a | None => None end.

(** *** Grades *)

Definition grade_key (g : Grade) : Id * Id :=
  (g_studentId g, g_assessmentId g).

Definition grade_key_eqb (a b : Id * Id) : bool :=
  String.eqb (fst a) (fst b) && String.eqb (snd a) (snd b).

(** The [set] of [createGrade]'s [onConflictDoUpdate], with [score] the
    value read from [grade.score]: [letterGrade] and [feedback] are
    written when the call carries them, null included, and stay as they
    are when it does not. *)
Definition createGrade_set (grade : InsertGrade) (score : Decimal)
    (now : Timestamp) (row : Grade) : Grade :=
  {| g_id := g_id row;
     g_studentId := g_studentId row;
     g_assessmentId := g_assessmentId row;
     g_score := score;
     g_letterGrade := or_keep (ig_letterGrade grade) (g_letterGrade row);
     g_feedback := or_keep (ig_feedback grade) (g_feedback row);
     g_gradedBy := ig_gradedBy grade;
     g_gradedAt := g_gradedAt row;
     g_updatedAt := Some now |}.

(** The row [values(grade)] proposes: [id] from [gen_random_uuid()],
    [gradedAt] and [updatedAt] from [defaultNow()]. *)
Definition createGrade_values (grade : InsertGrade) (score : Decimal)
    (uuid : Id) (now : Timestamp) : Grade :=
  {| g_id := uuid;
     g_studentId := ig_studentId grade;
     g_assessmentId := ig_assessmentId grade;
     g_score := score;
     g_letterGrade := or_null (ig_letterGrade grade);
     g_feedback := or_null (ig_feedback grade);
     g_gradedBy := ig_gradedBy grade;
     g_gradedAt := Some now;
     g_updatedAt := Some now |}.

(** The foreign keys of a row that is inserted. *)
Definition grade_references_ok (db : Database) (g : Grade) : bool :=
  mem (g_studentId g) (students db)
  && existsb (fun a => String.eqb (as_id a) (g_assessmentId g))
             (assessments db)
  && mem (g_gradedBy g) (users db).

(** The foreign keys of a row that is updated: a reference is looked up
    again only when its value changed. *)
Definition grade_update_references_ok (db : Database) (old new : Grade)
    : bool :=
  (String.eqb (g_studentId new) (g_studentId old)
   || mem (g_studentId new) (students db))
  && (String.eqb (g_assessmentId new) (g_assessmentId old)
      || existsb (fun a => String.eqb (as_id a) (g_assessmentId new))
                 (assessments db))
  && (String.eqb (g_gradedBy new) (g_gradedBy old)
      || mem (g_gradedBy new) (users db)).

Definition set_grades (db : Database) (rows : list Grade) : Database :=
  {| users := users db; students := students db; courses := courses db;
     assessments := assessments db; attendance := attendance db;
     grades := rows |}.

(** [insert(grades).values(grade).onConflictDoUpdate({ target:
    [grades.studentId, grades.assessmentId], set: ... }).returning()].
    [uuid] and [now] are what [gen_random_uuid()] and the clock give
    during the call.  The score is read and cast first.  PostgreSQL then
    infers the arbiter index from the conflict target and rejects the
    statement when no unique index has exactly those columns; then a row
    with the same key is updated in place, and otherwise the proposed row
    is inserted. *)
Definition createGrade (cs : Constraints) (db : Database)
    (grade : InsertGrade) (uuid : Id) (now : Timestamp)
    : result (Grade * Database) :=
  match numeric_parameter 5 (ig_score grade) with
  | Err e => Err e
  | Ok score =>
      if negb (grades_student_assessment_unique cs) then
        Err (Pg invalid_column_reference)
      else
        let proposed := createGrade_values grade score uuid now in
        let conflicts (row : Grade) :=
          grade_key_eqb (grade_key row) (grade_key proposed) in
        match find conflicts (grades db) with
        | Some existing =>
            let updated := createGrade_set grade score now existing in
            if forallb (fun row => negb (conflicts row)
                                   || grade_update_references_ok db row
                                        (createGrade_set grade score now row))
                       (grades db) then
              Ok (updated,
                  set_grades db
                    (map (fun row => if conflicts row
                                     then createGrade_set grade score now row
                                     else row) (grades db)))
            else Err (Pg foreign_key_violation)
        | None =>
            if mem uuid (map g_id (grades db)) then Err (Pg unique_violation)
            else if grade_references_ok db proposed then
              Ok (proposed, set_grades db (grades db ++ [proposed]))
            else Err (Pg foreign_key_violation)
        end
  end.

(** [Partial<InsertGrade>]: every field may be absent. *)
Record PartialInsertGrade := {
  pg_studentId : option Id;
  pg_assessmentId : option Id;
  pg_score : option NumericText;
  pg_letterGrade : option (option string);
  pg_feedback : option (option string);
  pg_gradedBy : option Id }.

(** [{ ...grade, updatedAt: new Date() }] applied to a row, with [score]
    the value read from [grade.score] when the key is there. *)
Definition updateGrade_set (grade : PartialInsertGrade)
    (score : option Decimal) (now : Timestamp) (row : Grade) : Grade :=
  {| g_id := g_id row;
     g_studentId := or_keep (pg_studentId grade) (g_studentId row);
     g_assessmentId := or_keep (pg_assessmentId grade) (g_assessmentId row);
     g_score := or_keep score (g_score row);
     g_letterGrade := or_keep (pg_letterGrade grade) (g_letterGrade row);
     g_feedback := or_keep (pg_feedback grade) (g_feedback row);
     g_gradedBy := or_keep (pg_gradedBy grade) (g_gradedBy row);
     g_gradedAt := g_gradedAt row;
     g_updatedAt := Some now |}.

(** [update(grades).set(...).where(eq(grades.id, id)).returning()]; the
    first returned row, if any, is the result.  A score is read and cast
    before any row is looked at. *)
Definition updateGrade (cs : Constraints) (db : Database) (id : Id)
    (grade : PartialInsertGrade) (now : Timestamp)
    : result (option Grade * Database) :=
  match optional_numeric_parameter 5 (pg_score grade) with
  | Err e => Err e
  | Ok score =>
      let hit (row : Grade) := String.eqb (g_id row) id in
      let rows :=
        map (fun row => if hit row then updateGrade_set grade score now row
                        else row) (grades db) in
      if grades_student_assessment_unique cs
         && negb (distinctb grade_key_eqb (map grade_key rows))
      then Err (Pg unique_violation)
      else if forallb (fun row => negb (hit row)
                                  || grade_update_references_ok db row
                                       (updateGrade_set grade score now row))
                      (grades db)
      then Ok (find hit rows, set_grades db rows)
      else Err (Pg foreign_key_violation)
  end.

Definition deleteGrade (db : Database) (id : Id) : Database :=
  set_grades db
    (filter (fun row => negb (String.eqb (g_id row) id)) (grades db)).

(** *** Attendance *)

Definition attendance_key (a : Attendance) : Id * Id * Date :=
  (at_studentId a, at_courseId a, at_date a).

Definition attendance_key_eqb (a b : Id * Id * Date) : bool :=
  String.eqb (fst (fst a)) (fst (fst b))
  && String.eqb (snd (fst a)) (snd (fst b))
  && Z.eqb (snd a) (snd b).

(** The [set] of [markAttendance]'s [onConflictDoUpdate]: [notes] is
    written when the call carries it, null included, and stays as it is
    when it does not. *)
Definition markAttendance_set (attendanceData : InsertAttendance)
    (now : Timestamp) (row : Attendance) : Attendance :=
  {| at_id := at_id row;
     at_studentId := at_studentId row;
     at_courseId := at_courseId row;
     at_date := at_date row;
     at_status := ia_status attendanceData;
     at_notes := or_keep (ia_notes attendanceData) (at_notes row);
     at_markedBy := ia_markedBy attendanceData;
     at_markedAt := Some now |}.

Definition markAttendance_values (attendanceData : InsertAttendance)
    (uuid : Id) (now : Timestamp) : Attendance :=
  {| at_id := uuid;
     at_studentId := ia_studentId attendanceData;
     at_courseId := ia_courseId attendanceData;
     at_date := ia_date attendanceData;
     at_status := ia_status attendanceData;
     at_notes := or_null (ia_notes attendanceData);
     at_markedBy := ia_markedBy attendanceData;
     at_markedAt := Some now |}.

Definition attendance_references_ok (db : Database) (a : Attendance)
    : bool :=
  mem (at_studentId a) (students db)
  && mem (at_courseId a) (courses db)
  && mem (at_markedBy a) (users db).

Definition attendance_update_references_ok (db : Database)
    (old new : Attendance) : bool :=
  (String.eqb (at_studentId new) (at_studentId old)
   || mem (at_studentId new) (students db))
  && (String.eqb (at_courseId new) (at_courseId old)
      || mem (at_courseId new) (courses db))
  && (String.eqb (at_markedBy new) (at_markedBy old)
      || mem (at_markedBy new) (users db)).

Definition set_attendance (db : Database) (rows : list Attendance)
    : Database :=
  {| users := users db; students := students db; courses := courses db;
     assessments := assessments db; attendance := rows;
     grades := grades db |}.

(** [insert(attendance).values(attendanceData).onConflictDoUpdate({
    target: [attendance.studentId, attendance.courseId, attendance.date],
    set: ... }).returning()], as for [createGrade]. *)
Definition markAttendance (cs : Constraints) (db : Database)
    (attendanceData : InsertAttendance) (uuid : Id) (now : Timestamp)
    : result (Attendance * Database) :=
  if negb (attendance_student_course_date_unique cs) then
    Err (Pg invalid_column_reference)
  else
    let proposed := markAttendance_values attendanceData uuid now in
    let conflicts (row : Attendance) :=
      attendance_key_eqb (attendance_key row) (attendance_key proposed) in
    match find conflicts (attendance db) with
    | Some existing =>
        let updated := markAttendance_set attendanceData now existing in
        if forallb (fun row => negb (conflicts row)
                               || attendance_update_references_ok db row
                                    (markAttendance_set attendanceData now
                                       row))
                   (attendance db) then
          Ok (updated,
              set_attendance db
                (map (fun row => if conflicts row
                                 then markAttendance_set attendanceData now
                                        row
                                 else row) (attendance db)))
        else Err (Pg foreign_key_violation)
    | None =>
        if mem uuid (map at_id (attendance db)) then
          Err (Pg unique_violation)
        else if attendance_references_ok db proposed then
          Ok (proposed, set_attendance db (attendance db ++ [proposed]))
        else Err (Pg foreign_key_violation)
    end.

Record PartialInsertAttendance := {
  pa_studentId : option Id;
  pa_courseId : option Id;
  pa_date : option Date;
  pa_status : option AttendanceStatus;
  pa_notes : option (option string);
  pa_markedBy : option Id }.

Definition no_values (p : PartialInsertAttendance) : bool :=
  match pa_studentId p, pa_courseId p, pa_date p, pa_status p,
        pa_notes p, pa_markedBy p with
  | None, None, None, None, None, None => true
  | _, _, _, _, _, _ => false
  end.

Definition updateAttendance_set (attendanceData : PartialInsertAttendance)
    (row : Attendance) : Attendance :=
  {| at_id := at_id row;
     at_studentId := or_keep (pa_studentId attendanceData) (at_studentId row);
     at_courseId := or_keep (pa_courseId attendanceData) (at_courseId row);
     at_date := or_keep (pa_date attendanceData) (at_date row);
     at_status := or_keep (pa_status attendanceData) (at_status row);
     at_notes := or_keep (pa_notes attendanceData) (at_notes row);
     at_markedBy := or_keep (pa_markedBy attendanceData) (at_markedBy row);
     at_markedAt := at_markedAt row |}.

(** [update(attendance).set(attendanceData).where(eq(attendance.id, id))
    .returning()]; drizzle refuses an empty [set]. *)
Definition updateAttendance (cs : Constraints) (db : Database) (id : Id)
    (attendanceData : PartialInsertAttendance)
    : result (option Attendance * Database) :=
  if no_values attendanceData then Err NoValuesToSet
  else
    let hit (row : Attendance) := String.eqb (at_id row) id in
    let rows := map (fun row => if hit row
                                then updateAttendance_set attendanceData row
                                else row) (attendance db) in
    if attendance_student_course_date_unique cs
       && negb (distinctb attendance_key_eqb (map attendance_key rows))
    then Err (Pg unique_violation)
    else if forallb (fun row => negb (hit row)
                                || attendance_update_references_ok db row
                                     (updateAttendance_set attendanceData
                                        row))
                    (attendance db)
    then Ok (find hit rows, set_attendance db rows)
    else Err (Pg foreign_key_violation).

(** *** Deletes, which cascade along [onDelete: 'cascade'] *)

Definition deleteAssessment (db : Database) (id : Id) : Database :=
  {| users := users db; students := students db; courses := courses db;
     assessments :=
       filter (fun a => negb (String.eqb (as_id a) id)) (assessments db);
     attendance := attendance db;
     grades :=
       if existsb (fun a => String.eqb (as_id a) id) (assessments db)
       then filter (fun g => negb (String.eqb (g_assessmentId g) id))
                   (grades db)
       else grades db |}.

Definition deleteStudent (db : Database) (id : Id) : Database :=
  if mem id (students db) then
    {| users := users db;
       students := filter (fun s => negb (String.eqb s id)) (students db);
       courses := courses db;
       assessments := assessments db;
       attendance :=
         filter (fun a => negb (String.eqb (at_studentId a) id))
                (attendance db);
       grades :=
         filter (fun g => negb (String.eqb (g_studentId g) id))
                (grades db) |}
  else db.

Definition deleteCourse (db : Database) (id : Id) : Database :=
  if mem id (courses db) then
    let gone :=
      map as_id
          (filter (fun a => String.eqb (as_courseId a) id)
                  (assessments db)) in
    {| users := users db;
       students := students db;
       courses := filter (fun c => negb (String.eqb c id)) (courses db);
       assessments :=
         filter (fun a => negb (String.eqb (as_courseId a) id))
                (assessments db);
       attendance :=
         filter (fun a => negb (String.eqb (at_courseId a) id))
                (attendance db);
       grades :=
         filter (fun g => negb (mem (g_assessmentId g) gone)) (grades db) |}
  else db.

(** *** Rows of the referenced tables

    [upsertUser], [createStudent], [createCourse] and [createAssessment]
    as far as the keys go: a successful call adds a row under a new
    primary key.  An assessment is stored when its [maxScore] fits
    [decimal(5,2)] and its [weight] fits [decimal(3,2)]. *)

Definition upsertUser (db : Database) (uuid : Id) : Database :=
  if mem uuid (users db) then db
  else {| users := users db ++ [uuid]; students := students db;
          courses := courses db; assessments := assessments db;
          attendance := attendance db; grades := grades db |}.

Definition createStudent (db : Database) (uuid : Id) : Database :=
  if mem uuid (students db) then db
  else {| users := users db; students := students db ++ [uuid];
          courses := courses db; assessments := assessments db;
          attendance := attendance db; grades := grades db |}.

Definition createCourse (db : Database) (uuid : Id) : Database :=
  if mem uuid (courses db) then db
  else {| users := users db; students := students db;
          courses := courses db ++ [uuid]; assessments := assessments db;
          attendance := attendance db; grades := grades db |}.

Definition createAssessment (db : Database) (a : Assessment) : Database :=
  if existsb (fun a' => String.eqb (as_id a') (as_id a)) (assessments db)
     || negb (mem (as_courseId a) (courses db))
     || negb (fits 5 (as_maxScore a) && fits 3 (as_weight a))
  then db
  else {| users := users db; students := students db;
          courses := courses db; assessments := assessments db ++ [a];
          attendance := attendance db; grades := grades db |}.

(** *** Calls in sequence

    A statement that fails leaves the tables as they were. *)

Definition commit {A} (db : Database) (r : result (A * Database))
    : Database :=
  match r with
  | Ok (_, db') => db'
  | Err _ => db
  end.

Inductive Call :=
| CreateGrade (grade : InsertGrade) (uuid : Id) (now : Timestamp)
| UpdateGrade (id : Id) (grade : PartialInsertGrade) (now : Timestamp)
| DeleteGrade (id : Id)
| MarkAttendance (attendanceData : InsertAttendance) (uuid : Id)
    (now : Timestamp)
| UpdateAttendance (id : Id) (attendanceData : PartialInsertAttendance)
| DeleteStudent (id : Id)
| DeleteCourse (id : Id)
| DeleteAssessment (id : Id)
| UpsertUser (uuid : Id)
| CreateStudent (uuid : Id)
| CreateCourse (uuid : Id)
| CreateAssessment (a : Assessment).

Definition perform (cs : Constraints) (db : Database) (c : Call)
    : Database :=
  match c with
  | CreateGrade grade uuid now => commit db (createGrade cs db grade uuid now)
  | UpdateGrade id grade now => commit db (updateGrade cs db id grade now)
  | DeleteGrade id => deleteGrade db id
  | MarkAttendance a uuid now => commit db (markAttendance cs db a uuid now)
  | UpdateAttendance id a => commit db (updateAttendance cs db id a)
  | DeleteStudent id => deleteStudent db id
  | DeleteCourse id => deleteCourse db id
  | DeleteAssessment id => deleteAssessment db id
  | UpsertUser uuid => upsertUser db uuid
  | CreateStudent uuid => createStudent db uuid
  | CreateCourse uuid => createCourse db uuid
  | CreateAssessment a => createAssessment db a
  end.

Definition perform_all (cs : Constraints) (db : Database)
    (calls : list Call) : Database :=
  fold_left (perform cs) calls db.

(** *** The attendance rate of [getDashboardStats] *)

Local Open Scope float_scope.

(** [where date >= current_date - interval '30 days'] *)
Definition in_window (current_date : Date) (a : Attendance) : bool :=
  (current_date - 30 <=? at_date a)%Z.

(** The two counts of the query, over all rows and over those [where
    status = 'PRESENT']; they reach JavaScript as numbers. *)
Definition count_present (rows : list Attendance) : number :=
  of_Z (Z.of_nat (List.length
                    (filter (fun a => AttendanceStatus_eqb (at_status a)
                                        PRESENT) rows))).

Definition count_total (rows : list Attendance) : number :=
  of_Z (Z.of_nat (List.length rows)).

Definition getDashboardStats_attendanceRate (current_date : Date) (db : Database)
    : number :=
  let rows := filter (in_window current_date) (attendance db) in
  let present := count_present rows in
  let total := count_total rows in
  let attendanceRate := if 0 <? total then present / total * 100 else 0 in
  Math_round (attendanceRate * 10) / 10.

End Storage.

Import Storage.

(** ** The routes: [POST /api/grades] *)

Module Routes.

(** A key of a JSON body: missing, holding a value that is not of the
    type the schema asks for, or holding one that is.  For a column that
    is [notNull] the type is a string (one of the names for an enum) and
    null is of the wrong type; for a nullable column the type is a string
    or null, [given None] standing for null. *)
Inductive field (A : Type) :=
| missing
| malformed
| given (a : A).
Arguments missing {A}.
Arguments malformed {A}.
Arguments given {A} a.

(** What an optional key of a schema makes of a field: [None] is the
    [ZodError]. *)
Definition optional {A} (f : field A) : option (option A) :=
  match f with
  | missing => Some None
  | given a => Some (Some a)
  | malformed => None
  end.

(** What a required key of a schema makes of a field. *)
Definition required {A} (f : field A) : option A :=
  match f with
  | given a => Some a
  | _ => None
  end.

(** The JSON body of the request.  The schema asks for a string as the
    score, whatever it spells. *)
Record GradeBody := {
  body_studentId : field Id;
  body_assessmentId : field Id;
  body_score : field NumericText;
  body_letterGrade : field (option string);
  body_feedback : field (option string) }.

(** [insertGradeSchema.parse({ ...req.body, gradedBy: sub })]: the
    schema derived from the table asks for the columns that are [notNull]
    without a default, takes the nullable ones when they are there, each
    of its type, and asks nothing more of their values. *)
Definition insertGradeSchema_parse (body : GradeBody) (sub : Id)
    : option InsertGrade :=
  match required (body_studentId body), required (body_assessmentId body),
        required (body_score body), optional (body_letterGrade body),
        optional (body_feedback body) with
  | Some studentId, Some assessmentId, Some score, Some letterGrade,
    Some feedback =>
      Some {| ig_studentId := studentId;
              ig_assessmentId := assessmentId;
              ig_score := score;
              ig_letterGrade := letterGrade;
              ig_feedback := feedback;
              ig_gradedBy := sub |}
  | _, _, _, _, _ => None
  end.

Inductive Response :=
| Created (grade : Grade)       (* 201 *)
| InvalidData                   (* 400, on a ZodError *)
| FailedToCreateGrade.          (* 500, on any other error *)

Definition post_grades (cs : Constraints) (db : Database)
    (body : GradeBody) (sub : Id) (uuid : Id) (now : Timestamp)
    : Response * Database :=
  match insertGradeSchema_parse body sub with
  | None => (InvalidData, db)
  | Some validatedData =>
      match createGrade cs db validatedData uuid now with
      | Ok (grade, db') => (Created grade, db')
      | Err _ => (FailedToCreateGrade, db)
      end
  end.

End Routes.

Import Routes.

(** ** The settings page: the grade boundaries inputs *)

Module Settings.

(** The five number inputs of the grading tab.  They are not bound to
    the form and no component reads them. *)
Record GradeBoundaries := {
  grade_a : number;
  grade_b : number;
  grade_c : number;
  grade_d : number;
  grade_f : number }.

Definition defaultBoundaries : GradeBoundaries :=
  {| grade_a := 90%float; grade_b := 80%float; grade_c := 70%float;
     grade_d := 60%float; grade_f := 0%float |}.

Inductive LetterResult :=
| Letter (letter : string)
| ConfigError.

(** The letter the gradebook shows when the settings hold [boundaries]:
    [getLetterGrade] has the percentage as its only argument. *)
Definition letterGradeFor (percentage : number)
    (boundaries : GradeBoundaries) : LetterResult :=
  Letter (getLetterGrade percentage).

End Settings.

Import Settings.

(** * Specification-side definitions and examples *)

(** ** Percentages, letters and rates *)

Section SpecNumbers.

Local Open Scope float_scope.

(** The sum of a list of doubles, accumulated left to right from 0. *)
Definition sum_numbers (l : list number) : number :=
  fold_left PrimFloat.add l 0.

(** The specification's [scoreOf]: the recorded score of the student on
    the assessment, 0 when there is no grade. *)
Definition scoreOf (grades : list Grade) (studentId : Id)
    (a : Assessment) : number :=
  match getGradeForStudentAssessment grades studentId (as_id a) with
  | Some g => Number (g_score g)
  | None => 0
  end.

(** [scoreOf] with the unsaved edits taken first: the edit kept under the
    key studentId-assessmentId when there is one, and otherwise the
    recorded score of [scoreOf]. *)
Definition editedScoreOf (grades : list Grade) (gradeChanges : object number)
    (studentId : Id) (a : Assessment) : number :=
  match get gradeChanges (studentId ++ "-" ++ as_id a)%string with
  | Some edited => edited
  | None => scoreOf grades studentId a
  end.

(** The specification's [computeCoursePercentage], for a given way of
    scoring an assessment. *)
Definition computeCoursePercentage (score : Assessment -> number)
    (assessments : list Assessment) : number :=
  let totalEarned :=
    sum_numbers (map (fun a => score a * Number (as_weight a)) assessments) in
  let totalPossible :=
    sum_numbers (map (fun a => Number (as_maxScore a) * Number (as_weight a))
                     assessments) in
  if 0 <? totalPossible then totalEarned / totalPossible * 100 else 0.

(** The scenario of the specification: a midterm out of 100 with weight 1,
    a quiz out of 50 with weight 0.5, and one grade of 80 on the midterm. *)
Definition midterm : Assessment :=
  {| as_id := "a1"; as_courseId := "c1"; as_name := "Midterm";
     as_type := MIDTERM; as_maxScore := 10000%Z; as_weight := 100%Z;
     as_dueDate := None; as_description := None;
     as_createdAt := None; as_updatedAt := None |}.

Definition quiz : Assessment :=
  {| as_id := "a2"; as_courseId := "c1"; as_name := "Quiz";
     as_type := QUIZ; as_maxScore := 5000%Z; as_weight := 50%Z;
     as_dueDate := None; as_description := None;
     as_createdAt := None; as_updatedAt := None |}.

Definition midterm_grade : Grade :=
  {| g_id := "g1"; g_studentId := "s1"; g_assessmentId := "a1";
     g_score := 8000%Z; g_letterGrade := None; g_feedback := None;
     g_gradedBy := "t1"; g_gradedAt := None; g_updatedAt := None |}.

(** The specification's table under the default boundaries, each range
    written out with both its bounds. *)
Definition letterGradeFor_default (p : number) : string :=
  if 90 <=? p then "A"
  else if (80 <=? p) && (p <? 90) then "B"
  else if (70 <=? p) && (p <? 80) then "C"
  else if (60 <=? p) && (p <? 70) then "D"
  else "F".

(** The boundaries of the specification's example: A from 80, B from 90. *)
Definition swapped_boundaries : GradeBoundaries :=
  {| grade_a := 80; grade_b := 90; grade_c := 70; grade_d := 60;
     grade_f := 0 |}.

(** The specification's rounding: the number of tenths nearest to [q], a
    tie going up. *)
Definition round_half_up_tenths (q : Q) : Z :=
  Qfloor (q * inject_Z 10 + (1 # 2))%Q.

(** The specification's [computeAttendanceRate]: present / total * 100
    rounded to one decimal, 0 without records.  The result is the double
    written with that one decimal. *)
Definition computeAttendanceRate (present total : nat) : number :=
  match total with
  | O => 0
  | S _ =>
      of_Z (round_half_up_tenths
              (inject_Z (Z.of_nat present) / inject_Z (Z.of_nat total)
               * inject_Z 100)%Q) / 10
  end.

Definition two_digits (n : nat) : string :=
  String (Ascii.ascii_of_nat (48 + n / 10))
    (String (Ascii.ascii_of_nat (48 + n mod 10)) EmptyString).

(** One session of course c1 on day [date]: [total] students, the first
    [present] of them present and the others absent. *)
Definition session (date : Date) (present total : nat) : list Attendance :=
  map (fun i =>
         {| at_id := ("att" ++ two_digits i)%string;
            at_studentId := ("s" ++ two_digits i)%string;
            at_courseId := "c1"%string;
            at_date := date;
            at_status := if (i <? present)%nat then PRESENT else ABSENT;
            at_notes := None;
            at_markedBy := "t1"%string;
            at_markedAt := Some 0%Z |})
      (seq 0 total).

Definition store_with (rows : list Attendance) : Database :=
  {| users := ["t1"%string]; students := map at_studentId rows;
     courses := ["c1"%string]; assessments := [];
     attendance := rows; grades := [] |}.

End SpecNumbers.

(** ** Session counts *)

Section SpecCounts.

Local Open Scope nat_scope.

(** A status string that names one of the four values of the enum. *)
Definition recognized (status : string) : Prop :=
  exists s : AttendanceStatus, status = status_name s.

Definition occurrences (status : string) (l : list string) : nat :=
  count_occ string_dec l status.

(** Ten students: six present, two absent, one late, one excused. *)
Definition ten_records : object string :=
  [("s01", "PRESENT"); ("s02", "ABSENT"); ("s03", "PRESENT");
   ("s04", "LATE"); ("s05", "PRESENT"); ("s06", "PRESENT");
   ("s07", "EXCUSED"); ("s08", "ABSENT"); ("s09", "PRESENT");
   ("s10", "PRESENT")]%string.

End SpecCounts.

(** ** Stores, keys and requests *)

Section SpecStores.

(** The keys of both tables are pairwise distinct, and a table whose key
    has no unique index holds no row: its only insert is the upsert. *)
Definition consistent (cs : Constraints) (db : Database) : Prop :=
  NoDup (map grade_key (grades db))
  /\ NoDup (map attendance_key (attendance db))
  /\ (grades_student_assessment_unique cs = false -> grades db = [])
  /\ (attendance_student_course_date_unique cs = false ->
      attendance db = []).

(** A store with one teacher, one student, one course and its two
    assessments, and neither grades nor attendance rows. *)
Definition example_store : Database :=
  {| users := ["t1"%string]; students := ["s1"%string];
     courses := ["c1"%string]; assessments := [midterm; quiz];
     attendance := []; grades := [] |}.

Definition score_80 : InsertGrade :=
  {| ig_studentId := "s1"; ig_assessmentId := "a1"; ig_score := 8000;
     ig_letterGrade := Some (Some "B"%string); ig_feedback := None;
     ig_gradedBy := "t1" |}.

Definition mark (status : AttendanceStatus) : InsertAttendance :=
  {| ia_studentId := "s1"; ia_courseId := "c1"; ia_date := 100;
     ia_status := status; ia_notes := None; ia_markedBy := "t1" |}.

Definition grades_of (studentId assessmentId : Id) (db : Database)
    : list Grade :=
  filter (fun g => grade_key_eqb (grade_key g) (studentId, assessmentId))
         (grades db).

Definition attendance_of (studentId courseId : Id) (date : Date)
    (db : Database) : list Attendance :=
  filter (fun a => attendance_key_eqb (attendance_key a)
                     (studentId, courseId, date))
         (attendance db).

Definition move_to_quiz : PartialInsertGrade :=
  {| pg_studentId := None; pg_assessmentId := Some "a2"%string;
     pg_score := None; pg_letterGrade := None; pg_feedback := None;
     pg_gradedBy := None |}.

(** A run from the empty store: the referenced rows are created, a grade
    is entered twice and moved to the quiz, a mark is set and changed. *)
Definition example_calls : list Call :=
  [UpsertUser "t1"; CreateStudent "s1"; CreateCourse "c1";
   CreateAssessment midterm; CreateAssessment quiz;
   CreateGrade score_80 "g1" 1; CreateGrade score_80 "g2" 2;
   UpdateGrade "g1" move_to_quiz 3;
   MarkAttendance (mark PRESENT) "m1" 4;
   MarkAttendance (mark ABSENT) "m2" 5; DeleteGrade "g9"].

Definition stored_grade : Grade :=
  {| g_id := "g1"; g_studentId := "s1"; g_assessmentId := "a1";
     g_score := 8000; g_letterGrade := Some "B"%string; g_feedback := None;
     g_gradedBy := "t1"; g_gradedAt := Some 1; g_updatedAt := Some 1 |}.

Definition score_95 : InsertGrade :=
  {| ig_studentId := "s1"; ig_assessmentId := "a1"; ig_score := 9500;
     ig_letterGrade := Some (Some "A"%string);
     ig_feedback := Some (Some "regraded"%string); ig_gradedBy := "t1" |}.

(** A regrade that carries a score and nothing else. *)
Definition score_70 : InsertGrade :=
  {| ig_studentId := "s1"; ig_assessmentId := "a1"; ig_score := 7000;
     ig_letterGrade := None; ig_feedback := None; ig_gradedBy := "t1" |}.

(** A score of 1000.00, one more digit than [decimal(5,2)] holds. *)
Definition score_1000 : InsertGrade :=
  {| ig_studentId := "s1"; ig_assessmentId := "a1"; ig_score := 100000;
     ig_letterGrade := None; ig_feedback := None; ig_gradedBy := "t1" |}.

Definition stored_attendance : Attendance :=
  {| at_id := "m1"; at_studentId := "s1"; at_courseId := "c1";
     at_date := 100; at_status := PRESENT; at_notes := Some "bus"%string;
     at_markedBy := "t1"; at_markedAt := Some 1 |}.

Definition store_with_rows : Database :=
  {| users := ["t1"%string]; students := ["s1"%string];
     courses := ["c1"%string]; assessments := [midterm; quiz];
     attendance := [stored_attendance]; grades := [stored_grade] |}.

Definition with_score (body : GradeBody) (score : NumericText)
    : GradeBody :=
  {| body_studentId := body_studentId body;
     body_assessmentId := body_assessmentId body;
     body_score := given score;
     body_letterGrade := body_letterGrade body;
     body_feedback := body_feedback body |}.

(** A key that holds no value of the type asked for: it is missing or
    ill-typed. *)
Definition not_given {A} (f : field A) : Prop := forall a, f <> given a.

Definition status_code (r : Response) : Z :=
  match r with
  | Created _ => 201
  | InvalidData => 400
  | FailedToCreateGrade => 500
  end.

(** Every stored grade refers to a stored student and assessment. *)
Definition referential_integrity (db : Database) : Prop :=
  forall row, In row (grades db) ->
    mem (g_studentId row) (students db) = true
    /\ existsb (fun a => String.eqb (as_id a) (g_assessmentId row))
               (assessments db) = true.

Definition minus_five : GradeBody :=
  {| body_studentId := given "s1"%string;
     body_assessmentId := given "a1"%string;
     body_score := given (numeric (-500));
     body_letterGrade := missing; body_feedback := missing |}.

Definition unknown_student : GradeBody :=
  {| body_studentId := given "s9"%string;
     body_assessmentId := given "a1"%string;
     body_score := given (numeric 8000);
     body_letterGrade := missing; body_feedback := missing |}.

(** A body whose letterGrade is a number. *)
Definition letter_as_number : GradeBody :=
  {| body_studentId := given "s1"%string;
     body_assessmentId := given "a1"%string;
     body_score := given (numeric 8000);
     body_letterGrade := malformed; body_feedback := missing |}.

Definition grade_parents_ok (db : Database) (grade : InsertGrade) : Prop :=
  mem (ig_studentId grade) (students db) = true
  /\ existsb (fun a => String.eqb (as_id a) (ig_assessmentId grade))
             (assessments db) = true
  /\ mem (ig_gradedBy grade) (users db) = true.

Definition attendance_parents_ok (db : Database) (a : InsertAttendance)
    : Prop :=
  mem (ia_studentId a) (students db) = true
  /\ mem (ia_courseId a) (courses db) = true
  /\ mem (ia_markedBy a) (users db) = true.

End SpecStores.

(** * Further code: edits, forms and routes *)

(** ** JavaScript objects and strings *)

From Stdlib Require Import Ascii.

Module JSMore.

Definition Object_keys {V} (o : object V) : list string := map fst o.

Definition digit (c : Ascii.ascii) : option Z :=
  let n := Z.of_nat (Ascii.nat_of_ascii c) in
  if (48 <=? n) && (n <=? 57) then Some (n - 48) else None.

Fixpoint digits (acc : Z) (s : string) : option Z :=
  match s with
  | EmptyString => Some acc
  | String c s' =>
      match digit c with
      | Some d => digits (10 * acc + d) s'
      | None => None
      end
  end.

(** An array index: the decimal writing, without a leading zero, of an
    integer from 0 to 2^32 - 2. *)
Definition array_index (k : string) : option Z :=
  match k with
  | EmptyString => None
  | String c s' =>
      match digit c with
      | Some d =>
          if (d =? 0) && negb (String.eqb s' "") then None
          else match digits d s' with
               | Some n => if n <? 2 ^ 32 - 1 then Some n else None
               | None => None
               end
      | None => None
      end
  end.

(** The order of the keys of an object: the array indexes first, in
    ascending order, and then the other keys as they were created.  So a
    new key [k] is listed before an old key [k'] when [k] is an array
    index and [k'] is none or is a larger one. *)
Definition listed_before (k k' : string) : bool :=
  match array_index k, array_index k' with
  | Some i, Some i' => i <? i'
  | Some _, None => true
  | None, _ => false
  end.

Fixpoint replace_key {V} (o : object V) (k : string) (v : V) : object V :=
  match o with
  | [] => []
  | (k', v') :: o' =>
      if String.eqb k' k then (k', v) :: o'
      else (k', v') :: replace_key o' k v
  end.

Fixpoint insert_key {V} (o : object V) (k : string) (v : V) : object V :=
  match o with
  | [] => [(k, v)]
  | (k', v') :: o' =>
      if listed_before k k' then (k, v) :: (k', v') :: o'
      else (k', v') :: insert_key o' k v
  end.

(** [{ ...o, [k]: v }]: the value under [k] is replaced where it stands,
    and a new key takes its place in the order of the keys, which for a
    key that is no array index is the end. *)
Definition set_key {V} (o : object V) (k : string) (v : V) : object V :=
  if existsb (String.eqb k) (Object_keys o) then replace_key o k v
  else insert_key o k v.

(** [x || 0] on a number: NaN and the zeros are falsy. *)
Definition or_zero (x : number) : number :=
  if negb (PrimFloat.eqb x x) || PrimFloat.eqb x 0 then 0%float else x.

(** [s.split(sep)] for a separator of one character. *)
Fixpoint split (sep : Ascii.ascii) (s : string) : list string :=
  match s with
  | EmptyString => [EmptyString]
  | String c s' =>
      if Ascii.eqb c sep then EmptyString :: split sep s'
      else match split sep s' with
           | [] => [String c EmptyString]
           | part :: parts => String c part :: parts
           end
  end.

Fixpoint contains (sep : Ascii.ascii) (s : string) : bool :=
  match s with
  | EmptyString => false
  | String c s' => Ascii.eqb c sep || contains sep s'
  end.

Definition dash : Ascii.ascii := "-"%char.

End JSMore.

Import JSMore.

(** ** The gradebook: editing and saving *)

Module GradebookEdits.

(** [handleGradeChange(studentId, assessmentId, value)], with [parsed] the
    number [parseFloat(value)] gives. *)
Definition handleGradeChange (gradeChanges : object number)
    (studentId assessmentId : Id) (parsed : number) : object number :=
  let numValue := or_zero parsed in
  set_key gradeChanges (gradeKey studentId assessmentId) numValue.

(** What [updateGradeMutation.mutateAsync] is called with. *)
Record GradeMutation := {
  mutation_gradeId : Id;
  mutation_score : number }.

(** The body of the [map] of [handleSaveChanges]: the request for one
    entry of [gradeChanges], [None] standing for [Promise.resolve()].  A
    key without a dash leaves [assessmentId] undefined, which no grade
    matches. *)
Definition saveChange (grades : list Grade) (entry : string * number)
    : option GradeMutation :=
  let '(key, score) := entry in
  match split dash key with
  | studentId :: assessmentId :: _ =>
      match getGradeForStudentAssessment grades studentId assessmentId with
      | Some existingGrade =>
          Some {| mutation_gradeId := g_id existingGrade;
                  mutation_score := score |}
      | None => None
      end
  | _ => None
  end.

Definition handleSaveChanges (grades : list Grade)
    (gradeChanges : object number) : list (option GradeMutation) :=
  map (saveChange grades) gradeChanges.

End GradebookEdits.

Import GradebookEdits.

(** ** The grade entry form *)

Module GradeEntryForm.

(** The values of the form that [onSubmit] reads. *)
Record GradeEntryData := {
  data_studentId : Id;
  data_assessmentId : Id;
  data_score : number;
  data_letterGrade : string;
  data_feedback : string;
  data_courseId : Id }.

Record GradePayload := {
  payload_studentId : Id;
  payload_assessmentId : Id;
  payload_score : number;
  payload_letterGrade : string;
  payload_feedback : string }.

(** [onSubmit]: the letter is the chosen one, or is computed from the
    score and the maximum of the selected assessment, 100 when the
    assessment is not in the list; [courseId] is dropped. *)
Definition onSubmit (assessments : list Assessment) (data : GradeEntryData)
    : GradePayload :=
  let selectedAssessment :=
    find (fun a => String.eqb (as_id a) (data_assessmentId data))
         assessments in
  let maxScore :=
    match selectedAssessment with
    | Some a => Number (as_maxScore a)
    | None => 100%float
    end in
  {| payload_studentId := data_studentId data;
     payload_assessmentId := data_assessmentId data;
     payload_score := data_score data;
     payload_letterGrade :=
       if String.eqb (data_letterGrade data) ""
       then calculateLetterGrade (data_score data) maxScore
       else data_letterGrade data;
     payload_feedback := data_feedback data |}.

End GradeEntryForm.

Import GradeEntryForm.

(** ** The attendance page and form: marking *)

Module AttendancePage.

(** [handleAttendanceChange(studentId, status)], the same in the page and
    in the form. *)
Definition handleAttendanceChange (attendanceData : object string)
    (studentId : Id) (status : string) : object string :=
  set_key attendanceData studentId status.

(** The four numbers of the page's quick stats:
    [Object.values(attendanceData).filter(status => status === name)
    .length]. *)
Definition quickStat (attendanceData : object string) (name : string)
    : nat :=
  List.length (filter (fun status => String.eqb status name)
                      (Object_values attendanceData)).

(** What [markAttendanceMutation.mutateAsync] is called with; the date is
    the text of the date input. *)
Record AttendanceRecord := {
  record_studentId : Id;
  record_courseId : Id;
  record_date : string;
  record_status : string }.

(** [handleSaveAttendance]: nothing is sent without a course or a date,
    and otherwise one request per entry. *)
Definition handleSaveAttendance (selectedCourse selectedDate : string)
    (attendanceData : object string) : list AttendanceRecord :=
  if String.eqb selectedCourse "" || String.eqb selectedDate "" then []
  else map (fun '(studentId, status) =>
              {| record_studentId := studentId;
                 record_courseId := selectedCourse;
                 record_date := selectedDate;
                 record_status := status |}) attendanceData.

End AttendancePage.

Import AttendancePage.

(** ** The routes: [PATCH /api/grades/:id] and [POST /api/attendance] *)

Module MoreRoutes.

(** The JSON body of [PATCH /api/grades/:id]. *)
Record GradePatchBody := {
  patch_studentId : field Id;
  patch_assessmentId : field Id;
  patch_score : field NumericText;
  patch_letterGrade : field (option string);
  patch_feedback : field (option string);
  patch_gradedBy : field Id }.

(** [insertGradeSchema.partial().parse({ ...req.body, gradedBy: sub })]:
    whatever the body says of [gradedBy] is overwritten first. *)
Definition partialGradeSchema_parse (body : GradePatchBody) (sub : Id)
    : option PartialInsertGrade :=
  match optional (patch_studentId body), optional (patch_assessmentId body),
        optional (patch_score body), optional (patch_letterGrade body),
        optional (patch_feedback body) with
  | Some studentId, Some assessmentId, Some score, Some letterGrade,
    Some feedback =>
      Some {| pg_studentId := studentId;
              pg_assessmentId := assessmentId;
              pg_score := score;
              pg_letterGrade := letterGrade;
              pg_feedback := feedback;
              pg_gradedBy := Some sub |}
  | _, _, _, _, _ => None
  end.

Inductive PatchResponse :=
| Json (grade : option Grade)   (* 200; the body is empty without a row *)
| PatchInvalidData              (* 400, on a ZodError *)
| FailedToUpdateGrade.          (* 500, on any other error *)

Definition patch_grades (cs : Constraints) (db : Database) (id : Id)
    (body : GradePatchBody) (sub : Id) (now : Timestamp)
    : PatchResponse * Database :=
  match partialGradeSchema_parse body sub with
  | None => (PatchInvalidData, db)
  | Some validatedData =>
      match updateGrade cs db id validatedData now with
      | Ok (grade, db') => (Json grade, db')
      | Err _ => (FailedToUpdateGrade, db)
      end
  end.

(** The JSON body of [POST /api/attendance]; its date, when given, is the
    string of a day. *)
Record AttendanceBody := {
  abody_studentId : field Id;
  abody_courseId : field Id;
  abody_date : field Date;
  abody_status : field AttendanceStatus;
  abody_notes : field (option string);
  abody_markedBy : field Id }.

(** [insertAttendanceSchema.parse({ ...req.body, markedBy: sub })] *)
Definition insertAttendanceSchema_parse (body : AttendanceBody) (sub : Id)
    : option InsertAttendance :=
  match required (abody_studentId body), required (abody_courseId body),
        required (abody_date body), required (abody_status body),
        optional (abody_notes body) with
  | Some studentId, Some courseId, Some date, Some status, Some notes =>
      Some {| ia_studentId := studentId;
              ia_courseId := courseId;
              ia_date := date;
              ia_status := status;
              ia_notes := notes;
              ia_markedBy := sub |}
  | _, _, _, _, _ => None
  end.

Inductive AttendanceResponse :=
| AttendanceCreated (attendance : Attendance)   (* 201 *)
| AttendanceInvalidData                         (* 400 *)
| FailedToMarkAttendance.                       (* 500 *)

Definition post_attendance (cs : Constraints) (db : Database)
    (body : AttendanceBody) (sub : Id) (uuid : Id) (now : Timestamp)
    : AttendanceResponse * Database :=
  match insertAttendanceSchema_parse body sub with
  | None => (AttendanceInvalidData, db)
  | Some validatedData =>
      match markAttendance cs db validatedData uuid now with
      | Ok (attendance, db') => (AttendanceCreated attendance, db')
      | Err _ => (FailedToMarkAttendance, db)
      end
  end.

End MoreRoutes.

Import MoreRoutes.

(** ** Foreign keys *)

(** Every reference of a stored row resolves: the student, assessment and
    grader of a grade, the student, course and marker of an attendance
    row, the course of an assessment. *)
Definition foreign_keys_hold (db : Database) : Prop :=
  (forall g, In g (grades db) -> grade_references_ok db g = true)
  /\ (forall a, In a (attendance db) -> attendance_references_ok db a = true)
  /\ (forall a, In a (assessments db) -> mem (as_courseId a) (courses db) = true).

(** A status that is none of the four names. *)
Definition unrecognized (status : string) : bool :=
  negb (String.eqb status "PRESENT" || String.eqb status "ABSENT"
        || String.eqb status "LATE" || String.eqb status "EXCUSED").

(** The order of the letters: "F" lowest, "A" highest. *)
Definition letter_rank (letter : string) : nat :=
  if String.eqb letter "A" then 4
  else if String.eqb letter "B" then 3
  else if String.eqb letter "C" then 2
  else if String.eqb letter "D" then 1
  else 0.

(** * Properties *)

(** ** Comparisons of doubles *)

Section FloatOrder.

Local Open Scope float_scope.

Lemma SFcompare_antisym (x y : spec_float) :
  SFcompare y x = option_map CompOpp (SFcompare x y).
Proof.
  destruct x as [sx|sx| |sx mx ex], y as [sy|sy| |sy my ey]; simpl;
    try reflexivity;
    try (destruct sx; reflexivity); try (destruct sy; reflexivity);
    try (destruct sx, sy; reflexivity).
  destruct sx, sy; simpl; try reflexivity;
    rewrite (Z.compare_antisym ey ex);
    destruct (ey ?= ex)%Z eqn:E; simpl; try reflexivity;
    rewrite (Pos.compare_cont_antisym mx my Eq); simpl;
    try rewrite CompOpp_involutive; reflexivity.
Qed.

Lemma SFcompare_defined (x y : spec_float) :
  x <> S754_nan -> y <> S754_nan -> SFcompare x y <> None.
Proof.
  destruct x, y; simpl; congruence.
Qed.

Lemma leb_true_not_nan (c p : float) :
  (c <=? p) = true -> Prim2SF c <> S754_nan /\ Prim2SF p <> S754_nan.
Proof.
  rewrite FloatAxioms.leb_spec. unfold SFleb.
  destruct (Prim2SF c), (Prim2SF p); simpl; split; congruence.
Qed.

(** Between two numbers neither of which is NaN, "not c <= p" is
    "p < c". *)
Lemma leb_false_ltb (c p : float) :
  Prim2SF c <> S754_nan -> Prim2SF p <> S754_nan ->
  (c <=? p) = false -> (p <? c) = true.
Proof.
  intros Hc Hp. rewrite FloatAxioms.leb_spec, FloatAxioms.ltb_spec. unfold SFleb, SFltb.
  rewrite (SFcompare_antisym (Prim2SF c) (Prim2SF p)).
  pose proof (SFcompare_defined _ _ Hc Hp) as Hd.
  destruct (SFcompare (Prim2SF c) (Prim2SF p)) as [[ | | ]|]; simpl;
    congruence.
Qed.

(** Two doubles that a boolean test tells apart are different. *)
Lemma number_neq (x y : float) :
  PrimFloat.eqb x x = true -> PrimFloat.eqb x y = false -> x <> y.
Proof.
  intros Hx Hxy E. rewrite <- E, Hx in Hxy. discriminate.
Qed.

End FloatOrder.

(** ** Course percentage *)

Section CoursePercentage.

Local Open Scope float_scope.

Lemma fold_accumulate grades gradeChanges studentId l :
  forall earned possible,
    fold_left (accumulate grades gradeChanges studentId) l (earned, possible)
    = (fold_left PrimFloat.add
         (map (fun a => currentScore grades gradeChanges studentId a
                        * Number (as_weight a)) l) earned,
       fold_left PrimFloat.add
         (map (fun a => Number (as_maxScore a) * Number (as_weight a)) l)
         possible).
Proof.
  induction l as [|a l IH]; intros earned possible; simpl.
  - reflexivity.
  - apply IH.
Qed.

Lemma calculateStudentTotal_eq filterType assessments grades gradeChanges
    studentId :
  calculateStudentTotal filterType assessments grades gradeChanges studentId
  = computeCoursePercentage (currentScore grades gradeChanges studentId)
      (filteredAssessments filterType assessments).
Proof.
  unfold calculateStudentTotal, computeCoursePercentage, sum_numbers.
  rewrite fold_accumulate. reflexivity.
Qed.

(** When a grade of the student for the assessment is recorded, and every
    such grade carries the same score, [scoreOf] is that score. *)
Lemma scoreOf_recorded grades studentId a g :
  In g grades ->
  g_studentId g = studentId -> g_assessmentId g = as_id a ->
  (forall g', In g' grades -> g_studentId g' = studentId ->
              g_assessmentId g' = as_id a -> g_score g' = g_score g) ->
  scoreOf grades studentId a = Number (g_score g).
Proof.
  intros Hin Hs Ha Huniq. unfold scoreOf, getGradeForStudentAssessment.
  destruct (find _ grades) as [g'|] eqn:F.
  - apply find_some in F. destruct F as [Hin' Hm].
    apply andb_true_iff in Hm. destruct Hm as [H1 H2].
    apply String.eqb_eq in H1, H2.
    rewrite (Huniq g' Hin' H1 H2). reflexivity.
  - exfalso. apply (find_none _ _ F) in Hin.
    rewrite Hs, Ha, !String.eqb_refl in Hin. discriminate.
Qed.

Lemma scoreOf_missing grades studentId a :
  (forall g, In g grades ->
             ~ (g_studentId g = studentId /\ g_assessmentId g = as_id a)) ->
  scoreOf grades studentId a = 0.
Proof.
  intros Hno. unfold scoreOf, getGradeForStudentAssessment.
  destruct (find _ grades) as [g'|] eqn:F; [|reflexivity].
  apply find_some in F. destruct F as [Hin' Hm].
  apply andb_true_iff in Hm. destruct Hm as [H1 H2].
  apply String.eqb_eq in H1, H2. exfalso. apply (Hno g' Hin'). tauto.
Qed.

(** C1, as amended.  [calculateStudentTotal] returns
    (sum of current(a) * weight(a)) / (sum of maxScore(a) * weight(a)) * 100
    over the filtered assessments when the denominator is positive and 0
    otherwise, in double arithmetic summed in list order, where current(a)
    is [editedScoreOf]: the unsaved edit kept in [gradeChanges] under the
    key studentId-assessmentId when there is one, whatever grade is
    recorded, and otherwise the recorded score, or 0 without a grade.
    With no unsaved edit this is the formula of the specification over
    [scoreOf], and its scenario evaluates to 64, letter "D"; with an edit
    of 50 pending on the midterm the same scenario evaluates to 40. *)
Theorem calculateStudentTotal_weighted_percentage :
  (forall filterType assessments grades gradeChanges studentId,
      calculateStudentTotal filterType assessments grades gradeChanges
        studentId
      = computeCoursePercentage (editedScoreOf grades gradeChanges studentId)
          (filteredAssessments filterType assessments))
  /\ (forall grades gradeChanges studentId a,
         currentScore grades gradeChanges studentId a
         = editedScoreOf grades gradeChanges studentId a)
  /\ (forall grades gradeChanges studentId a edited,
         editedScoreOf grades
           (((studentId ++ "-" ++ as_id a)%string, edited) :: gradeChanges)
           studentId a = edited)
  /\ (forall grades studentId a,
         editedScoreOf grades [] studentId a = scoreOf grades studentId a)
  /\ (forall filterType assessments grades studentId,
         calculateStudentTotal filterType assessments grades [] studentId
         = computeCoursePercentage (scoreOf grades studentId)
             (filteredAssessments filterType assessments))
  /\ calculateStudentTotal None [midterm; quiz] [midterm_grade] [] "s1" = 64
  /\ getLetterGrade 64 = "D"
  /\ calculateStudentTotal None [midterm; quiz] [midterm_grade]
       [("s1-a1"%string, 50)] "s1" = 40.
Proof.
  split; [|split; [|split; [|split; [|split; [|split; [|split]]]]]].
  - intros. rewrite calculateStudentTotal_eq. reflexivity.
  - reflexivity.
  - intros. unfold editedScoreOf. simpl. now rewrite String.eqb_refl.
  - reflexivity.
  - intros. rewrite calculateStudentTotal_eq. reflexivity.
  - reflexivity.
  - reflexivity.
  - reflexivity.
Qed.

(** C1 as stated fails once the teacher has typed a score that is not yet
    saved: with 50 entered for the midterm the total is 40, while the
    formula over the recorded grades gives 64. *)
Lemma calculateStudentTotal_uses_unsaved_edits :
  calculateStudentTotal None [midterm; quiz] [midterm_grade]
    [("s1-a1"%string, 50)] "s1" = 40
  /\ computeCoursePercentage (scoreOf [midterm_grade] "s1") [midterm; quiz]
     = 64
  /\ calculateStudentTotal None [midterm; quiz] [midterm_grade]
       [("s1-a1"%string, 50)] "s1"
     <> computeCoursePercentage (scoreOf [midterm_grade] "s1")
          [midterm; quiz].
Proof.
  split; [reflexivity|]. split; [reflexivity|].
  apply number_neq; reflexivity.
Qed.

End CoursePercentage.

(** ** Letter grades *)

Section LetterGrades.

Local Open Scope float_scope.

Lemma in_range (lo hi p : float) :
  Prim2SF hi <> S754_nan ->
  (hi <=? p) = false -> (lo <=? p) && (p <? hi) = (lo <=? p).
Proof.
  intros Hhi Hle. destruct (lo <=? p) eqn:Hlo; [|reflexivity].
  simpl. apply leb_false_ltb; auto.
  apply (leb_true_not_nan lo p Hlo).
Qed.

Lemma getLetterGrade_ranges (p : number) :
  getLetterGrade p = letterGradeFor_default p.
Proof.
  unfold getLetterGrade, letterGradeFor_default.
  destruct (90 <=? p) eqn:H90; [reflexivity|].
  rewrite (in_range 80 90 p) by (vm_compute; congruence || assumption).
  destruct (80 <=? p) eqn:H80; [reflexivity|].
  rewrite (in_range 70 80 p) by (vm_compute; congruence || assumption).
  destruct (70 <=? p) eqn:H70; [reflexivity|].
  rewrite (in_range 60 70 p) by (vm_compute; congruence || assumption).
  reflexivity.
Qed.

(** C2.  Under the default boundaries [getLetterGrade] answers "A" from 90
    up, "B" on [80, 90), "C" on [70, 80), "D" on [60, 70) and "F" for
    everything else; [calculateLetterGrade] is the same table applied to
    score / maxScore * 100; and 92, 89.9, 60 and 59.9 map to "A", "B",
    "D" and "F". *)
Theorem getLetterGrade_default_boundaries :
  (forall p, getLetterGrade p = letterGradeFor_default p)
  /\ (forall score maxScore,
         calculateLetterGrade score maxScore
         = letterGradeFor_default (score / maxScore * 100))
  /\ getLetterGrade 92 = "A"
  /\ getLetterGrade (Number 8990%Z) = "B"
  /\ getLetterGrade 60 = "D"
  /\ getLetterGrade (Number 5990%Z) = "F".
Proof.
  split; [apply getLetterGrade_ranges|].
  split; [intros; apply (getLetterGrade_ranges (score / maxScore * 100))|].
  repeat split; reflexivity.
Qed.

End LetterGrades.

(** ** Grade boundaries *)

Section Boundaries.

Local Open Scope float_scope.

(** C6 as stated fails: with boundaries that are not descending the
    gradebook still answers with a letter. *)
Lemma letterGradeFor_accepts_swapped_boundaries :
  letterGradeFor 85 swapped_boundaries = Letter "B"
  /\ letterGradeFor 85 swapped_boundaries <> ConfigError.
Proof.
  split; [reflexivity | discriminate].
Qed.

(** C6, as amended.  The letter does not depend on any boundaries
    configuration: for every percentage and every table it is the letter
    of the fixed thresholds 90, 80, 70, 60, which are strictly
    descending, and no configuration is rejected. *)
Theorem letterGradeFor_fixed_thresholds :
  (forall percentage boundaries,
      letterGradeFor percentage boundaries
      = Letter (letterGradeFor_default percentage))
  /\ (forall percentage boundaries,
         letterGradeFor percentage boundaries
         = letterGradeFor percentage defaultBoundaries)
  /\ (forall percentage boundaries,
         letterGradeFor percentage boundaries <> ConfigError)
  /\ (60 <? 70) = true /\ (70 <? 80) = true /\ (80 <? 90) = true.
Proof.
  split; [|split; [|split]].
  - intros. unfold letterGradeFor. now rewrite getLetterGrade_ranges.
  - reflexivity.
  - discriminate.
  - repeat split; reflexivity.
Qed.

End Boundaries.

(** ** Session summary *)

Section SessionSummary.

Local Open Scope nat_scope.

Lemma tally_counts (l : list string) :
  forall c,
    count_PRESENT (fold_left tally l c)
    = count_PRESENT c + occurrences "PRESENT" l
    /\ count_ABSENT (fold_left tally l c)
       = count_ABSENT c + occurrences "ABSENT" l
    /\ count_LATE (fold_left tally l c)
       = count_LATE c + occurrences "LATE" l
    /\ count_EXCUSED (fold_left tally l c)
       = count_EXCUSED c + occurrences "EXCUSED" l.
Proof.
  unfold occurrences.
  induction l as [|status l IH]; intros c; simpl.
  - repeat split; lia.
  - destruct (IH (tally c status)) as (HP & HA & HL & HE).
    rewrite HP, HA, HL, HE. clear IH HP HA HL HE. unfold tally.
    destruct (String.eqb_spec status "PRESENT") as [->|NP]; simpl.
    { repeat split; lia. }
    destruct (String.eqb_spec status "ABSENT") as [->|NA]; simpl.
    { repeat split; lia. }
    destruct (String.eqb_spec status "LATE") as [->|NL]; simpl.
    { repeat split; lia. }
    destruct (String.eqb_spec status "EXCUSED") as [->|NE]; simpl.
    { repeat split; lia. }
    destruct (string_dec status "PRESENT"); [contradiction|].
    destruct (string_dec status "ABSENT"); [contradiction|].
    destruct (string_dec status "LATE"); [contradiction|].
    destruct (string_dec status "EXCUSED"); [contradiction|].
    repeat split; lia.
Qed.

Lemma recognized_partition (l : list string) :
  Forall recognized l ->
  occurrences "PRESENT" l + occurrences "ABSENT" l
  + occurrences "LATE" l + occurrences "EXCUSED" l = List.length l.
Proof.
  unfold occurrences.
  induction 1 as [|status l [s ->] _ IH]; simpl; [reflexivity|].
  destruct s; simpl; lia.
Qed.

(** C8.  Over the entries of an attendance session, each carrying one of
    the four statuses, [getStatusCounts] returns for each status the
    number of entries bearing it, counted from 0, and the four counts add
    up to the number of entries. *)
Theorem getStatusCounts_counts_each_status (attendanceData : object string) :
  Forall recognized (Object_values attendanceData) ->
  let counts := getStatusCounts attendanceData in
  count_PRESENT counts = occurrences "PRESENT" (Object_values attendanceData)
  /\ count_ABSENT counts = occurrences "ABSENT" (Object_values attendanceData)
  /\ count_LATE counts = occurrences "LATE" (Object_values attendanceData)
  /\ count_EXCUSED counts
     = occurrences "EXCUSED" (Object_values attendanceData)
  /\ count_PRESENT counts + count_ABSENT counts + count_LATE counts
     + count_EXCUSED counts = List.length attendanceData.
Proof.
  intros Hrec counts. subst counts. unfold getStatusCounts.
  destruct (tally_counts (Object_values attendanceData)
              {| count_PRESENT := 0; count_ABSENT := 0;
                 count_LATE := 0; count_EXCUSED := 0 |})
    as (HP & HA & HL & HE).
  simpl in HP, HA, HL, HE. rewrite HP, HA, HL, HE.
  repeat split; try reflexivity.
  rewrite (recognized_partition _ Hrec).
  unfold Object_values. apply length_map.
Qed.

Lemma ten_records_recognized : Forall recognized (Object_values ten_records).
Proof.
  repeat constructor;
    solve [ exists PRESENT; reflexivity | exists ABSENT; reflexivity
          | exists LATE; reflexivity | exists EXCUSED; reflexivity ].
Defined.

(** The session of the specification: the counts are 6, 2, 1 and 1 and
    add up to 10. *)
Lemma getStatusCounts_ten_records :
  Forall recognized (Object_values ten_records)
  /\ getStatusCounts ten_records
     = {| count_PRESENT := 6; count_ABSENT := 2;
          count_LATE := 1; count_EXCUSED := 1 |}
  /\ (let counts := getStatusCounts ten_records in
      count_PRESENT counts = 6 /\ count_ABSENT counts = 2
      /\ count_LATE counts = 1 /\ count_EXCUSED counts = 1
      /\ count_PRESENT counts + count_ABSENT counts + count_LATE counts
         + count_EXCUSED counts = 10).
Proof.
  split; [exact ten_records_recognized|]. split; [reflexivity|].
  exact (getStatusCounts_counts_each_status ten_records
           ten_records_recognized).
Defined.

End SessionSummary.

(** ** Attendance rate *)

Section AttendanceRate.

Local Open Scope float_scope.

Lemma session_well_formed :
  NoDup (map at_id (session 100%Z 23 80))
  /\ NoDup (map attendance_key (session 100%Z 23 80)).
Proof.
  split.
  - apply (NoDup_count_occ' string_dec).
    intros x Hx. vm_compute in Hx.
    repeat (destruct Hx as [<-|Hx]; [vm_compute; reflexivity|]).
    contradiction.
  - assert (H : NoDup (map at_studentId (session 100%Z 23 80))).
    { apply (NoDup_count_occ' string_dec).
      intros x Hx. vm_compute in Hx.
      repeat (destruct Hx as [<-|Hx]; [vm_compute; reflexivity|]).
      contradiction. }
    revert H. generalize (session 100%Z 23 80). intros l.
    induction l as [|a l IH]; simpl; intros H; [constructor|].
    inversion H as [|? ? Hn Hl]; subst. constructor; [|auto].
    intros Hin. apply Hn. apply in_map_iff in Hin.
    destruct Hin as (b & Hb & Hin). apply in_map_iff. exists b.
    split; [|assumption]. unfold attendance_key in Hb. congruence.
Qed.

(** C9 at a session of 80 students with 23 present, marked on the
    current day.  The rate is 28.75 percent, which rounds half up to
    28.8; the double 23 / 80 * 100 is 28.749999999999996, ten times it
    is 287.49999999999994, and the answer is 28.7.  A session of 30 with
    27 present gives 90 as specified. *)
Theorem attendanceRate_23_of_80 :
  getDashboardStats_attendanceRate 100%Z (store_with (session 100%Z 23 80))
  = Number 2870%Z
  /\ computeAttendanceRate 23 80 = Number 2880%Z
  /\ round_half_up_tenths (2875 # 100) = 288%Z
  /\ to_Q (23 / 80 * 100 * 10)
     = Some (5057753487769599 # 17592186044416)
  /\ (5057753487769599 # 17592186044416 < 2875 # 10)%Q
  /\ (23 / 80 * 100 * 10 <? 287.5) = true
  /\ getDashboardStats_attendanceRate 100%Z (store_with (session 100%Z 23 80))
     <> computeAttendanceRate 23 80
  /\ getDashboardStats_attendanceRate 100%Z (store_with (session 100%Z 27 30)) = 90
  /\ computeAttendanceRate 27 30 = 90
  /\ getDashboardStats_attendanceRate 100%Z (store_with []) = 0.
Proof.
  split; [vm_compute; reflexivity|].
  split; [vm_compute; reflexivity|].
  split; [vm_compute; reflexivity|].
  split; [vm_compute; reflexivity|].
  split; [reflexivity|].
  split; [vm_compute; reflexivity|].
  split; [apply number_neq; vm_compute; reflexivity|].
  split; [vm_compute; reflexivity|].
  split; vm_compute; reflexivity.
Qed.

End AttendanceRate.

(** ** Keys of the stored rows *)

Section Keys.

Lemma grade_key_eqb_eq (a b : Id * Id) :
  grade_key_eqb a b = true <-> a = b.
Proof.
  destruct a as [a1 a2], b as [b1 b2]. unfold grade_key_eqb. simpl.
  rewrite andb_true_iff, !String.eqb_eq. split.
  - intros [-> ->]. reflexivity.
  - intros E. inversion E. auto.
Qed.

Lemma attendance_key_eqb_eq (a b : Id * Id * Date) :
  attendance_key_eqb a b = true <-> a = b.
Proof.
  destruct a as [[a1 a2] a3], b as [[b1 b2] b3].
  unfold attendance_key_eqb. simpl.
  rewrite !andb_true_iff, !String.eqb_eq, Z.eqb_eq. split.
  - intros [[-> ->] ->]. reflexivity.
  - intros E. inversion E. auto.
Qed.

Context {A K : Type} (key : A -> K) (eqb : K -> K -> bool).
Hypothesis eqb_eq : forall a b, eqb a b = true <-> a = b.

Lemma distinctb_NoDup (l : list K) : distinctb eqb l = true -> NoDup l.
Proof.
  induction l as [|k l IH]; simpl; intros H; [constructor|].
  apply andb_true_iff in H. destruct H as [Hk Hl].
  constructor; [|auto].
  intros Hin. apply negb_true_iff in Hk.
  assert (E : existsb (eqb k) l = true).
  { apply existsb_exists. exists k. split; [assumption|]. now apply eqb_eq. }
  congruence.
Qed.

Lemma NoDup_key_filter (p : A -> bool) (l : list A) :
  NoDup (map key l) -> NoDup (map key (filter p l)).
Proof.
  induction l as [|a l IH]; simpl; intros H; [constructor|].
  inversion H as [|? ? Hn Hl]; subst.
  destruct (p a); simpl; [|auto].
  constructor; [|auto].
  intros Hin. apply Hn. apply in_map_iff in Hin.
  destruct Hin as (b & Hb & Hin). apply filter_In in Hin.
  apply in_map_iff. exists b. tauto.
Qed.

Lemma map_key_rewrite (hit : A -> bool) (f : A -> A) (l : list A) :
  (forall a, key (f a) = key a) ->
  map key (map (fun a => if hit a then f a else a) l) = map key l.
Proof.
  intros Hf. rewrite map_map. apply map_ext.
  intros a. destruct (hit a); auto.
Qed.

Lemma find_key_none (k : K) (l : list A) :
  find (fun a => eqb (key a) k) l = None -> ~ In k (map key l).
Proof.
  intros F Hin. apply in_map_iff in Hin. destruct Hin as (a & Ha & Hin).
  apply (find_none _ _ F) in Hin. simpl in Hin.
  rewrite Ha in Hin. assert (eqb k k = true) by now apply eqb_eq.
  congruence.
Qed.

Lemma NoDup_key_snoc (a : A) (l : list A) :
  NoDup (map key l) -> ~ In (key a) (map key l) ->
  NoDup (map key (l ++ [a])).
Proof.
  intros Hl Hn. rewrite map_app. simpl.
  apply NoDup_app; [assumption | repeat constructor; simpl; tauto |].
  intros x Hx [<-|[]]. contradiction.
Qed.

(** With distinct keys, at most one row bears a given key. *)
Lemma NoDup_key_at_most_one (k : K) (l : list A) :
  NoDup (map key l) ->
  (List.length (filter (fun a => eqb (key a) k) l) <= 1)%nat.
Proof.
  induction l as [|a l IH]; simpl; intros H; [lia|].
  inversion H as [|? ? Hn Hl]; subst.
  destruct (eqb (key a) k) eqn:E; simpl; [|auto].
  apply eqb_eq in E.
  rewrite (filter_ext_in (fun b => eqb (key b) k) (fun _ => false)).
  - rewrite filter_false. simpl. lia.
  - intros b Hb. destruct (eqb (key b) k) eqn:Eb; [|reflexivity].
    apply eqb_eq in Eb. exfalso. apply Hn. rewrite E, <- Eb.
    now apply in_map.
Qed.

Lemma filter_key_none (k : K) (l : list A) :
  find (fun a => eqb (key a) k) l = None ->
  filter (fun a => eqb (key a) k) l = [].
Proof.
  intros F. rewrite (filter_ext_in _ (fun _ => false)).
  - apply filter_false.
  - intros a Ha. exact (find_none _ _ F a Ha).
Qed.

(** Rewriting the rows that bear key [k], when keys are distinct and a row
    [e] bears it, leaves the rewritten [e] as the only row under [k]. *)
Lemma filter_key_rewrite (k : K) (f : A -> A) (l : list A) (e : A) :
  (forall a, key (f a) = key a) ->
  NoDup (map key l) -> In e l -> key e = k ->
  filter (fun a => eqb (key a) k)
         (map (fun a => if eqb (key a) k then f a else a) l) = [f e].
Proof.
  intros Hf. induction l as [|a l IH]; simpl; intros Hnd Hin Hk; [tauto|].
  inversion Hnd as [|? ? Hn Hl]; subst.
  destruct (eqb (key a) (key e)) eqn:E.
  - rewrite Hf, E. apply eqb_eq in E.
    assert (Hea : a = e).
    { destruct Hin as [|Hin]; [assumption|]. exfalso. apply Hn.
      rewrite E. now apply in_map. }
    subst a. f_equal.
    rewrite (filter_ext_in _ (fun _ => false)); [apply filter_false|].
    intros b Hb. apply in_map_iff in Hb. destruct Hb as (c & <- & Hc).
    assert (Hck : eqb (key c) (key e) = false).
    { destruct (eqb (key c) (key e)) eqn:Ec; [|reflexivity].
      apply eqb_eq in Ec. exfalso. apply Hn. rewrite <- Ec.
      now apply in_map. }
    rewrite Hck. exact Hck.
  - rewrite E. destruct Hin as [->|Hin].
    + assert (eqb (key e) (key e) = true) by now apply eqb_eq. congruence.
    + now apply IH.
Qed.

End Keys.

(** ** One row per key *)

Section OneRowPerKey.

Variable cs : Constraints.

Ltac leaf :=
  unfold consistent; simpl; repeat split; auto; try (intro; congruence).

Lemma createGrade_consistent db grade uuid now :
  consistent cs db -> consistent cs (commit db (createGrade cs db grade uuid now)).
Proof.
  intros (Hg & Ha & Hge & Hae). unfold createGrade.
  destruct (numeric_parameter 5 (ig_score grade)) as [score|e]; [|leaf].
  destruct (grades_student_assessment_unique cs) eqn:U; simpl; [|leaf].
  destruct (find _ (grades db)) as [existing|] eqn:F.
  - destruct (forallb _ (grades db)); [|leaf]. leaf.
    rewrite (map_key_rewrite grade_key); auto.
  - destruct (mem uuid _); [leaf|].
    destruct (grade_references_ok db _); [|leaf]. leaf.
    apply NoDup_key_snoc; [assumption|].
    apply (find_key_none grade_key grade_key_eqb grade_key_eqb_eq).
    exact F.
Qed.

Lemma updateGrade_consistent db id grade now :
  consistent cs db -> consistent cs (commit db (updateGrade cs db id grade now)).
Proof.
  intros (Hg & Ha & Hge & Hae). unfold updateGrade.
  destruct (optional_numeric_parameter 5 (pg_score grade)) as [score|e];
    [|leaf].
  destruct (grades_student_assessment_unique cs) eqn:U; simpl.
  - destruct (distinctb grade_key_eqb _) eqn:D; simpl; [|leaf].
    destruct (forallb _ (grades db)); [|leaf]. leaf.
    apply (distinctb_NoDup grade_key_eqb grade_key_eqb_eq). exact D.
  - destruct (forallb _ (grades db)); [|leaf].
    rewrite (Hge eq_refl). leaf. constructor.
Qed.

Lemma markAttendance_consistent db a uuid now :
  consistent cs db -> consistent cs (commit db (markAttendance cs db a uuid now)).
Proof.
  intros (Hg & Ha & Hge & Hae). unfold markAttendance.
  destruct (attendance_student_course_date_unique cs) eqn:U; simpl;
    [|leaf].
  destruct (find _ (attendance db)) as [existing|] eqn:F.
  - destruct (forallb _ (attendance db)); [|leaf]. leaf.
    rewrite (map_key_rewrite attendance_key); auto.
  - destruct (mem uuid _); [leaf|].
    destruct (attendance_references_ok db _); [|leaf]. leaf.
    apply NoDup_key_snoc; [assumption|].
    apply (find_key_none attendance_key attendance_key_eqb
             attendance_key_eqb_eq).
    exact F.
Qed.

Lemma updateAttendance_consistent db id a :
  consistent cs db -> consistent cs (commit db (updateAttendance cs db id a)).
Proof.
  intros (Hg & Ha & Hge & Hae). unfold updateAttendance.
  destruct (no_values a); [leaf|].
  destruct (attendance_student_course_date_unique cs) eqn:U; simpl.
  - destruct (distinctb attendance_key_eqb _) eqn:D; simpl; [|leaf].
    destruct (forallb _ (attendance db)); [|leaf]. leaf.
    apply (distinctb_NoDup attendance_key_eqb attendance_key_eqb_eq).
    exact D.
  - destruct (forallb _ (attendance db)); [|leaf].
    rewrite (Hae eq_refl). leaf. constructor.
Qed.

Lemma deletes_consistent db id :
  consistent cs db ->
  consistent cs (deleteGrade db id) /\ consistent cs (deleteStudent db id)
  /\ consistent cs (deleteCourse db id) /\ consistent cs (deleteAssessment db id).
Proof.
  intros (Hg & Ha & Hge & Hae).
  assert (Hf : forall p, grades_student_assessment_unique cs = false ->
                         filter p (grades db) = []).
  { intros p U. rewrite (Hge U). reflexivity. }
  assert (Hf' : forall p, attendance_student_course_date_unique cs = false ->
                          filter p (attendance db) = []).
  { intros p U. rewrite (Hae U). reflexivity. }
  split; [|split; [|split]].
  - unfold deleteGrade. repeat split; simpl; auto.
    now apply NoDup_key_filter.
  - unfold deleteStudent. destruct (mem id (students db));
      repeat split; simpl; auto; now apply NoDup_key_filter.
  - unfold deleteCourse. destruct (mem id (courses db));
      repeat split; simpl; auto; now apply NoDup_key_filter.
  - unfold deleteAssessment.
    destruct (existsb _ (assessments db));
      repeat split; simpl; auto; now apply NoDup_key_filter.
Qed.

Lemma creates_consistent db uuid :
  consistent cs db ->
  consistent cs (upsertUser db uuid) /\ consistent cs (createStudent db uuid)
  /\ consistent cs (createCourse db uuid).
Proof.
  intros H. unfold upsertUser, createStudent, createCourse.
  destruct (mem uuid (users db)), (mem uuid (students db)),
    (mem uuid (courses db)); repeat split; simpl; apply H.
Qed.

Lemma createAssessment_consistent db a :
  consistent cs db -> consistent cs (createAssessment db a).
Proof.
  intros H. unfold createAssessment.
  destruct (_ || _); repeat split; simpl; apply H.
Qed.

Lemma perform_consistent db c :
  consistent cs db -> consistent cs (perform cs db c).
Proof.
  intros H. destruct c; simpl.
  - now apply createGrade_consistent.
  - now apply updateGrade_consistent.
  - now apply deletes_consistent.
  - now apply markAttendance_consistent.
  - now apply updateAttendance_consistent.
  - now apply deletes_consistent.
  - now apply deletes_consistent.
  - now apply deletes_consistent.
  - now apply creates_consistent.
  - now apply creates_consistent.
  - now apply creates_consistent.
  - now apply createAssessment_consistent.
Qed.

Lemma perform_all_consistent calls :
  forall db, consistent cs db -> consistent cs (perform_all cs db calls).
Proof.
  unfold perform_all.
  induction calls as [|c calls IH]; simpl; intros db H; [assumption|].
  apply IH. now apply perform_consistent.
Qed.

End OneRowPerKey.

(** C4.  Whatever unique indexes the tables carry, in every state reached
    from a store without grades and attendance rows (the empty store among
    them) by calls of [createGrade], [updateGrade], [deleteGrade],
    [markAttendance], [updateAttendance], the cascading deletes and the
    inserts into the referenced tables, at most one grade row bears a given
    (studentId, assessmentId) and at most one attendance row a given
    (studentId, courseId, date). *)
Theorem one_row_per_key_in_reachable_states
    (cs : Constraints) (db0 : Database) (calls : list Call) :
  grades db0 = [] -> attendance db0 = [] ->
  let db := perform_all cs db0 calls in
  (forall studentId assessmentId,
      List.length
        (filter (fun g => grade_key_eqb (grade_key g) (studentId, assessmentId))
                (grades db)) <= 1)%nat
  /\ (forall studentId courseId date,
         List.length
           (filter (fun a => attendance_key_eqb (attendance_key a)
                               (studentId, courseId, date))
                   (attendance db)) <= 1)%nat.
Proof.
  intros Hg Ha db.
  assert (H : consistent cs db).
  { apply perform_all_consistent. unfold consistent. rewrite Hg, Ha.
    repeat split; auto; constructor. }
  destruct H as (Hgk & Hak & _). split; intros.
  - apply (NoDup_key_at_most_one grade_key grade_key_eqb grade_key_eqb_eq).
    exact Hgk.
  - apply (NoDup_key_at_most_one attendance_key attendance_key_eqb
             attendance_key_eqb_eq).
    exact Hak.
Qed.

(** ** Upserts *)

Section Upserts.

Lemma createGrade_declared db grade uuid now :
  createGrade declared db grade uuid now
  = match numeric_parameter 5 (ig_score grade) with
    | Ok _ => Err (Pg invalid_column_reference)
    | Err e => Err e
    end.
Proof.
  unfold createGrade. now destruct (numeric_parameter 5 (ig_score grade)).
Qed.

Lemma markAttendance_declared db a uuid now :
  markAttendance declared db a uuid now = Err (Pg invalid_column_reference).
Proof. reflexivity. Qed.

(** C3 on the tables as declared.  [grades] has no unique index on
    (student_id, assessment_id), so the conflict target of [createGrade]
    matches no index and every call is rejected: with 42P10, unless the
    score is one that the column cannot hold, which is an error of its
    own.  Two calls with the same input leave the store as it was, and
    from a store without grades no row for the key exists afterwards.
    On tables that carry the index the same two calls leave exactly one
    row, with the score. *)
Theorem createGrade_twice_declared_schema :
  (forall db grade uuid now,
      createGrade declared db grade uuid now
      = Err (Pg invalid_column_reference)
      \/ exists e,
           numeric_parameter 5 (ig_score grade) = Err e
           /\ createGrade declared db grade uuid now = Err e)
  /\ (forall db uuid now,
         createGrade declared db score_80 uuid now
         = Err (Pg invalid_column_reference))
  /\ (forall db grade uuid1 now1 uuid2 now2,
         perform_all declared db
           [CreateGrade grade uuid1 now1; CreateGrade grade uuid2 now2] = db)
  /\ grades_of "s1" "a1"
       (perform_all declared example_store
          [CreateGrade score_80 "g1" 1; CreateGrade score_80 "g2" 2]) = []
  /\ map (fun g => (g_id g, g_score g))
       (grades_of "s1" "a1"
          (perform_all with_unique_keys example_store
             [CreateGrade score_80 "g1" 1; CreateGrade score_80 "g2" 2]))
     = [("g1"%string, hundredths 8000)].
Proof.
  split.
  { intros. rewrite createGrade_declared.
    destruct (numeric_parameter 5 (ig_score grade)) as [score|e]; eauto. }
  split; [reflexivity|]. split; [|split; reflexivity].
  intros. unfold perform_all. simpl. rewrite !createGrade_declared.
  now destruct (numeric_parameter 5 (ig_score grade)).
Qed.

(** C5 on the tables as declared.  [attendance] has no unique index on
    (student_id, course_id, date), so [markAttendance] is rejected each
    time: after PRESENT then ABSENT for one key the store is as it was, and
    from a store without attendance rows none exists for the key.  On
    tables that carry the index one row is left, marked ABSENT. *)
Theorem markAttendance_twice_declared_schema :
  (forall db a uuid now,
      markAttendance declared db a uuid now
      = Err (Pg invalid_column_reference))
  /\ (forall db a1 uuid1 now1 a2 uuid2 now2,
         perform_all declared db
           [MarkAttendance a1 uuid1 now1; MarkAttendance a2 uuid2 now2] = db)
  /\ attendance_of "s1" "c1" 100
       (perform_all declared example_store
          [MarkAttendance (mark PRESENT) "m1" 1;
           MarkAttendance (mark ABSENT) "m2" 2]) = []
  /\ map (fun a => (at_id a, at_status a, at_markedAt a))
       (attendance_of "s1" "c1" 100
          (perform_all with_unique_keys example_store
             [MarkAttendance (mark PRESENT) "m1" 1;
              MarkAttendance (mark ABSENT) "m2" 2]))
     = [("m1"%string, ABSENT, Some 2)].
Proof.
  repeat split; reflexivity.
Qed.

(** The invariant at work on that run, on the tables as declared and on
    tables with the unique indexes, where one grade and one mark are
    stored in the end. *)
Lemma one_row_per_key_example :
  (grades empty_store = [] /\ attendance empty_store = [])
  /\ (let db := perform_all declared empty_store example_calls in
      (forall studentId assessmentId,
          List.length (grades_of studentId assessmentId db) <= 1)%nat
      /\ (forall studentId courseId date,
             List.length (attendance_of studentId courseId date db) <= 1)%nat)
  /\ (let db := perform_all with_unique_keys empty_store example_calls in
      (forall studentId assessmentId,
          List.length (grades_of studentId assessmentId db) <= 1)%nat
      /\ (forall studentId courseId date,
             List.length (attendance_of studentId courseId date db) <= 1)%nat)
  /\ map (fun g => (g_id g, g_assessmentId g))
       (grades (perform_all with_unique_keys empty_store example_calls))
     = [("g1"%string, "a2"%string)]
  /\ map (fun a => (at_id a, at_status a))
       (attendance (perform_all with_unique_keys empty_store example_calls))
     = [("m1"%string, ABSENT)].
Proof.
  split; [split; reflexivity|]. split; [|split; [|split; reflexivity]].
  - exact (one_row_per_key_in_reachable_states declared empty_store
             example_calls eq_refl eq_refl).
  - exact (one_row_per_key_in_reachable_states with_unique_keys empty_store
             example_calls eq_refl eq_refl).
Defined.

End Upserts.

(** ** What a replacement keeps *)

Section Replacement.

Lemma find_key_some {A K} (key : A -> K) (eqb : K -> K -> bool)
    (eqb_eq : forall a b, eqb a b = true <-> a = b) (k : K) (l : list A)
    (a : A) :
  In a l -> key a = k -> find (fun b => eqb (key b) k) l <> None.
Proof.
  intros Hin Hk F. apply (find_none _ _ F) in Hin. simpl in Hin.
  assert (eqb (key a) k = true) by now apply eqb_eq.
  congruence.
Qed.

Lemma createGrade_replaces cs db grade uuid now returned db' existing :
  createGrade cs db grade uuid now = Ok (returned, db') ->
  In existing (grades db) ->
  grade_key existing = (ig_studentId grade, ig_assessmentId grade) ->
  exists score,
    numeric_parameter 5 (ig_score grade) = Ok score
    /\ grades_student_assessment_unique cs = true
    /\ grades db'
       = map (fun row =>
                if grade_key_eqb (grade_key row)
                     (ig_studentId grade, ig_assessmentId grade)
                then createGrade_set grade score now row else row)
             (grades db).
Proof.
  unfold createGrade. intros H Hin Hkey.
  destruct (numeric_parameter 5 (ig_score grade)) as [score|e];
    [|discriminate].
  exists score. split; [reflexivity|].
  destruct (grades_student_assessment_unique cs); simpl in H;
    [|discriminate].
  split; [reflexivity|].
  destruct (find _ (grades db)) as [e|] eqn:F.
  - destruct (forallb _ (grades db)); [|discriminate].
    inversion H; subst. reflexivity.
  - exfalso.
    apply (find_key_some grade_key grade_key_eqb grade_key_eqb_eq
             _ _ _ Hin Hkey).
    exact F.
Qed.

Lemma markAttendance_replaces cs db a uuid now returned db' existing :
  markAttendance cs db a uuid now = Ok (returned, db') ->
  In existing (attendance db) ->
  attendance_key existing = (ia_studentId a, ia_courseId a, ia_date a) ->
  attendance_student_course_date_unique cs = true
  /\ attendance db'
     = map (fun row =>
              if attendance_key_eqb (attendance_key row)
                   (ia_studentId a, ia_courseId a, ia_date a)
              then markAttendance_set a now row else row) (attendance db).
Proof.
  unfold markAttendance. intros H Hin Hkey.
  destruct (attendance_student_course_date_unique cs); simpl in H;
    [|discriminate].
  split; [reflexivity|].
  destruct (find _ (attendance db)) as [e|] eqn:F.
  - destruct (forallb _ (attendance db)); [|discriminate].
    inversion H; subst. reflexivity.
  - exfalso.
    apply (find_key_some attendance_key attendance_key_eqb
             attendance_key_eqb_eq _ _ _ Hin Hkey).
    exact F.
Qed.

(** C10.  When [createGrade] succeeds on a key that a stored row already
    bears, which it does only on a table with the unique index, the table
    keeps its length, rows with another key stay as they are, and in
    place of the stored row there is a row with the same id, studentId,
    assessmentId and gradedAt.  Of the other columns, score and gradedBy
    are the incoming ones and updatedAt is the time of the call;
    letterGrade and feedback are the incoming ones when the call carries
    them, null included, and are left as stored when it does not.
    Likewise for [markAttendance]: the row keeps id, studentId, courseId
    and date, takes the incoming status and markedBy and the time of the
    call as markedAt, and takes the incoming notes when the call carries
    them and keeps the stored ones when it does not. *)
Theorem upsert_replacement_frame :
  (forall cs db grade uuid now returned db' existing,
      createGrade cs db grade uuid now = Ok (returned, db') ->
      In existing (grades db) ->
      grade_key existing = (ig_studentId grade, ig_assessmentId grade) ->
      grades_student_assessment_unique cs = true
      /\ List.length (grades db') = List.length (grades db)
      /\ (forall row, In row (grades db) ->
                      grade_key row <> grade_key existing ->
                      In row (grades db'))
      /\ exists row,
          In row (grades db')
          /\ g_id row = g_id existing
          /\ g_studentId row = g_studentId existing
          /\ g_assessmentId row = g_assessmentId existing
          /\ g_gradedAt row = g_gradedAt existing
          /\ numeric_parameter 5 (ig_score grade) = Ok (g_score row)
          /\ g_letterGrade row
             = match ig_letterGrade grade with
               | Some letterGrade => letterGrade
               | None => g_letterGrade existing
               end
          /\ g_feedback row
             = match ig_feedback grade with
               | Some feedback => feedback
               | None => g_feedback existing
               end
          /\ g_gradedBy row = ig_gradedBy grade
          /\ g_updatedAt row = Some now)
  /\ (forall cs db a uuid now returned db' existing,
         markAttendance cs db a uuid now = Ok (returned, db') ->
         In existing (attendance db) ->
         attendance_key existing
         = (ia_studentId a, ia_courseId a, ia_date a) ->
         attendance_student_course_date_unique cs = true
         /\ List.length (attendance db') = List.length (attendance db)
         /\ (forall row, In row (attendance db) ->
                         attendance_key row <> attendance_key existing ->
                         In row (attendance db'))
         /\ exists row,
             In row (attendance db')
             /\ at_id row = at_id existing
             /\ at_studentId row = at_studentId existing
             /\ at_courseId row = at_courseId existing
             /\ at_date row = at_date existing
             /\ at_status row = ia_status a
             /\ at_notes row
                = match ia_notes a with
                  | Some notes => notes
                  | None => at_notes existing
                  end
             /\ at_markedBy row = ia_markedBy a
             /\ at_markedAt row = Some now).
Proof.
  split.
  - intros cs db grade uuid now returned db' existing H Hin Hkey.
    destruct (createGrade_replaces _ _ _ _ _ _ _ _ H Hin Hkey)
      as (score & Hscore & Hidx & ->).
    split; [exact Hidx|]. split; [apply length_map|]. split.
    + intros row Hrow Hne. apply in_map_iff. exists row.
      split; [|assumption].
      destruct (grade_key_eqb _ _) eqn:E; [|reflexivity].
      apply grade_key_eqb_eq in E. congruence.
    + exists (createGrade_set grade score now existing). split.
      * apply in_map_iff. exists existing. split; [|assumption].
        rewrite Hkey.
        now rewrite (proj2 (grade_key_eqb_eq _ _) eq_refl).
      * simpl. repeat split; try reflexivity. exact Hscore.
  - intros cs db a uuid now returned db' existing H Hin Hkey.
    destruct (markAttendance_replaces _ _ _ _ _ _ _ _ H Hin Hkey)
      as (Hidx & ->).
    split; [exact Hidx|]. split; [apply length_map|]. split.
    + intros row Hrow Hne. apply in_map_iff. exists row.
      split; [|assumption].
      destruct (attendance_key_eqb _ _) eqn:E; [|reflexivity].
      apply attendance_key_eqb_eq in E. congruence.
    + exists (markAttendance_set a now existing). split.
      * apply in_map_iff. exists existing. split; [|assumption].
        rewrite Hkey.
        now rewrite (proj2 (attendance_key_eqb_eq _ _) eq_refl).
      * simpl. repeat split; reflexivity.
Qed.

End Replacement.

Section ReplacementExample.

(** On tables with the unique indexes: a regrade that carries only a
    score keeps the stored letter "B", and a changed mark without notes
    keeps the stored notes. *)
Lemma upsert_replacement_frame_example :
  (createGrade with_unique_keys store_with_rows score_70 "g2" 5
   = Ok (createGrade_set score_70 7000 5 stored_grade,
         set_grades store_with_rows
           [createGrade_set score_70 7000 5 stored_grade])
   /\ In stored_grade (grades store_with_rows)
   /\ grade_key stored_grade
      = (ig_studentId score_70, ig_assessmentId score_70))
  /\ (markAttendance with_unique_keys store_with_rows (mark ABSENT) "m2" 5
      = Ok (markAttendance_set (mark ABSENT) 5 stored_attendance,
            set_attendance store_with_rows
              [markAttendance_set (mark ABSENT) 5 stored_attendance])
      /\ In stored_attendance (attendance store_with_rows)
      /\ attendance_key stored_attendance
         = (ia_studentId (mark ABSENT), ia_courseId (mark ABSENT),
            ia_date (mark ABSENT)))
  /\ (exists row,
         In row [createGrade_set score_70 7000 5 stored_grade]
         /\ g_id row = "g1"%string /\ g_gradedAt row = Some 1
         /\ g_score row = hundredths 7000
         /\ g_letterGrade row = Some "B"%string
         /\ g_updatedAt row = Some 5)
  /\ (exists row,
         In row [markAttendance_set (mark ABSENT) 5 stored_attendance]
         /\ at_id row = "m1"%string /\ at_date row = 100
         /\ at_status row = ABSENT /\ at_notes row = Some "bus"%string
         /\ at_markedAt row = Some 5)
  /\ map (fun g => (g_score g, g_letterGrade g, g_feedback g))
       (grades (commit store_with_rows
                  (createGrade with_unique_keys store_with_rows score_95
                     "g2" 5)))
     = [(hundredths 9500, Some "A"%string, Some "regraded"%string)].
Proof.
  assert (Hg : createGrade with_unique_keys store_with_rows score_70 "g2" 5
               = Ok (createGrade_set score_70 7000 5 stored_grade,
                     set_grades store_with_rows
                       [createGrade_set score_70 7000 5 stored_grade]))
    by reflexivity.
  assert (Ha : markAttendance with_unique_keys store_with_rows (mark ABSENT)
                 "m2" 5
               = Ok (markAttendance_set (mark ABSENT) 5 stored_attendance,
                     set_attendance store_with_rows
                       [markAttendance_set (mark ABSENT) 5 stored_attendance]))
    by reflexivity.
  split; [split; [exact Hg | split; [left; reflexivity | reflexivity]]|].
  split; [split; [exact Ha | split; [left; reflexivity | reflexivity]]|].
  split; [|split; [|reflexivity]].
  - destruct (proj1 upsert_replacement_frame _ _ _ _ _ _ _ stored_grade Hg
                (or_introl eq_refl) eq_refl)
      as (_ & _ & _ & row & Hin & Hid & _ & _ & Hat & Hsc & Hlg & _ & _ & Hup).
    exists row. simpl in Hin. injection Hsc as Hsc. auto 10.
  - destruct (proj2 upsert_replacement_frame _ _ _ _ _ _ _ stored_attendance
                Ha (or_introl eq_refl) eq_refl)
      as (_ & _ & _ & row & Hin & Hid & _ & _ & Hd & Hst & Hno & _ & Hat).
    exists row. simpl in Hin. auto 10.
Defined.

End ReplacementExample.

(** ** Failures of [POST /api/grades] *)

Section GradeFailures.

(** C7 as stated fails: a score of -5.00 for an existing student and
    assessment is not answered with a validation error.  On the tables as
    declared the call fails like every other call, with the database
    error; on tables with the unique index the row is stored with the
    negative score. *)
Lemma negative_score_is_not_a_validation_error :
  fst (post_grades declared example_store minus_five "t1" "g1" 1)
  = FailedToCreateGrade
  /\ fst (post_grades declared example_store minus_five "t1" "g1" 1)
     <> InvalidData
  /\ fst (post_grades with_unique_keys example_store minus_five "t1" "g1" 1)
     <> InvalidData
  /\ map g_score
       (grades (snd (post_grades with_unique_keys example_store minus_five
                       "t1" "g1" 1)))
     = [hundredths (-500)].
Proof.
  split; [reflexivity|]. split; [discriminate|].
  split; [discriminate | reflexivity].
Qed.

Lemma createGrade_dangling cs db grade uuid now :
  referential_integrity db ->
  mem (ig_studentId grade) (students db) = false
  \/ existsb (fun a => String.eqb (as_id a) (ig_assessmentId grade))
             (assessments db) = false ->
  exists e, createGrade cs db grade uuid now = Err e.
Proof.
  intros RI Hd. unfold createGrade.
  destruct (numeric_parameter 5 (ig_score grade)) as [score|e]; [|eauto].
  destruct (grades_student_assessment_unique cs); simpl; [|eauto].
  destruct (find _ (grades db)) as [existing|] eqn:F.
  - exfalso. apply find_some in F. destruct F as [Hin Hk].
    apply grade_key_eqb_eq in Hk. unfold grade_key in Hk. simpl in Hk.
    inversion Hk as [[Hs Ha]]. destruct (RI existing Hin) as [H1 H2].
    rewrite Hs in H1. rewrite Ha in H2. destruct Hd; congruence.
  - destruct (mem uuid _); [eauto|].
    unfold grade_references_ok. simpl.
    destruct Hd as [-> | ->]; simpl; [eauto|].
    rewrite andb_false_r. simpl. eauto.
Qed.

(** C7, as amended.  The handler knows two failures.  It answers 400
    exactly when the body fails the schema: studentId, assessmentId or
    score is missing or is no string, or letterGrade or feedback is there
    and is neither a string nor null.  Every failure of [createGrade] is
    answered 500: on a store whose grades refer to stored rows a
    studentId or assessmentId that does not resolve, and a score that is
    no number or that [decimal(5,2)] cannot hold.  The sign of the score
    plays no part: two requests that differ only in scores the column can
    hold get the same status.  Whenever no grade is created the store is
    unchanged. *)
Theorem post_grades_failures (cs : Constraints) (db : Database)
    (body : GradeBody) (sub uuid : Id) (now : Timestamp) :
  (fst (post_grades cs db body sub uuid now) = InvalidData
   <-> not_given (body_studentId body)
       \/ not_given (body_assessmentId body)
       \/ not_given (body_score body)
       \/ body_letterGrade body = malformed
       \/ body_feedback body = malformed)
  /\ (forall score score' : Decimal,
         fits 5 score = true -> fits 5 score' = true ->
         status_code
           (fst (post_grades cs db (with_score body score) sub uuid now))
         = status_code
             (fst (post_grades cs db (with_score body score') sub uuid now)))
  /\ (forall grade,
         insertGradeSchema_parse body sub = Some grade ->
         referential_integrity db ->
         mem (ig_studentId grade) (students db) = false
         \/ existsb (fun a => String.eqb (as_id a) (ig_assessmentId grade))
                    (assessments db) = false ->
         post_grades cs db body sub uuid now = (FailedToCreateGrade, db))
  /\ (forall grade e,
         insertGradeSchema_parse body sub = Some grade ->
         numeric_parameter 5 (ig_score grade) = Err e ->
         post_grades cs db body sub uuid now = (FailedToCreateGrade, db))
  /\ ((forall grade, fst (post_grades cs db body sub uuid now)
                     <> Created grade) ->
      snd (post_grades cs db body sub uuid now) = db).
Proof.
  split; [|split; [|split; [|split]]].
  - unfold post_grades, insertGradeSchema_parse, not_given.
    destruct (body_studentId body) as [| |s];
      try (simpl; split; [intros _; left; intros x; discriminate
                         | reflexivity]).
    destruct (body_assessmentId body) as [| |a];
      try (simpl; split; [intros _; right; left; intros x; discriminate
                         | reflexivity]).
    destruct (body_score body) as [| |sc];
      try (simpl; split; [intros _; right; right; left; intros x;
                          discriminate
                         | reflexivity]).
    destruct (body_letterGrade body) as [| |l];
      try (simpl; split; [intros _; right; right; right; left; reflexivity
                         | reflexivity]);
      (destruct (body_feedback body) as [| |f];
       try (simpl; split; [intros _; right; right; right; right; reflexivity
                          | reflexivity]));
      simpl; destruct (createGrade _ _ _ _ _) as [[g db']|e]; simpl;
      (split; [discriminate|]);
      intros [H|[H|[H|[H|H]]]]; try discriminate;
      exfalso; eapply H; reflexivity.
  - intros score score' Hs Hs'.
    unfold post_grades, insertGradeSchema_parse. simpl.
    destruct (required (body_studentId body)) as [s|]; [|reflexivity].
    destruct (required (body_assessmentId body)) as [a|]; [|reflexivity].
    destruct (optional (body_letterGrade body)) as [l|]; [|reflexivity].
    destruct (optional (body_feedback body)) as [f|]; [|reflexivity].
    unfold createGrade. simpl. rewrite Hs, Hs'.
    destruct (grades_student_assessment_unique cs); simpl; [|reflexivity].
    unfold grade_key. simpl.
    destruct (find _ (grades db)) as [existing|].
    + unfold grade_update_references_ok. simpl.
      destruct (forallb _ (grades db)); reflexivity.
    + destruct (mem uuid _); [reflexivity|].
      unfold grade_references_ok. simpl.
      destruct (mem s (students db) && _ && _); reflexivity.
  - intros grade Hp RI Hd. unfold post_grades. rewrite Hp.
    destruct (createGrade_dangling cs db grade uuid now RI Hd) as [e ->].
    reflexivity.
  - intros grade e Hp He. unfold post_grades. rewrite Hp.
    unfold createGrade. rewrite He. reflexivity.
  - unfold post_grades.
    destruct (insertGradeSchema_parse body sub) as [grade|]; [|reflexivity].
    destruct (createGrade _ _ _ _ _) as [[g db']|e]; simpl; [|reflexivity].
    intros H. exfalso. apply (H g). reflexivity.
Qed.

End GradeFailures.

Section GradeFailuresExample.

Lemma example_store_integrity : referential_integrity example_store.
Proof. intros row []. Defined.

(** On tables with the unique index: a grade for a student that does not
    exist and a score of 1000.00 are answered 500 and leave the store as
    it was, a score of -5.00 and a score of 95.00 get the same status,
    and a letterGrade that is a number is answered 400. *)
Lemma post_grades_failures_example :
  (insertGradeSchema_parse unknown_student "t1"
   = Some {| ig_studentId := "s9"; ig_assessmentId := "a1";
             ig_score := 8000; ig_letterGrade := None; ig_feedback := None;
             ig_gradedBy := "t1" |}
   /\ referential_integrity example_store
   /\ mem "s9" (students example_store) = false
   /\ (forall grade,
          fst (post_grades with_unique_keys example_store unknown_student
                 "t1" "g1" 1) <> Created grade))
  /\ post_grades with_unique_keys example_store unknown_student "t1" "g1" 1
     = (FailedToCreateGrade, example_store)
  /\ snd (post_grades with_unique_keys example_store unknown_student
            "t1" "g1" 1) = example_store
  /\ (insertGradeSchema_parse (with_score minus_five 100000) "t1"
      = Some score_1000
      /\ numeric_parameter 5 (ig_score score_1000)
         = Err (Pg numeric_value_out_of_range))
  /\ post_grades with_unique_keys example_store (with_score minus_five 100000)
       "t1" "g1" 1
     = (FailedToCreateGrade, example_store)
  /\ (fits 5 (-500) = true /\ fits 5 9500 = true)
  /\ status_code
       (fst (post_grades with_unique_keys example_store
               (with_score minus_five (-500)) "t1" "g1" 1))
     = status_code
         (fst (post_grades with_unique_keys example_store
                 (with_score minus_five 9500) "t1" "g1" 1))
  /\ fst (post_grades with_unique_keys example_store letter_as_number
            "t1" "g1" 1) = InvalidData.
Proof.
  pose proof (post_grades_failures with_unique_keys example_store
                unknown_student "t1" "g1" 1) as (_ & _ & Hdangling & _ & Hsame).
  pose proof (post_grades_failures with_unique_keys example_store
                (with_score minus_five 100000) "t1" "g1" 1)
    as (_ & _ & _ & Hrange & _).
  pose proof (post_grades_failures with_unique_keys example_store
                minus_five "t1" "g1" 1) as (_ & Hsign & _).
  pose proof (post_grades_failures with_unique_keys example_store
                letter_as_number "t1" "g1" 1) as (Hinvalid & _).
  assert (Hnot : forall grade,
             fst (post_grades with_unique_keys example_store unknown_student
                    "t1" "g1" 1) <> Created grade)
    by (intros grade; discriminate).
  split; [split; [reflexivity | split; [exact example_store_integrity
                                       | split; [reflexivity | exact Hnot]]]|].
  split;
    [exact (Hdangling _ eq_refl example_store_integrity (or_introl eq_refl))|].
  split; [exact (Hsame Hnot)|].
  split; [split; reflexivity|].
  split; [exact (Hrange score_1000 _ eq_refl eq_refl)|].
  split; [split; reflexivity|].
  split; [exact (Hsign (hundredths (-500)) (hundredths 9500) eq_refl eq_refl)|].
  apply (proj2 Hinvalid). right. right. right. left. reflexivity.
Defined.

End GradeFailuresExample.

(** ** The upserts on tables that carry the unique indexes *)

Section WithUniqueKeys.

Lemma createGrade_with_unique_keys db grade uuid now score :
  NoDup (map grade_key (grades db)) ->
  grade_parents_ok db grade ->
  numeric_parameter 5 (ig_score grade) = Ok score ->
  (grades_of (ig_studentId grade) (ig_assessmentId grade) db = [] ->
   mem uuid (map g_id (grades db)) = false) ->
  exists returned db',
    createGrade with_unique_keys db grade uuid now = Ok (returned, db')
    /\ map g_score (grades_of (ig_studentId grade) (ig_assessmentId grade) db')
       = [score]
    /\ NoDup (map grade_key (grades db'))
    /\ users db' = users db /\ students db' = students db
    /\ assessments db' = assessments db.
Proof.
  intros Hnd (Hs & Ha & Hu) Hsc Hfresh. unfold createGrade, grades_of in *.
  rewrite Hsc. simpl.
  change (grade_key (createGrade_values grade score uuid now))
    with (ig_studentId grade, ig_assessmentId grade).
  set (k := (ig_studentId grade, ig_assessmentId grade)) in *.
  destruct (find (fun row => grade_key_eqb (grade_key row) k) (grades db))
    as [e|] eqn:F.
  - assert (Hfk : forallb
                    (fun row => negb (grade_key_eqb (grade_key row) k)
                                || grade_update_references_ok db row
                                     (createGrade_set grade score now row))
                    (grades db) = true).
    { apply forallb_forall. intros row _.
      unfold grade_update_references_ok. simpl.
      rewrite !String.eqb_refl, Hu. simpl. now rewrite !orb_true_r. }
    rewrite Hfk. do 2 eexists. split; [reflexivity|]. simpl.
    apply find_some in F. destruct F as [Hin Hk].
    apply grade_key_eqb_eq in Hk.
    split; [|split; [|repeat split]].
    + rewrite (filter_key_rewrite grade_key grade_key_eqb grade_key_eqb_eq
                 k (createGrade_set grade score now) (grades db) e); auto.
    + rewrite (map_key_rewrite grade_key); auto.
  - pose proof (filter_key_none grade_key grade_key_eqb k _ F) as Hnil.
    rewrite (Hfresh Hnil). unfold grade_references_ok. simpl.
    rewrite Hs, Ha, Hu. simpl. do 2 eexists. split; [reflexivity|]. simpl.
    split; [|split; [|repeat split]].
    + rewrite filter_app, Hnil. simpl.
      change (grade_key (createGrade_values grade score uuid now)) with k.
      now rewrite (proj2 (grade_key_eqb_eq k k) eq_refl).
    + apply NoDup_key_snoc; [assumption|].
      apply (find_key_none grade_key grade_key_eqb grade_key_eqb_eq).
      exact F.
Qed.

(** With the unique index, two [createGrade] calls for one key, each with
    a score the column can hold, leave one row under the key, holding the
    score of the second call; replaying the same input is the case
    [grade2 = grade1]. *)
Lemma createGrade_last_write_wins db grade1 uuid1 now1 grade2 uuid2 now2
    score1 score2 :
  NoDup (map grade_key (grades db)) ->
  grade_parents_ok db grade1 -> grade_parents_ok db grade2 ->
  ig_studentId grade2 = ig_studentId grade1 ->
  ig_assessmentId grade2 = ig_assessmentId grade1 ->
  (grades_of (ig_studentId grade1) (ig_assessmentId grade1) db = [] ->
   mem uuid1 (map g_id (grades db)) = false) ->
  numeric_parameter 5 (ig_score grade1) = Ok score1 ->
  numeric_parameter 5 (ig_score grade2) = Ok score2 ->
  map g_score
    (grades_of (ig_studentId grade1) (ig_assessmentId grade1)
       (perform_all with_unique_keys db
          [CreateGrade grade1 uuid1 now1; CreateGrade grade2 uuid2 now2]))
  = [score2].
Proof.
  intros Hnd Hp1 Hp2 Es Ea Hfresh Hs1 Hs2.
  destruct (createGrade_with_unique_keys db grade1 uuid1 now1 score1 Hnd Hp1
              Hs1 Hfresh)
    as (r1 & db1 & H1 & Hone & Hnd1 & Eu & Est & Eas).
  assert (Hp2' : grade_parents_ok db1 grade2).
  { unfold grade_parents_ok. rewrite Eu, Est, Eas. exact Hp2. }
  destruct (createGrade_with_unique_keys db1 grade2 uuid2 now2 score2 Hnd1
              Hp2' Hs2)
    as (r2 & db2 & H2 & Htwo & _).
  { rewrite Es, Ea. intros Hnil. rewrite Hnil in Hone. discriminate. }
  unfold perform_all. simpl. rewrite H1. simpl. rewrite H2. simpl.
  rewrite <- Es, <- Ea. exact Htwo.
Qed.

(** A second call whose score the column cannot hold is refused, and the
    row keeps the score of the first. *)
Lemma createGrade_refused_keeps db grade1 uuid1 now1 grade2 uuid2 now2
    score1 e :
  NoDup (map grade_key (grades db)) ->
  grade_parents_ok db grade1 ->
  (grades_of (ig_studentId grade1) (ig_assessmentId grade1) db = [] ->
   mem uuid1 (map g_id (grades db)) = false) ->
  numeric_parameter 5 (ig_score grade1) = Ok score1 ->
  numeric_parameter 5 (ig_score grade2) = Err e ->
  map g_score
    (grades_of (ig_studentId grade1) (ig_assessmentId grade1)
       (perform_all with_unique_keys db
          [CreateGrade grade1 uuid1 now1; CreateGrade grade2 uuid2 now2]))
  = [score1].
Proof.
  intros Hnd Hp1 Hfresh Hs1 Hs2.
  destruct (createGrade_with_unique_keys db grade1 uuid1 now1 score1 Hnd Hp1
              Hs1 Hfresh)
    as (r1 & db1 & H1 & Hone & _).
  unfold perform_all. simpl. rewrite H1. simpl.
  unfold createGrade at 1. rewrite Hs2. simpl. exact Hone.
Qed.

Lemma markAttendance_with_unique_keys db a uuid now :
  NoDup (map attendance_key (attendance db)) ->
  attendance_parents_ok db a ->
  (attendance_of (ia_studentId a) (ia_courseId a) (ia_date a) db = [] ->
   mem uuid (map at_id (attendance db)) = false) ->
  exists returned db',
    markAttendance with_unique_keys db a uuid now = Ok (returned, db')
    /\ map at_status
         (attendance_of (ia_studentId a) (ia_courseId a) (ia_date a) db')
       = [ia_status a]
    /\ NoDup (map attendance_key (attendance db'))
    /\ users db' = users db /\ students db' = students db
    /\ courses db' = courses db.
Proof.
  intros Hnd (Hs & Hc & Hu) Hfresh. unfold markAttendance, attendance_of in *.
  simpl. unfold attendance_key at 2 4. simpl.
  set (k := (ia_studentId a, ia_courseId a, ia_date a)) in *.
  destruct (find (fun row => attendance_key_eqb (attendance_key row) k)
                 (attendance db)) as [e|] eqn:F.
  - assert (Hfk : forallb
                    (fun row => negb (attendance_key_eqb (attendance_key row) k)
                                || attendance_update_references_ok db row
                                     (markAttendance_set a now row))
                    (attendance db) = true).
    { apply forallb_forall. intros row _.
      unfold attendance_update_references_ok. simpl.
      rewrite !String.eqb_refl, Hu. simpl. now rewrite !orb_true_r. }
    rewrite Hfk. do 2 eexists. split; [reflexivity|]. simpl.
    apply find_some in F. destruct F as [Hin Hk].
    apply attendance_key_eqb_eq in Hk.
    change (attendance_key (markAttendance_values a uuid now)) with k.
    split; [|split; [|repeat split]].
    + rewrite (filter_key_rewrite attendance_key attendance_key_eqb
                 attendance_key_eqb_eq k (markAttendance_set a now)
                 (attendance db) e); auto.
    + rewrite (map_key_rewrite attendance_key); auto.
  - pose proof (filter_key_none attendance_key attendance_key_eqb k _ F)
      as Hnil.
    rewrite (Hfresh Hnil). unfold attendance_references_ok. simpl.
    rewrite Hs, Hc, Hu. simpl. do 2 eexists. split; [reflexivity|]. simpl.
    split; [|split; [|repeat split]].
    + rewrite filter_app, Hnil. simpl.
      change (attendance_key (markAttendance_values a uuid now)) with k.
      now rewrite (proj2 (attendance_key_eqb_eq k k) eq_refl).
    + apply NoDup_key_snoc; [assumption|].
      apply (find_key_none attendance_key attendance_key_eqb
               attendance_key_eqb_eq).
      exact F.
Qed.

(** With the unique index, two [markAttendance] calls for one key leave
    one row under the key, with the status of the second call. *)
Lemma markAttendance_last_write_wins db a1 uuid1 now1 a2 uuid2 now2 :
  NoDup (map attendance_key (attendance db)) ->
  attendance_parents_ok db a1 -> attendance_parents_ok db a2 ->
  ia_studentId a2 = ia_studentId a1 -> ia_courseId a2 = ia_courseId a1 ->
  ia_date a2 = ia_date a1 ->
  (attendance_of (ia_studentId a1) (ia_courseId a1) (ia_date a1) db = [] ->
   mem uuid1 (map at_id (attendance db)) = false) ->
  map at_status
    (attendance_of (ia_studentId a1) (ia_courseId a1) (ia_date a1)
       (perform_all with_unique_keys db
          [MarkAttendance a1 uuid1 now1; MarkAttendance a2 uuid2 now2]))
  = [ia_status a2].
Proof.
  intros Hnd Hp1 Hp2 Es Ec Ed Hfresh.
  destruct (markAttendance_with_unique_keys db a1 uuid1 now1 Hnd Hp1 Hfresh)
    as (r1 & db1 & H1 & Hone & Hnd1 & Eu & Est & Eco).
  assert (Hp2' : attendance_parents_ok db1 a2).
  { unfold attendance_parents_ok. rewrite Eu, Est, Eco. exact Hp2. }
  destruct (markAttendance_with_unique_keys db1 a2 uuid2 now2 Hnd1 Hp2')
    as (r2 & db2 & H2 & Htwo & _).
  { rewrite Es, Ec, Ed. intros Hnil. rewrite Hnil in Hone. discriminate. }
  unfold perform_all. simpl. rewrite H1. simpl. rewrite H2. simpl.
  rewrite <- Es, <- Ec, <- Ed. exact Htwo.
Qed.

End WithUniqueKeys.

(** * Further properties *)

(** ** Objects and strings *)

Section ObjectsAndStrings.

Lemma get_replace_key {V} (o : object V) (k k' : string) (v : V) :
  existsb (String.eqb k) (Object_keys o) = true ->
  get (replace_key o k v) k' = if String.eqb k k' then Some v else get o k'.
Proof.
  induction o as [|[k0 v0] o IH]; simpl; [discriminate|].
  rewrite (String.eqb_sym k k0).
  destruct (String.eqb_spec k0 k) as [->|Hk0]; simpl.
  - intros _. destruct (String.eqb k k'); reflexivity.
  - intros H. rewrite (IH H).
    destruct (String.eqb_spec k0 k') as [->|Hk0']; [|reflexivity].
    destruct (String.eqb_spec k k'); [congruence | reflexivity].
Qed.

Lemma get_insert_key {V} (o : object V) (k k' : string) (v : V) :
  existsb (String.eqb k) (Object_keys o) = false ->
  get (insert_key o k v) k' = if String.eqb k k' then Some v else get o k'.
Proof.
  induction o as [|[k0 v0] o IH]; simpl; [reflexivity|].
  intros H. apply orb_false_iff in H. destruct H as [Hk Ho].
  destruct (listed_before k k0); simpl; [reflexivity|].
  rewrite (IH Ho).
  destruct (String.eqb_spec k0 k') as [->|Hk0']; [|reflexivity].
  now rewrite Hk.
Qed.

Lemma get_set_key {V} (o : object V) (k k' : string) (v : V) :
  get (set_key o k v) k' = if String.eqb k k' then Some v else get o k'.
Proof.
  unfold set_key. destruct (existsb _ _) eqn:E.
  - now apply get_replace_key.
  - now apply get_insert_key.
Qed.

Lemma replace_key_keys {V} (o : object V) (k : string) (v : V) :
  Object_keys (replace_key o k v) = Object_keys o.
Proof.
  unfold Object_keys. induction o as [|[k0 v0] o IH]; simpl; [reflexivity|].
  destruct (String.eqb k0 k); simpl; [reflexivity | now rewrite IH].
Qed.

Lemma insert_key_keys {V} (o : object V) (k : string) (v : V) :
  Permutation (Object_keys (insert_key o k v)) (k :: Object_keys o).
Proof.
  unfold Object_keys. induction o as [|[k0 v0] o IH]; simpl; [reflexivity|].
  destruct (listed_before k k0); simpl; [reflexivity|].
  rewrite IH. apply perm_swap.
Qed.

(** A key that is no array index goes to the end. *)
Lemma insert_key_last {V} (o : object V) (k : string) (v : V) :
  array_index k = None -> insert_key o k v = (o ++ [(k, v)])%list.
Proof.
  intros H. induction o as [|[k0 v0] o IH]; simpl; [reflexivity|].
  unfold listed_before. rewrite H. now rewrite IH.
Qed.

Lemma or_zero_not_nan (x : number) :
  PrimFloat.eqb (or_zero x) (or_zero x) = true.
Proof.
  unfold or_zero. destruct (PrimFloat.eqb x x) eqn:E; simpl.
  - destruct (PrimFloat.eqb x 0); [reflexivity | exact E].
  - reflexivity.
Qed.

Lemma split_without (sep : ascii) (s : string) :
  contains sep s = false -> split sep s = [s].
Proof.
  induction s as [|c s IH]; simpl; intros H; [reflexivity|].
  apply orb_false_iff in H. destruct H as [Hc Hs].
  rewrite Hc, (IH Hs). reflexivity.
Qed.

Lemma split_at_first (sep : ascii) (s t : string) :
  contains sep s = false ->
  split sep (s ++ String sep t) = s :: split sep t.
Proof.
  induction s as [|c s IH]; simpl; intros H.
  - now rewrite Ascii.eqb_refl.
  - apply orb_false_iff in H. destruct H as [Hc Hs].
    rewrite Hc, (IH Hs). reflexivity.
Qed.

Lemma split_head_without (sep : ascii) (s : string) :
  exists part parts,
    split sep s = part :: parts /\ contains sep part = false.
Proof.
  induction s as [|c s (part & parts & E & H)]; simpl.
  - now exists EmptyString, [].
  - destruct (Ascii.eqb c sep) eqn:Hc.
    + now exists EmptyString, (split sep s).
    + rewrite E. exists (String c part), parts. simpl.
      now rewrite Hc, H.
Qed.

End ObjectsAndStrings.

(** ** The gradebook: totals *)

Section GradebookTotals.

Local Open Scope float_scope.

Lemma find_filter_implied {A} (p q : A -> bool) (l : list A) :
  (forall x, p x = true -> q x = true) ->
  find p (filter q l) = find p l.
Proof.
  intros Hpq. induction l as [|x l IH]; simpl; [reflexivity|].
  destruct (q x) eqn:Hq; simpl.
  - now rewrite IH.
  - destruct (p x) eqn:Hp; [|assumption].
    rewrite (Hpq x Hp) in Hq. discriminate.
Qed.

Lemma AssessmentType_eqb_eq (a b : AssessmentType) :
  AssessmentType_eqb a b = true <-> a = b.
Proof.
  destruct a, b; simpl; split; congruence.
Qed.

(** X1.  The total of a student is decided by that student's own grades:
    the grades of all other students can be taken away without changing
    it, whatever the filter and the unsaved edits. *)
Theorem calculateStudentTotal_own_grades filterType assessments grades
    gradeChanges studentId :
  calculateStudentTotal filterType assessments
    (filter (fun g => String.eqb (g_studentId g) studentId) grades)
    gradeChanges studentId
  = calculateStudentTotal filterType assessments grades gradeChanges
      studentId.
Proof.
  rewrite !calculateStudentTotal_eq. unfold computeCoursePercentage.
  assert (E : forall a,
             currentScore
               (filter (fun g => String.eqb (g_studentId g) studentId) grades)
               gradeChanges studentId a
             = currentScore grades gradeChanges studentId a).
  { intros a. unfold currentScore, getGradeForStudentAssessment.
    rewrite find_filter_implied; [reflexivity|].
    intros g Hg. now apply andb_true_iff in Hg. }
  rewrite (map_ext _ _ (fun a => f_equal (fun x => x * Number (as_weight a))
                                   (E a))).
  reflexivity.
Qed.

(** X2.  When no assessment of the course has the type chosen in the
    filter, every student's total is 0 and the letter shown is "F",
    whatever grades are recorded or being edited. *)
Theorem calculateStudentTotal_nothing_filtered t assessments grades
    gradeChanges studentId :
  (forall a, In a assessments -> as_type a <> t) ->
  calculateStudentTotal (Some t) assessments grades gradeChanges studentId = 0
  /\ getLetterGrade
       (calculateStudentTotal (Some t) assessments grades gradeChanges
          studentId) = "F"%string.
Proof.
  intros Hno.
  assert (E : filteredAssessments (Some t) assessments = []).
  { unfold filteredAssessments.
    rewrite (filter_ext_in _ (fun _ => false)); [apply filter_false|].
    intros a Ha. destruct (AssessmentType_eqb (as_type a) t) eqn:Et;
      [|reflexivity].
    apply AssessmentType_eqb_eq in Et. now apply Hno in Ha. }
  unfold calculateStudentTotal. rewrite E. split; reflexivity.
Qed.

Lemma calculateStudentTotal_nothing_filtered_example :
  (forall a, In a [midterm; quiz] -> as_type a <> FINAL)
  /\ calculateStudentTotal (Some FINAL) [midterm; quiz] [midterm_grade] []
       "s1" = 0
  /\ getLetterGrade
       (calculateStudentTotal (Some FINAL) [midterm; quiz] [midterm_grade] []
          "s1") = "F"%string.
Proof.
  assert (H : forall a, In a [midterm; quiz] -> as_type a <> FINAL).
  { intros a [<-|[<-|[]]]; discriminate. }
  split; [exact H|].
  exact (calculateStudentTotal_nothing_filtered FINAL [midterm; quiz]
           [midterm_grade] [] "s1" H).
Defined.

End GradebookTotals.

(** ** The gradebook: editing and saving *)

Section GradebookEditing.

Local Open Scope float_scope.

(** X3.  An edited cell reads back: after [handleGradeChange] the score
    used for that student and assessment is the number typed, 0 standing
    for a text that gives NaN or zero, whatever grade is recorded; the
    number kept is never NaN; and every other key of [gradeChanges] keeps
    what it had. *)
Theorem handleGradeChange_reads_back gradeChanges grades studentId
    assessment parsed :
  let edited :=
    handleGradeChange gradeChanges studentId (as_id assessment) parsed in
  currentScore grades edited studentId assessment = or_zero parsed
  /\ PrimFloat.eqb (or_zero parsed) (or_zero parsed) = true
  /\ (PrimFloat.eqb parsed parsed = true -> PrimFloat.eqb parsed 0 = false ->
      or_zero parsed = parsed)
  /\ (forall key,
         get edited key
         = if String.eqb (gradeKey studentId (as_id assessment)) key
           then Some (or_zero parsed) else get gradeChanges key).
Proof.
  intros edited. subst edited. unfold handleGradeChange, currentScore.
  split; [|split; [|split]].
  - now rewrite get_set_key, String.eqb_refl.
  - apply or_zero_not_nan.
  - intros H1 H2. unfold or_zero. now rewrite H1, H2.
  - intros key. apply get_set_key.
Qed.

Lemma handleGradeChange_reads_back_example :
  (PrimFloat.eqb 72.5 72.5 = true /\ PrimFloat.eqb 72.5 0 = false)
  /\ currentScore [midterm_grade]
       (handleGradeChange [] "s1" (as_id midterm) 72.5) "s1" midterm = 72.5
  /\ currentScore [midterm_grade]
       (handleGradeChange [] "s1" (as_id midterm) nan) "s1" midterm = 0.
Proof.
  split; [split; reflexivity|]. split.
  - destruct (handleGradeChange_reads_back [] [midterm_grade] "s1" midterm
                72.5) as (H1 & _ & H3 & _).
    rewrite H1. exact (H3 eq_refl eq_refl).
  - exact (proj1 (handleGradeChange_reads_back [] [midterm_grade] "s1"
                    midterm nan)).
Defined.

Lemma append_cancel (s : string) :
  forall s' t t', String.length s = String.length s' ->
                  (s ++ t)%string = (s' ++ t')%string -> s = s' /\ t = t'.
Proof.
  induction s as [|c s IH]; intros [|c' s'] t t' Hlen E; simpl in *;
    try discriminate.
  - auto.
  - injection E as -> E. injection Hlen as Hlen.
    destruct (IH _ _ _ Hlen E) as [-> ->]. auto.
Qed.

(** X4.  Between students whose ids have the same length, as the ids drawn
    by [gen_random_uuid()] have, two cells never share a key of
    [gradeChanges]: equal keys mean the same student and the same
    assessment. *)
Theorem gradeKey_injective studentId assessmentId studentId' assessmentId' :
  String.length studentId = String.length studentId' ->
  gradeKey studentId assessmentId = gradeKey studentId' assessmentId' ->
  studentId = studentId' /\ assessmentId = assessmentId'.
Proof.
  unfold gradeKey. intros Hlen E.
  destruct (append_cancel _ _ _ _ Hlen E) as [-> E'].
  simpl in E'. injection E' as ->. auto.
Qed.

Lemma gradeKey_injective_example :
  (String.length "s1" = String.length "s1"
   /\ gradeKey "s1" "a1" = gradeKey "s1" "a1")
  /\ "s1"%string = "s1"%string /\ "a1"%string = "a1"%string.
Proof.
  split; [split; reflexivity|].
  exact (gradeKey_injective "s1" "a1" "s1" "a1" eq_refl eq_refl).
Defined.

Lemma gradeKey_split studentId assessmentId :
  contains dash studentId = false ->
  split dash (gradeKey studentId assessmentId)
  = studentId :: split dash assessmentId.
Proof.
  intros H. unfold gradeKey. simpl. now apply split_at_first.
Qed.

(** X5.  Saving never creates a grade.  [handleSaveChanges] gives one
    answer per edit, in the order of the edits.  An answer that is a
    request patches a grade that is recorded for the student and the
    assessment that the first two parts of the key name, and carries the
    number of that edit; and no request is sent for an edit exactly when
    no recorded grade is of that student and that assessment. *)
Theorem handleSaveChanges_patches_recorded_grades grades gradeChanges :
  List.length (handleSaveChanges grades gradeChanges)
  = List.length gradeChanges
  /\ Forall2
       (fun (entry : string * number) (answer : option GradeMutation) =>
          match answer with
          | Some m =>
              mutation_score m = snd entry
              /\ exists g parts,
                  In g grades /\ g_id g = mutation_gradeId m
                  /\ split dash (fst entry)
                     = g_studentId g :: g_assessmentId g :: parts
          | None =>
              forall g parts,
                In g grades ->
                split dash (fst entry)
                <> g_studentId g :: g_assessmentId g :: parts
          end)
       gradeChanges (handleSaveChanges grades gradeChanges).
Proof.
  unfold handleSaveChanges. split; [apply length_map|].
  induction gradeChanges as [|[key v] l IH]; simpl; constructor; [|exact IH].
  unfold saveChange. simpl.
  destruct (split dash key) as [|studentId [|assessmentId parts]];
    try (intros g parts' _; discriminate).
  destruct (getGradeForStudentAssessment _ _ _) as [g|] eqn:F;
    unfold getGradeForStudentAssessment in F.
  - apply find_some in F. destruct F as [Hin Hm].
    apply andb_true_iff in Hm. destruct Hm as [Hs Ha].
    apply String.eqb_eq in Hs, Ha. simpl. split; [reflexivity|].
    exists g, parts. now rewrite Hs, Ha.
  - intros g parts' Hin E. injection E as -> -> _.
    apply (find_none _ _ F) in Hin. simpl in Hin.
    now rewrite !String.eqb_refl in Hin.
Qed.

Lemma handleSaveChanges_patches_recorded_grades_example :
  handleSaveChanges [midterm_grade] [("s1-a1"%string, 90); ("s1-a2"%string, 40)]
  = [Some {| mutation_gradeId := "g1"; mutation_score := 90 |}; None]
  /\ List.length
       (handleSaveChanges [midterm_grade]
          [("s1-a1"%string, 90); ("s1-a2"%string, 40)]) = 2%nat.
Proof.
  split; [reflexivity|].
  exact (proj1 (handleSaveChanges_patches_recorded_grades [midterm_grade]
                  [("s1-a1"%string, 90); ("s1-a2"%string, 40)])).
Defined.

(** X6.  With ids that contain no dash the key of an edit splits back into
    its student and assessment: the edit of a cell with a recorded grade
    becomes the patch of that grade with the edited number, and the edit
    of a cell without a grade is dropped. *)
Theorem saveChange_round_trip grades studentId assessmentId value :
  contains dash studentId = false -> contains dash assessmentId = false ->
  saveChange grades (gradeKey studentId assessmentId, value)
  = match getGradeForStudentAssessment grades studentId assessmentId with
    | Some g => Some {| mutation_gradeId := g_id g; mutation_score := value |}
    | None => None
    end.
Proof.
  intros Hs Ha. unfold saveChange.
  rewrite (gradeKey_split _ _ Hs), (split_without _ _ Ha). reflexivity.
Qed.

Lemma saveChange_round_trip_example :
  (contains dash "s1" = false /\ contains dash "a1" = false)
  /\ saveChange [midterm_grade] (gradeKey "s1" "a1", 90)
     = Some {| mutation_gradeId := "g1"; mutation_score := 90 |}
  /\ saveChange [midterm_grade] (gradeKey "s1" "a2", 40) = None.
Proof.
  split; [split; reflexivity|]. split.
  - exact (saveChange_round_trip [midterm_grade] "s1" "a1" 90 eq_refl eq_refl).
  - exact (saveChange_round_trip [midterm_grade] "s1" "a2" 40 eq_refl eq_refl).
Defined.

(** X7.  When the student id of every recorded grade contains a dash, as
    the ids drawn by [gen_random_uuid()] do, [handleSaveChanges] sends no
    request at all, whatever the edits: the student id it recovers from a
    key stops at the first dash. *)
Theorem handleSaveChanges_sends_nothing grades gradeChanges :
  (forall g, In g grades -> contains dash (g_studentId g) = true) ->
  handleSaveChanges grades gradeChanges = map (fun _ => None) gradeChanges.
Proof.
  intros Hdash. unfold handleSaveChanges. apply map_ext.
  intros [key v]. unfold saveChange.
  destruct (split_head_without dash key) as (part & parts & E & Hpart).
  rewrite E. destruct parts as [|assessmentId parts]; [reflexivity|].
  destruct (getGradeForStudentAssessment _ _ _) as [g|] eqn:F;
    [|reflexivity].
  exfalso. unfold getGradeForStudentAssessment in F.
  apply find_some in F. destruct F as [Hin Hm].
  apply andb_true_iff in Hm. destruct Hm as [Hs _].
  apply String.eqb_eq in Hs. specialize (Hdash g Hin).
  rewrite Hs in Hdash. congruence.
Qed.

End GradebookEditing.

Section GradebookEditingExample.

Local Open Scope float_scope.

(** A grade whose ids are drawn by [gen_random_uuid()]: the edit of its
    cell is not sent. *)
Lemma handleSaveChanges_sends_nothing_example :
  let g :=
    {| g_id := "0b9d3c1e-5f7a-4c2b-8e6d-1a2b3c4d5e6f";
       g_studentId := "6b1f0c3e-8a4d-4e2b-9c1a-0d5e7f2a9b10";
       g_assessmentId := "c4a7e2d9-1b3f-4d6a-a5c8-7e9f0a1b2c3d";
       g_score := 8000%Z; g_letterGrade := None; g_feedback := None;
       g_gradedBy := "t1"; g_gradedAt := None; g_updatedAt := None |} in
  (forall g', In g' [g] -> contains dash (g_studentId g') = true)
  /\ handleSaveChanges [g]
       [(gradeKey (g_studentId g) (g_assessmentId g), 90)] = [None].
Proof.
  intros g.
  assert (H : forall g', In g' [g] -> contains dash (g_studentId g') = true).
  { intros g' [<-|[]]. reflexivity. }
  split; [exact H|].
  exact (handleSaveChanges_sends_nothing [g]
           [(gradeKey (g_studentId g) (g_assessmentId g), 90)] H).
Defined.

End GradebookEditingExample.

(** ** The grade entry form *)

Section GradeEntry.

Local Open Scope float_scope.

Lemma calculateLetterGrade_letters (score maxScore : number) :
  In (calculateLetterGrade score maxScore)
     ["A"; "B"; "C"; "D"; "F"]%string.
Proof.
  unfold calculateLetterGrade. simpl.
  destruct (90 <=? _); [tauto|]. destruct (80 <=? _); [tauto|].
  destruct (70 <=? _); [tauto|]. destruct (60 <=? _); tauto.
Qed.

(** X8.  For each choice the letter select offers, the payload of
    [onSubmit] carries one of the five letters and never the empty choice:
    a chosen letter goes through as it is, and "auto-calculate" is
    replaced by the letter that [calculateLetterGrade] computes from the
    score and the maximum of the selected assessment, 100 when the
    assessment is not in the list.  Student, assessment, score and
    feedback go through unchanged. *)
Theorem onSubmit_letterGrade assessments data :
  In (data_letterGrade data) [""; "A"; "B"; "C"; "D"; "F"]%string ->
  let payload := onSubmit assessments data in
  In (payload_letterGrade payload) ["A"; "B"; "C"; "D"; "F"]%string
  /\ (data_letterGrade data <> ""%string ->
      payload_letterGrade payload = data_letterGrade data)
  /\ (data_letterGrade data = ""%string ->
      payload_letterGrade payload
      = calculateLetterGrade (data_score data)
          match find (fun a => String.eqb (as_id a) (data_assessmentId data))
                     assessments with
          | Some a => Number (as_maxScore a)
          | None => 100
          end)
  /\ payload_studentId payload = data_studentId data
  /\ payload_assessmentId payload = data_assessmentId data
  /\ payload_score payload = data_score data
  /\ payload_feedback payload = data_feedback data.
Proof.
  intros Hin payload. subst payload. unfold onSubmit. simpl.
  split; [|split; [|split; [|repeat split]]].
  - destruct (String.eqb_spec (data_letterGrade data) "") as [E|E].
    + apply calculateLetterGrade_letters.
    + simpl in Hin. simpl. destruct Hin as [H|H]; [congruence | exact H].
  - intros Hne. destruct (String.eqb_spec (data_letterGrade data) "");
      [contradiction | reflexivity].
  - intros ->. reflexivity.
Qed.

Lemma onSubmit_letterGrade_example :
  let data :=
    {| data_studentId := "s1"; data_assessmentId := "a2"; data_score := 45;
       data_letterGrade := ""; data_feedback := ""; data_courseId := "c1" |} in
  In (data_letterGrade data) [""; "A"; "B"; "C"; "D"; "F"]%string
  /\ payload_letterGrade (onSubmit [midterm; quiz] data) = "A"%string
  /\ In (payload_letterGrade (onSubmit [midterm; quiz] data))
        ["A"; "B"; "C"; "D"; "F"]%string.
Proof.
  intros data.
  assert (H : In (data_letterGrade data) [""; "A"; "B"; "C"; "D"; "F"]%string)
    by (left; reflexivity).
  split; [exact H|]. split; [reflexivity|].
  exact (proj1 (onSubmit_letterGrade [midterm; quiz] data H)).
Defined.

End GradeEntry.

(** ** The attendance page and form *)

Section AttendanceMarking.

Local Open Scope nat_scope.

Lemma occurrences_filter (name : string) (l : list string) :
  occurrences name l
  = List.length (filter (fun status => String.eqb status name) l).
Proof.
  unfold occurrences. induction l as [|s l IH]; simpl; [reflexivity|].
  destruct (string_dec s name) as [->|Hne].
  - rewrite String.eqb_refl. simpl. now rewrite IH.
  - destruct (String.eqb_spec s name); [contradiction | exact IH].
Qed.

Lemma getStatusCounts_as_filters (attendanceData : object string) :
  count_PRESENT (getStatusCounts attendanceData)
  = quickStat attendanceData "PRESENT"
  /\ count_ABSENT (getStatusCounts attendanceData)
     = quickStat attendanceData "ABSENT"
  /\ count_LATE (getStatusCounts attendanceData)
     = quickStat attendanceData "LATE"
  /\ count_EXCUSED (getStatusCounts attendanceData)
     = quickStat attendanceData "EXCUSED".
Proof.
  unfold getStatusCounts, quickStat.
  destruct (tally_counts (Object_values attendanceData)
              {| count_PRESENT := 0; count_ABSENT := 0;
                 count_LATE := 0; count_EXCUSED := 0 |})
    as (HP & HA & HL & HE).
  rewrite HP, HA, HL, HE. simpl. rewrite !occurrences_filter. auto.
Qed.

(** X9.  The counts of the attendance form and the quick stats of the
    attendance page agree on every [attendanceData]: each counter of
    [getStatusCounts] is the number the page obtains by filtering the
    values for that status. *)
Theorem getStatusCounts_quickStats (attendanceData : object string) :
  count_PRESENT (getStatusCounts attendanceData)
  = quickStat attendanceData "PRESENT"
  /\ count_ABSENT (getStatusCounts attendanceData)
     = quickStat attendanceData "ABSENT"
  /\ count_LATE (getStatusCounts attendanceData)
     = quickStat attendanceData "LATE"
  /\ count_EXCUSED (getStatusCounts attendanceData)
     = quickStat attendanceData "EXCUSED".
Proof.
  exact (getStatusCounts_as_filters attendanceData).
Qed.

(** X10.  [getStatusCounts] counts an entry at most once and skips the
    entries whose status is none of the four names: the four counts and
    the number of skipped entries add up to the number of entries, so the
    counts never exceed it. *)
Theorem getStatusCounts_skips_unrecognized (attendanceData : object string) :
  let counts := getStatusCounts attendanceData in
  count_PRESENT counts + count_ABSENT counts + count_LATE counts
  + count_EXCUSED counts
  + List.length (filter unrecognized (Object_values attendanceData))
  = List.length attendanceData
  /\ count_PRESENT counts + count_ABSENT counts + count_LATE counts
     + count_EXCUSED counts <= List.length attendanceData.
Proof.
  intros counts. subst counts.
  destruct (getStatusCounts_as_filters attendanceData) as (-> & -> & -> & ->).
  unfold quickStat.
  assert (E : forall l : list string,
             List.length (filter (fun s => String.eqb s "PRESENT") l)
             + List.length (filter (fun s => String.eqb s "ABSENT") l)
             + List.length (filter (fun s => String.eqb s "LATE") l)
             + List.length (filter (fun s => String.eqb s "EXCUSED") l)
             + List.length (filter unrecognized l) = List.length l).
  { induction l as [|s l IH]; simpl; [reflexivity|].
    remember (unrecognized s) as u eqn:Hu. unfold unrecognized in Hu.
    destruct (String.eqb_spec s "PRESENT") as [->|];
      [subst u; simpl; lia|].
    destruct (String.eqb_spec s "ABSENT") as [->|];
      [subst u; simpl; lia|].
    destruct (String.eqb_spec s "LATE") as [->|];
      [subst u; simpl; lia|].
    destruct (String.eqb_spec s "EXCUSED") as [->|];
      subst u; simpl; lia. }
  specialize (E (Object_values attendanceData)).
  unfold Object_values in *. rewrite length_map in E. lia.
Qed.

End AttendanceMarking.

Section AttendanceChanges.

Local Open Scope nat_scope.

Lemma set_key_NoDup {V} (o : object V) (k : string) (v : V) :
  NoDup (Object_keys o) -> NoDup (Object_keys (set_key o k v)).
Proof.
  intros Hnd. unfold set_key.
  destruct (existsb (String.eqb k) (Object_keys o)) eqn:E.
  - now rewrite replace_key_keys.
  - apply (Permutation_NoDup (Permutation_sym (insert_key_keys o k v))).
    constructor; [|assumption]. intros Hin.
    assert (existsb (String.eqb k) (Object_keys o) = true).
    { apply existsb_exists. exists k. split; [assumption|].
      apply String.eqb_refl. }
    congruence.
Qed.

Lemma set_key_length {V} (o : object V) (k : string) (v : V) :
  List.length (set_key o k v)
  = if existsb (String.eqb k) (Object_keys o) then List.length o
    else S (List.length o).
Proof.
  unfold set_key. destruct (existsb _ _).
  - pose proof (f_equal (@List.length _) (replace_key_keys o k v)) as E.
    unfold Object_keys in E. now rewrite !length_map in E.
  - pose proof (Permutation_length (insert_key_keys o k v)) as E.
    unfold Object_keys in E. simpl in E. now rewrite !length_map in E.
Qed.

(** X11.  A changed mark reads back: after [handleAttendanceChange] the
    student has the new status and every other student the status held
    before; a student already listed keeps one entry, a new student adds
    one; and the students of the session stay pairwise distinct. *)
Theorem handleAttendanceChange_reads_back attendanceData studentId status :
  let changed := handleAttendanceChange attendanceData studentId status in
  (forall other,
      get changed other
      = if String.eqb studentId other then Some status
        else get attendanceData other)
  /\ List.length changed
     = (if existsb (String.eqb studentId) (Object_keys attendanceData)
        then List.length attendanceData
        else S (List.length attendanceData))
  /\ (NoDup (Object_keys attendanceData) -> NoDup (Object_keys changed)).
Proof.
  intros changed. subst changed. unfold handleAttendanceChange.
  split; [|split].
  - intros other. apply get_set_key.
  - apply set_key_length.
  - apply set_key_NoDup.
Qed.

Lemma handleAttendanceChange_reads_back_example :
  NoDup (Object_keys ten_records)
  /\ get (handleAttendanceChange ten_records "s02" "LATE") "s02"
     = Some "LATE"%string
  /\ NoDup (Object_keys (handleAttendanceChange ten_records "s02" "LATE")).
Proof.
  assert (H : NoDup (Object_keys ten_records)).
  { apply (NoDup_count_occ' string_dec). intros x Hx. simpl in Hx.
    repeat (destruct Hx as [<-|Hx]; [reflexivity|]). contradiction. }
  destruct (handleAttendanceChange_reads_back ten_records "s02" "LATE")
    as (Hget & _ & Hnd).
  split; [exact H|]. split; [|exact (Hnd H)].
  rewrite Hget. reflexivity.
Defined.

(** X12.  [handleSaveAttendance] sends nothing while the course or the
    date is not chosen; otherwise it sends one request per student of the
    session, each for the chosen course and date with the student's
    status, and for distinct students no two requests share their
    student, course and date. *)
Theorem handleSaveAttendance_requests selectedCourse selectedDate
    attendanceData :
  handleSaveAttendance "" selectedDate attendanceData = []
  /\ handleSaveAttendance selectedCourse "" attendanceData = []
  /\ (selectedCourse <> ""%string -> selectedDate <> ""%string ->
      let requests :=
        handleSaveAttendance selectedCourse selectedDate attendanceData in
      map (fun r => (record_studentId r, record_status r)) requests
      = attendanceData
      /\ Forall (fun r => record_courseId r = selectedCourse
                          /\ record_date r = selectedDate) requests
      /\ (NoDup (Object_keys attendanceData) ->
          NoDup (map (fun r => (record_studentId r, record_courseId r,
                                record_date r)) requests))).
Proof.
  split; [reflexivity|]. split.
  { unfold handleSaveAttendance. now rewrite String.eqb_refl, orb_true_r. }
  intros Hc Hd requests. subst requests. unfold handleSaveAttendance.
  destruct (String.eqb_spec selectedCourse ""); [contradiction|].
  destruct (String.eqb_spec selectedDate ""); [contradiction|]. simpl.
  split; [|split].
  - rewrite map_map. rewrite <- (map_id attendanceData) at 2.
    apply map_ext. now intros [studentId status].
  - apply Forall_forall. intros r Hr. apply in_map_iff in Hr.
    destruct Hr as ([studentId status] & <- & _). auto.
  - unfold Object_keys. rewrite map_map.
    induction attendanceData as [|[studentId status] l IH]; simpl;
      intros Hnd; [constructor|].
    inversion Hnd as [|? ? Hn Hl]; subst. constructor; [|auto].
    intros Hin. apply Hn. apply in_map_iff in Hin.
    destruct Hin as ([s' st'] & E & Hin). injection E as ->.
    apply in_map_iff. now exists (studentId, st').
Qed.

Lemma handleSaveAttendance_requests_example :
  ("c1"%string <> ""%string /\ "2024-09-02"%string <> ""%string
   /\ NoDup (Object_keys ten_records))
  /\ List.length (handleSaveAttendance "c1" "2024-09-02" ten_records) = 10
  /\ NoDup (map (fun r => (record_studentId r, record_courseId r,
                           record_date r))
              (handleSaveAttendance "c1" "2024-09-02" ten_records)).
Proof.
  assert (H : NoDup (Object_keys ten_records)).
  { apply (NoDup_count_occ' string_dec). intros x Hx. simpl in Hx.
    repeat (destruct Hx as [<-|Hx]; [reflexivity|]). contradiction. }
  assert (Hc : "c1"%string <> ""%string) by discriminate.
  assert (Hd : "2024-09-02"%string <> ""%string) by discriminate.
  destruct (handleSaveAttendance_requests "c1" "2024-09-02" ten_records)
    as (_ & _ & Hreq).
  destruct (Hreq Hc Hd) as (_ & _ & Hnd).
  split; [auto|]. split; [reflexivity | exact (Hnd H)].
Defined.

End AttendanceChanges.

(** ** Foreign keys of the stored rows *)

Section ForeignKeys.

Lemma mem_filter_other (x id : Id) (l : list Id) :
  mem x l = true -> x <> id ->
  mem x (filter (fun s => negb (String.eqb s id)) l) = true.
Proof.
  unfold mem. intros H Hne. apply existsb_exists in H.
  destruct H as (y & Hy & E). apply String.eqb_eq in E. subst y.
  apply existsb_exists. exists x. split; [|apply String.eqb_refl].
  apply filter_In. split; [assumption|].
  destruct (String.eqb_spec x id); [contradiction | reflexivity].
Qed.

Lemma mem_app_left (x : Id) (l l' : list Id) :
  mem x l = true -> mem x (l ++ l') = true.
Proof.
  unfold mem. intros H. rewrite existsb_app.
  apply orb_true_iff. left. exact H.
Qed.

Lemma grade_references_transfer db db' g :
  (mem (g_studentId g) (students db) = true ->
   mem (g_studentId g) (students db') = true) ->
  (existsb (fun a => String.eqb (as_id a) (g_assessmentId g))
           (assessments db) = true ->
   existsb (fun a => String.eqb (as_id a) (g_assessmentId g))
           (assessments db') = true) ->
  (mem (g_gradedBy g) (users db) = true ->
   mem (g_gradedBy g) (users db') = true) ->
  grade_references_ok db g = true -> grade_references_ok db' g = true.
Proof.
  unfold grade_references_ok. intros H1 H2 H3 H.
  apply andb_true_iff in H. destruct H as [H Hu].
  apply andb_true_iff in H. destruct H as [Hs Ha].
  now rewrite (H1 Hs), (H2 Ha), (H3 Hu).
Qed.

Lemma attendance_references_transfer db db' a :
  (mem (at_studentId a) (students db) = true ->
   mem (at_studentId a) (students db') = true) ->
  (mem (at_courseId a) (courses db) = true ->
   mem (at_courseId a) (courses db') = true) ->
  (mem (at_markedBy a) (users db) = true ->
   mem (at_markedBy a) (users db') = true) ->
  attendance_references_ok db a = true ->
  attendance_references_ok db' a = true.
Proof.
  unfold attendance_references_ok. intros H1 H2 H3 H.
  apply andb_true_iff in H. destruct H as [H Hu].
  apply andb_true_iff in H. destruct H as [Hs Hc].
  now rewrite (H1 Hs), (H2 Hc), (H3 Hu).
Qed.

(** A row whose references resolved still has them resolve after an
    update that looked up again each reference it changed. *)
Lemma grade_update_keeps_references db old new :
  grade_references_ok db old = true ->
  grade_update_references_ok db old new = true ->
  grade_references_ok db new = true.
Proof.
  unfold grade_references_ok, grade_update_references_ok. intros H Hup.
  apply andb_true_iff in H. destruct H as [H Hu].
  apply andb_true_iff in H. destruct H as [Hs Ha].
  apply andb_true_iff in Hup. destruct Hup as [Hup Hu'].
  apply andb_true_iff in Hup. destruct Hup as [Hs' Ha'].
  apply orb_true_iff in Hs', Ha', Hu'.
  assert (E1 : mem (g_studentId new) (students db) = true).
  { destruct Hs' as [E|E]; [|exact E].
    apply String.eqb_eq in E. now rewrite E. }
  assert (E2 : existsb (fun a => String.eqb (as_id a) (g_assessmentId new))
                       (assessments db) = true).
  { destruct Ha' as [E|E]; [|exact E].
    apply String.eqb_eq in E. now rewrite E. }
  assert (E3 : mem (g_gradedBy new) (users db) = true).
  { destruct Hu' as [E|E]; [|exact E].
    apply String.eqb_eq in E. now rewrite E. }
  now rewrite E1, E2, E3.
Qed.

Lemma attendance_update_keeps_references db old new :
  attendance_references_ok db old = true ->
  attendance_update_references_ok db old new = true ->
  attendance_references_ok db new = true.
Proof.
  unfold attendance_references_ok, attendance_update_references_ok.
  intros H Hup.
  apply andb_true_iff in H. destruct H as [H Hu].
  apply andb_true_iff in H. destruct H as [Hs Hc].
  apply andb_true_iff in Hup. destruct Hup as [Hup Hu'].
  apply andb_true_iff in Hup. destruct Hup as [Hs' Hc'].
  apply orb_true_iff in Hs', Hc', Hu'.
  assert (E1 : mem (at_studentId new) (students db) = true).
  { destruct Hs' as [E|E]; [|exact E].
    apply String.eqb_eq in E. now rewrite E. }
  assert (E2 : mem (at_courseId new) (courses db) = true).
  { destruct Hc' as [E|E]; [|exact E].
    apply String.eqb_eq in E. now rewrite E. }
  assert (E3 : mem (at_markedBy new) (users db) = true).
  { destruct Hu' as [E|E]; [|exact E].
    apply String.eqb_eq in E. now rewrite E. }
  now rewrite E1, E2, E3.
Qed.

(** Rows rewritten under a check of the changed references. *)
Lemma rewritten_grades_resolve db (hit : Grade -> bool) (f : Grade -> Grade) :
  (forall g, In g (grades db) -> grade_references_ok db g = true) ->
  forallb (fun row => negb (hit row) || grade_update_references_ok db row (f row))
          (grades db) = true ->
  forall g, In g (map (fun row => if hit row then f row else row) (grades db)) ->
            grade_references_ok db g = true.
Proof.
  intros Hok Hall g Hin. apply in_map_iff in Hin.
  destruct Hin as (row & <- & Hrow).
  pose proof (proj1 (forallb_forall _ _) Hall row Hrow) as Hc.
  cbv beta in Hc. destruct (hit row); simpl in Hc; [|now apply Hok].
  apply (grade_update_keeps_references db row); [now apply Hok | exact Hc].
Qed.

Lemma rewritten_attendance_resolve db (hit : Attendance -> bool)
    (f : Attendance -> Attendance) :
  (forall a, In a (attendance db) -> attendance_references_ok db a = true) ->
  forallb (fun row => negb (hit row)
                      || attendance_update_references_ok db row (f row))
          (attendance db) = true ->
  forall a, In a (map (fun row => if hit row then f row else row)
                      (attendance db)) ->
            attendance_references_ok db a = true.
Proof.
  intros Hok Hall a Hin. apply in_map_iff in Hin.
  destruct Hin as (row & <- & Hrow).
  pose proof (proj1 (forallb_forall _ _) Hall row Hrow) as Hc.
  cbv beta in Hc. destruct (hit row); simpl in Hc; [|now apply Hok].
  apply (attendance_update_keeps_references db row);
    [now apply Hok | exact Hc].
Qed.

Lemma createGrade_foreign_keys cs db grade uuid now :
  foreign_keys_hold db ->
  foreign_keys_hold (commit db (createGrade cs db grade uuid now)).
Proof.
  intros (Hg & Ha & Hs). unfold createGrade.
  destruct (numeric_parameter 5 (ig_score grade)) as [score|e];
    [|now repeat split].
  destruct (negb _); [now repeat split|].
  destruct (find _ (grades db)) as [existing|].
  - destruct (forallb _ (grades db)) eqn:Hall; [|now repeat split].
    repeat split; simpl; auto.
    intros g Hin. apply (rewritten_grades_resolve db _ _ Hg Hall g Hin).
  - destruct (mem uuid _); [now repeat split|].
    destruct (grade_references_ok db _) eqn:Hok; [|now repeat split].
    repeat split; simpl; auto.
    intros g Hin. apply in_app_or in Hin.
    destruct Hin as [Hin|[<-|[]]]; [now apply Hg | exact Hok].
Qed.

Lemma updateGrade_foreign_keys cs db id grade now :
  foreign_keys_hold db ->
  foreign_keys_hold (commit db (updateGrade cs db id grade now)).
Proof.
  intros (Hg & Ha & Hs). unfold updateGrade.
  destruct (optional_numeric_parameter 5 (pg_score grade)) as [score|e];
    [|now repeat split].
  destruct (_ && _); [now repeat split|].
  destruct (forallb _ (grades db)) eqn:Hall; [|now repeat split].
  repeat split; simpl; auto.
  intros g Hin. apply (rewritten_grades_resolve db _ _ Hg Hall g Hin).
Qed.

Lemma markAttendance_foreign_keys cs db a uuid now :
  foreign_keys_hold db ->
  foreign_keys_hold (commit db (markAttendance cs db a uuid now)).
Proof.
  intros (Hg & Ha & Hs). unfold markAttendance.
  destruct (negb _); [now repeat split|].
  destruct (find _ (attendance db)) as [existing|].
  - destruct (forallb _ (attendance db)) eqn:Hall; [|now repeat split].
    repeat split; simpl; auto.
    intros r Hin. apply (rewritten_attendance_resolve db _ _ Ha Hall r Hin).
  - destruct (mem uuid _); [now repeat split|].
    destruct (attendance_references_ok db _) eqn:Hok; [|now repeat split].
    repeat split; simpl; auto.
    intros r Hin. apply in_app_or in Hin.
    destruct Hin as [Hin|[<-|[]]]; [now apply Ha | exact Hok].
Qed.

Lemma updateAttendance_foreign_keys cs db id a :
  foreign_keys_hold db ->
  foreign_keys_hold (commit db (updateAttendance cs db id a)).
Proof.
  intros (Hg & Ha & Hs). unfold updateAttendance.
  destruct (no_values a); [now repeat split|].
  destruct (_ && _); [now repeat split|].
  destruct (forallb _ (attendance db)) eqn:Hall; [|now repeat split].
  repeat split; simpl; auto.
  intros r Hin. apply (rewritten_attendance_resolve db _ _ Ha Hall r Hin).
Qed.

End ForeignKeys.

Section ForeignKeysOfDeletes.

Lemma has_assessment_filter (id other : Id) (l : list Assessment)
    (keep : Assessment -> bool) :
  (forall a, In a l -> as_id a = other -> keep a = true) ->
  existsb (fun a => String.eqb (as_id a) other) l = true ->
  existsb (fun a => String.eqb (as_id a) other) (filter keep l) = true.
Proof.
  intros Hkeep H. apply existsb_exists in H. destruct H as (a & Ha & E).
  apply existsb_exists. exists a. split; [|exact E].
  apply filter_In. split; [assumption|].
  apply String.eqb_eq in E. now apply Hkeep.
Qed.

Lemma deleteGrade_foreign_keys db id :
  foreign_keys_hold db -> foreign_keys_hold (deleteGrade db id).
Proof.
  intros (Hg & Ha & Hs). unfold deleteGrade. repeat split; simpl; auto.
  intros g Hin. apply filter_In in Hin. now apply Hg.
Qed.

Lemma deleteStudent_foreign_keys db id :
  foreign_keys_hold db -> foreign_keys_hold (deleteStudent db id).
Proof.
  intros (Hg & Ha & Hs). unfold deleteStudent.
  destruct (mem id (students db)); [|now repeat split].
  repeat split; simpl; auto.
  - intros g Hin. apply filter_In in Hin. destruct Hin as [Hin Hne].
    apply (grade_references_transfer db);
      [simpl; intros Hm | simpl; auto | simpl; auto | now apply Hg].
    apply mem_filter_other; [assumption|].
    destruct (String.eqb_spec (g_studentId g) id); [discriminate | assumption].
  - intros a Hin. apply filter_In in Hin. destruct Hin as [Hin Hne].
    apply (attendance_references_transfer db);
      [simpl; intros Hm | simpl; auto | simpl; auto | now apply Ha].
    apply mem_filter_other; [assumption|].
    destruct (String.eqb_spec (at_studentId a) id); [discriminate | assumption].
Qed.

Lemma deleteAssessment_foreign_keys db id :
  foreign_keys_hold db -> foreign_keys_hold (deleteAssessment db id).
Proof.
  intros (Hg & Ha & Hs). unfold deleteAssessment.
  repeat split; simpl; auto.
  - intros g Hin.
    assert (Hg' : In g (grades db) /\ g_assessmentId g <> id).
    { destruct (existsb _ (assessments db)) eqn:Hex.
      - apply filter_In in Hin. destruct Hin as [Hin Hne]. split; [assumption|].
        destruct (String.eqb_spec (g_assessmentId g) id);
          [discriminate | assumption].
      - split; [assumption|]. intros <-.
        pose proof (Hg g Hin) as Hok. unfold grade_references_ok in Hok.
        apply andb_true_iff in Hok. destruct Hok as [Hok _].
        apply andb_true_iff in Hok. destruct Hok as [_ Hok]. congruence. }
    destruct Hg' as [Hin' Hne].
    apply (grade_references_transfer db);
      [simpl; auto | simpl | simpl; auto | now apply Hg].
    apply (has_assessment_filter id). intros a _ E.
    destruct (String.eqb_spec (as_id a) id); [congruence | reflexivity].
  - intros a Hin. apply filter_In in Hin. now apply Hs.
Qed.

Lemma deleteCourse_foreign_keys db id :
  foreign_keys_hold db -> foreign_keys_hold (deleteCourse db id).
Proof.
  intros (Hg & Ha & Hs). unfold deleteCourse.
  destruct (mem id (courses db)); [|now repeat split].
  repeat split; simpl; auto.
  - intros g Hin. apply filter_In in Hin. destruct Hin as [Hin Hgone].
    apply negb_true_iff in Hgone.
    apply (grade_references_transfer db);
      [simpl; auto | simpl | simpl; auto | now apply Hg].
    apply (has_assessment_filter id). intros a Hain E.
    destruct (String.eqb_spec (as_courseId a) id) as [Ec|]; [|reflexivity].
    exfalso. assert (Hm : mem (g_assessmentId g)
                              (map as_id
                                 (filter (fun a => String.eqb (as_courseId a) id)
                                         (assessments db))) = true).
    { unfold mem. apply existsb_exists. exists (as_id a). split.
      - apply in_map. apply filter_In. split; [assumption|].
        now apply String.eqb_eq.
      - rewrite E. apply String.eqb_refl. }
    congruence.
  - intros a Hin. apply filter_In in Hin. destruct Hin as [Hin Hne].
    apply (attendance_references_transfer db);
      [simpl; auto | simpl; intros Hm | simpl; auto | now apply Ha].
    apply mem_filter_other; [assumption|].
    destruct (String.eqb_spec (at_courseId a) id); [discriminate | assumption].
  - intros a Hin. apply filter_In in Hin. destruct Hin as [Hin Hne].
    apply mem_filter_other; [now apply Hs|].
    destruct (String.eqb_spec (as_courseId a) id); [discriminate | assumption].
Qed.

Lemma creates_foreign_keys db uuid :
  foreign_keys_hold db ->
  foreign_keys_hold (upsertUser db uuid)
  /\ foreign_keys_hold (createStudent db uuid)
  /\ foreign_keys_hold (createCourse db uuid).
Proof.
  intros (Hg & Ha & Hs). unfold upsertUser, createStudent, createCourse.
  split; [|split].
  - destruct (mem uuid (users db)); [now repeat split|].
    repeat split; simpl; auto.
    + intros g Hin. apply (grade_references_transfer db);
        [simpl; auto | simpl; auto | simpl; apply mem_app_left
        | now apply Hg].
    + intros a Hin. apply (attendance_references_transfer db);
        [simpl; auto | simpl; auto | simpl; apply mem_app_left
        | now apply Ha].
  - destruct (mem uuid (students db)); [now repeat split|].
    repeat split; simpl; auto.
    + intros g Hin. apply (grade_references_transfer db);
        [simpl; apply mem_app_left | simpl; auto | simpl; auto
        | now apply Hg].
    + intros a Hin. apply (attendance_references_transfer db);
        [simpl; apply mem_app_left | simpl; auto | simpl; auto
        | now apply Ha].
  - destruct (mem uuid (courses db)); [now repeat split|].
    repeat split; simpl; auto.
    + intros a Hin. apply (attendance_references_transfer db);
        [simpl; auto | simpl; apply mem_app_left | simpl; auto
        | now apply Ha].
    + intros a Hin. apply mem_app_left. now apply Hs.
Qed.

Lemma createAssessment_foreign_keys db a :
  foreign_keys_hold db -> foreign_keys_hold (createAssessment db a).
Proof.
  intros (Hg & Ha & Hs). unfold createAssessment.
  destruct (existsb _ (assessments db)); simpl; [now repeat split|].
  destruct (mem (as_courseId a) (courses db)) eqn:Hc; simpl;
    [|now repeat split].
  destruct (fits 5 (as_maxScore a) && fits 3 (as_weight a)); simpl;
    [|now repeat split].
  repeat split; simpl; auto.
  - intros g Hin. apply (grade_references_transfer db);
      [simpl; auto | simpl | simpl; auto | now apply Hg].
    intros H. rewrite existsb_app. apply orb_true_iff. now left.
  - intros a' Hin. apply in_app_or in Hin.
    destruct Hin as [Hin|[<-|[]]]; [now apply Hs | exact Hc].
Qed.

Lemma perform_foreign_keys cs db c :
  foreign_keys_hold db -> foreign_keys_hold (perform cs db c).
Proof.
  intros H. destruct c; simpl.
  - now apply createGrade_foreign_keys.
  - now apply updateGrade_foreign_keys.
  - now apply deleteGrade_foreign_keys.
  - now apply markAttendance_foreign_keys.
  - now apply updateAttendance_foreign_keys.
  - now apply deleteStudent_foreign_keys.
  - now apply deleteCourse_foreign_keys.
  - now apply deleteAssessment_foreign_keys.
  - now apply creates_foreign_keys.
  - now apply creates_foreign_keys.
  - now apply creates_foreign_keys.
  - now apply createAssessment_foreign_keys.
Qed.

Lemma perform_all_foreign_keys cs calls :
  forall db, foreign_keys_hold db -> foreign_keys_hold (perform_all cs db calls).
Proof.
  unfold perform_all.
  induction calls as [|c calls IH]; simpl; intros db H; [assumption|].
  apply IH. now apply perform_foreign_keys.
Qed.

(** X13.  No call leaves a dangling reference, whatever unique indexes
    the tables carry: from a store in which every grade, attendance row
    and assessment refers to stored rows, every sequence of upserts,
    updates, deletes with their cascades, and inserts into the referenced
    tables leads to such a store again. *)
Theorem foreign_keys_hold_in_reachable_states cs db calls :
  foreign_keys_hold db -> foreign_keys_hold (perform_all cs db calls).
Proof.
  apply perform_all_foreign_keys.
Qed.

Lemma empty_store_foreign_keys : foreign_keys_hold empty_store.
Proof. repeat split; intros ? []. Defined.

Lemma foreign_keys_hold_example :
  foreign_keys_hold empty_store
  /\ foreign_keys_hold (perform_all with_unique_keys empty_store
                          (example_calls ++ [DeleteCourse "c1"]))
  /\ map g_id (grades (perform_all with_unique_keys empty_store
                         example_calls)) = ["g1"%string]
  /\ grades (perform_all with_unique_keys empty_store
               (example_calls ++ [DeleteCourse "c1"])) = [].
Proof.
  split; [exact empty_store_foreign_keys|].
  split; [|split; reflexivity].
  exact (foreign_keys_hold_in_reachable_states with_unique_keys empty_store
           (example_calls ++ [DeleteCourse "c1"]) empty_store_foreign_keys).
Defined.

End ForeignKeysOfDeletes.

(** ** Updates and deletes *)

Section UpdatesAndDeletes.







(** X15.  A successful [updateGrade] changes rows only where it should:
    the table keeps its rows in number, order and id, no row changes its
    [gradedAt], rows with another id stay as they are, the other tables
    are untouched, and the returned row, when there is one, bears the id
    asked for and the time of the call as [updatedAt]. *)
Theorem updateGrade_frame cs db id grade now returned db' :
  updateGrade cs db id grade now = Ok (returned, db') ->
  map g_id (grades db') = map g_id (grades db)
  /\ map g_gradedAt (grades db') = map g_gradedAt (grades db)
  /\ (forall g, In g (grades db) -> g_id g <> id -> In g (grades db'))
  /\ (attendance db' = attendance db /\ assessments db' = assessments db
      /\ students db' = students db /\ courses db' = courses db
      /\ users db' = users db)
  /\ (forall g, returned = Some g ->
                In g (grades db') /\ g_id g = id
                /\ g_updatedAt g = Some now).
Proof.
  unfold updateGrade. intros H.
  destruct (optional_numeric_parameter 5 (pg_score grade)) as [score|e];
    [|discriminate].
  destruct (_ && _); [discriminate|].
  destruct (forallb _ (grades db)); [|discriminate].
  injection H as <- <-. simpl.
  split; [|split; [|split; [|split]]].
  - rewrite map_map. apply map_ext. intros g.
    now destruct (String.eqb (g_id g) id).
  - rewrite map_map. apply map_ext. intros g.
    now destruct (String.eqb (g_id g) id).
  - intros g Hin Hne. apply in_map_iff. exists g. split; [|assumption].
    destruct (String.eqb_spec (g_id g) id); [contradiction | reflexivity].
  - repeat split.
  - intros g F. apply find_some in F. destruct F as [Hin Hhit].
    split; [assumption|]. apply String.eqb_eq in Hhit.
    split; [assumption|].
    apply in_map_iff in Hin. destruct Hin as (old & E & _).
    destruct (String.eqb_spec (g_id old) id) as [Eo|Eo].
    + now rewrite <- E.
    + subst g. contradiction.
Qed.

Lemma updateGrade_frame_example :
  updateGrade with_unique_keys store_with_rows "g1" move_to_quiz 9
  = Ok (Some (updateGrade_set move_to_quiz None 9 stored_grade),
        set_grades store_with_rows
          [updateGrade_set move_to_quiz None 9 stored_grade])
  /\ map g_gradedAt
       (grades (set_grades store_with_rows
                  [updateGrade_set move_to_quiz None 9 stored_grade]))
     = map g_gradedAt (grades store_with_rows).
Proof.
  assert (H : updateGrade with_unique_keys store_with_rows "g1" move_to_quiz 9
              = Ok (Some (updateGrade_set move_to_quiz None 9 stored_grade),
                    set_grades store_with_rows
                      [updateGrade_set move_to_quiz None 9 stored_grade]))
    by reflexivity.
  split; [exact H|].
  exact (proj1 (proj2 (updateGrade_frame _ _ _ _ _ _ _ H))).
Defined.

End UpdatesAndDeletes.

Section Cascades.

Lemma mem_filter_self (id : Id) (l : list Id) :
  mem id (filter (fun s => negb (String.eqb s id)) l) = false.
Proof.
  unfold mem. destruct (existsb _ _) eqn:E; [|reflexivity].
  apply existsb_exists in E. destruct E as (x & Hx & E).
  apply String.eqb_eq in E. subst x. apply filter_In in Hx.
  destruct Hx as [_ Hx]. now rewrite String.eqb_refl in Hx.
Qed.

(** X16.  A delete leaves no orphan and takes nothing more than its
    cascade: on a store whose references resolve, after [deleteStudent]
    the student is gone with every grade and attendance row of that
    student and all rows of other students are kept; after [deleteCourse]
    the course is gone with its attendance rows and its assessments, and
    attendance rows of other courses are kept; after [deleteAssessment] no
    assessment and no grade bears the id, and grades of other assessments
    are kept. *)
Theorem deletes_cascade db id :
  foreign_keys_hold db ->
  (mem id (students (deleteStudent db id)) = false
   /\ (forall g, In g (grades (deleteStudent db id)) <->
                 In g (grades db) /\ g_studentId g <> id)
   /\ (forall a, In a (attendance (deleteStudent db id)) <->
                 In a (attendance db) /\ at_studentId a <> id))
  /\ (mem id (courses (deleteCourse db id)) = false
      /\ (forall a, In a (attendance (deleteCourse db id)) <->
                    In a (attendance db) /\ at_courseId a <> id)
      /\ (forall a, In a (assessments (deleteCourse db id)) <->
                    In a (assessments db) /\ as_courseId a <> id))
  /\ ((forall a, In a (assessments (deleteAssessment db id)) <->
                 In a (assessments db) /\ as_id a <> id)
      /\ (forall g, In g (grades (deleteAssessment db id)) <->
                    In g (grades db) /\ g_assessmentId g <> id)).
Proof.
  intros (Hg & Ha & Hs).
  assert (Hneq : forall x : Id, negb (String.eqb x id) = true <-> x <> id).
  { intros x. destruct (String.eqb_spec x id); simpl; split;
      congruence. }
  split; [|split].
  - unfold deleteStudent. destruct (mem id (students db)) eqn:Hm; simpl.
    + split; [apply mem_filter_self|].
      split; intros r; rewrite filter_In, Hneq; tauto.
    + split; [assumption|]. split; intros r; split; try tauto;
        intros Hin; split; try assumption; intros E.
      * pose proof (Hg r Hin) as Hok. unfold grade_references_ok in Hok.
        rewrite E, Hm in Hok. discriminate.
      * pose proof (Ha r Hin) as Hok. unfold attendance_references_ok in Hok.
        rewrite E, Hm in Hok. discriminate.
  - unfold deleteCourse. destruct (mem id (courses db)) eqn:Hm; simpl.
    + split; [apply mem_filter_self|].
      split; intros r; rewrite filter_In, Hneq; tauto.
    + split; [assumption|]. split; intros r; split; try tauto;
        intros Hin; split; try assumption; intros E.
      * pose proof (Ha r Hin) as Hok. unfold attendance_references_ok in Hok.
        rewrite E, Hm, andb_false_r in Hok. discriminate.
      * pose proof (Hs r Hin) as Hok. rewrite E, Hm in Hok. discriminate.
  - unfold deleteAssessment. simpl. split.
    + intros a. rewrite filter_In. destruct (String.eqb_spec (as_id a) id);
        simpl; split; intros [H1 H2]; split; congruence.
    + destruct (existsb _ (assessments db)) eqn:Hex.
      * intros g. rewrite filter_In, Hneq. tauto.
      * intros g. split; [|tauto]. intros Hin. split; [assumption|].
        intros E. pose proof (Hg g Hin) as Hok.
        unfold grade_references_ok in Hok.
        rewrite E, Hex, andb_false_r in Hok. discriminate.
Qed.

Lemma deletes_cascade_example :
  let db := perform_all with_unique_keys empty_store example_calls in
  foreign_keys_hold db
  /\ map g_id (grades db) = ["g1"%string]
  /\ grades (deleteStudent db "s1") = []
  /\ attendance (deleteStudent db "s1") = []
  /\ (forall g, In g (grades (deleteStudent db "s1")) <->
                In g (grades db) /\ g_studentId g <> "s1"%string).
Proof.
  intros db.
  assert (H : foreign_keys_hold db).
  { apply perform_all_foreign_keys. exact empty_store_foreign_keys. }
  split; [exact H|]. split; [reflexivity|]. split; [reflexivity|].
  split; [reflexivity|].
  exact (proj1 (proj2 (proj1 (deletes_cascade db "s1" H)))).
Defined.

End Cascades.

(** ** Who graded, who marked *)

Section Stamps.

(** X17.  A grade patched through [PATCH /api/grades/:id] is stamped with
    the caller: whatever the body says of [gradedBy], the row returned
    bears the id of the request, the caller as [gradedBy] and the time of
    the call as [updatedAt], and it is stored; any other answer than the
    200 leaves the store unchanged. *)
Theorem patch_grades_stamps_caller cs db id body sub now :
  (forall g db',
      patch_grades cs db id body sub now = (Json (Some g), db') ->
      g_id g = id /\ g_gradedBy g = sub /\ g_updatedAt g = Some now
      /\ In g (grades db'))
  /\ (fst (patch_grades cs db id body sub now) = PatchInvalidData
      \/ fst (patch_grades cs db id body sub now) = FailedToUpdateGrade ->
      snd (patch_grades cs db id body sub now) = db).
Proof.
  unfold patch_grades. split.
  - intros g db' H.
    destruct (partialGradeSchema_parse body sub) as [p|] eqn:P;
      [|discriminate].
    assert (Hby : pg_gradedBy p = Some sub).
    { unfold partialGradeSchema_parse in P.
      destruct (optional (patch_studentId body)); [|discriminate].
      destruct (optional (patch_assessmentId body)); [|discriminate].
      destruct (optional (patch_score body)); [|discriminate].
      destruct (optional (patch_letterGrade body)); [|discriminate].
      destruct (optional (patch_feedback body)); [|discriminate].
      now injection P as <-. }
    destruct (updateGrade cs db id p now) as [[r db'']|e] eqn:U;
      [|discriminate].
    injection H as -> ->. unfold updateGrade in U.
    destruct (optional_numeric_parameter 5 (pg_score p)) as [score|e];
      [|discriminate].
    destruct (_ && _); [discriminate|].
    destruct (forallb _ (grades db)); [|discriminate].
    injection U as F <-. simpl. apply find_some in F.
    destruct F as [Hin Hhit]. apply String.eqb_eq in Hhit.
    apply in_map_iff in Hin. destruct Hin as (old & E & Hold).
    destruct (String.eqb_spec (g_id old) id) as [Eo|Eo].
    + repeat split; try assumption.
      * rewrite <- E. simpl. now rewrite Hby.
      * now rewrite <- E.
      * apply in_map_iff. exists old. split; [|assumption].
        rewrite <- E. now rewrite (proj2 (String.eqb_eq _ _) Eo).
    + subst g. contradiction.
  - destruct (partialGradeSchema_parse body sub) as [p|]; [|reflexivity].
    destruct (updateGrade cs db id p now) as [[r db'']|e]; simpl;
      [|reflexivity].
    intros [H|H]; discriminate.
Qed.

(** X18.  [POST /api/attendance] answers 201 only on a table that has the
    unique index of the upsert; the row it returns is stored and bears the
    caller as [markedBy], whatever the body says, the time of the call as
    [markedAt] and the student, course, date and status of the body; any
    other answer leaves the store unchanged. *)
Theorem post_attendance_stamps_caller cs db body sub uuid now :
  (forall r db',
      post_attendance cs db body sub uuid now = (AttendanceCreated r, db') ->
      attendance_student_course_date_unique cs = true
      /\ at_markedBy r = sub /\ at_markedAt r = Some now
      /\ abody_studentId body = given (at_studentId r)
      /\ abody_courseId body = given (at_courseId r)
      /\ abody_date body = given (at_date r)
      /\ abody_status body = given (at_status r)
      /\ In r (attendance db'))
  /\ (fst (post_attendance cs db body sub uuid now) = AttendanceInvalidData
      \/ fst (post_attendance cs db body sub uuid now)
         = FailedToMarkAttendance ->
      snd (post_attendance cs db body sub uuid now) = db).
Proof.
  unfold post_attendance. split.
  - intros r db' H.
    destruct (insertAttendanceSchema_parse body sub) as [a|] eqn:P;
      [|discriminate].
    unfold insertAttendanceSchema_parse in P.
    destruct (abody_studentId body) as [| |s]; try discriminate.
    destruct (abody_courseId body) as [| |c]; try discriminate.
    destruct (abody_date body) as [| |d]; try discriminate.
    destruct (abody_status body) as [| |st]; try discriminate.
    simpl in P. destruct (optional (abody_notes body)); [|discriminate].
    injection P as <-.
    destruct (markAttendance cs db _ uuid now) as [[r' db'']|e] eqn:M;
      [|discriminate].
    injection H as -> ->. unfold markAttendance in M.
    destruct (attendance_student_course_date_unique cs); simpl in M;
      [|discriminate].
    split; [reflexivity|].
    destruct (find _ (attendance db)) as [existing|] eqn:F.
    + destruct (forallb _ (attendance db)); [|discriminate].
      injection M as <- <-. apply find_some in F. destruct F as [Hin Hk].
      pose proof Hk as Hk'. apply attendance_key_eqb_eq in Hk'.
      unfold attendance_key in Hk'. simpl in Hk'.
      injection Hk' as E1 E2 E3. simpl.
      rewrite E1, E2, E3. repeat split.
      apply in_map_iff. exists existing. split; [|assumption].
      now rewrite Hk.
    + destruct (mem uuid _); [discriminate|].
      destruct (attendance_references_ok db _); [|discriminate].
      injection M as <- <-. simpl. repeat split.
      apply in_or_app. right. now left.
  - destruct (insertAttendanceSchema_parse body sub) as [a|]; [|reflexivity].
    destruct (markAttendance cs db a uuid now) as [[r db'']|e]; simpl;
      [|reflexivity].
    intros [H|H]; discriminate.
Qed.

End Stamps.

Section StampsExample.

Lemma patch_grades_stamps_caller_example :
  let body :=
    {| patch_studentId := missing; patch_assessmentId := missing;
       patch_score := given (numeric 9000); patch_letterGrade := missing;
       patch_feedback := missing; patch_gradedBy := given "t9"%string |} in
  let bad :=
    {| patch_studentId := missing; patch_assessmentId := missing;
       patch_score := malformed; patch_letterGrade := missing;
       patch_feedback := missing; patch_gradedBy := missing |} in
  let patched :=
    {| g_id := "g1"; g_studentId := "s1"; g_assessmentId := "a1";
       g_score := 9000; g_letterGrade := Some "B"%string; g_feedback := None;
       g_gradedBy := "t1"; g_gradedAt := Some 1; g_updatedAt := Some 9 |} in
  patch_grades with_unique_keys store_with_rows "g1" body "t1" 9
  = (Json (Some patched), set_grades store_with_rows [patched])
  /\ g_gradedBy patched = "t1"%string
  /\ fst (patch_grades with_unique_keys store_with_rows "g1" bad "t1" 9)
     = PatchInvalidData
  /\ snd (patch_grades with_unique_keys store_with_rows "g1" bad "t1" 9)
     = store_with_rows.
Proof.
  intros body bad patched.
  assert (H : patch_grades with_unique_keys store_with_rows "g1" body "t1" 9
              = (Json (Some patched), set_grades store_with_rows [patched]))
    by reflexivity.
  split; [exact H|].
  split.
  - exact (proj1 (proj2 (proj1 (patch_grades_stamps_caller _ _ _ _ _ _)
                           _ _ H))).
  - split; [reflexivity|].
    exact (proj2 (patch_grades_stamps_caller with_unique_keys store_with_rows
                    "g1" bad "t1" 9) (or_introl eq_refl)).
Defined.

Lemma post_attendance_stamps_caller_example :
  let body :=
    {| abody_studentId := given "s1"%string;
       abody_courseId := given "c1"%string; abody_date := given 100;
       abody_status := given LATE; abody_notes := missing;
       abody_markedBy := given "t9"%string |} in
  let created :=
    {| at_id := "m1"; at_studentId := "s1"; at_courseId := "c1";
       at_date := 100; at_status := LATE; at_notes := None;
       at_markedBy := "t1"; at_markedAt := Some 7 |} in
  post_attendance with_unique_keys example_store body "t1" "m1" 7
  = (AttendanceCreated created, set_attendance example_store [created])
  /\ at_markedBy created = "t1"%string
  /\ fst (post_attendance declared example_store body "t1" "m1" 7)
     = FailedToMarkAttendance
  /\ snd (post_attendance declared example_store body "t1" "m1" 7)
     = example_store.
Proof.
  intros body created.
  assert (H : post_attendance with_unique_keys example_store body "t1" "m1" 7
              = (AttendanceCreated created,
                 set_attendance example_store [created]))
    by reflexivity.
  split; [exact H|].
  split.
  - exact (proj1 (proj2 (proj1 (post_attendance_stamps_caller _ _ _ _ _ _)
                           _ _ H))).
  - split; [reflexivity|].
    exact (proj2 (post_attendance_stamps_caller declared example_store body
                    "t1" "m1" 7) (or_intror eq_refl)).
Defined.

End StampsExample.

(** ** Upserts on tables with the unique indexes *)

Section UpsertsWithIndexes.

(** X19.  On tables with the unique index, when the student, assessment
    and grader exist, the first id drawn is new and the first score is
    one [decimal(5,2)] can hold, two [createGrade] calls for the same
    student and assessment leave exactly one row under that key.  It
    holds the score of the second call when the column can hold that
    score, replaying one input being the case of equal scores; a second
    call whose score is no number or has too many digits is refused, and
    the row keeps the score of the first. *)
Theorem createGrade_twice_one_row db grade1 uuid1 now1 grade2 uuid2 now2
    score1 :
  NoDup (map grade_key (grades db)) ->
  grade_parents_ok db grade1 -> grade_parents_ok db grade2 ->
  ig_studentId grade2 = ig_studentId grade1 ->
  ig_assessmentId grade2 = ig_assessmentId grade1 ->
  (grades_of (ig_studentId grade1) (ig_assessmentId grade1) db = [] ->
   mem uuid1 (map g_id (grades db)) = false) ->
  numeric_parameter 5 (ig_score grade1) = Ok score1 ->
  map g_score
    (grades_of (ig_studentId grade1) (ig_assessmentId grade1)
       (perform_all with_unique_keys db
          [CreateGrade grade1 uuid1 now1; CreateGrade grade2 uuid2 now2]))
  = [match numeric_parameter 5 (ig_score grade2) with
     | Ok score2 => score2
     | Err _ => score1
     end].
Proof.
  intros Hnd Hp1 Hp2 Es Ea Hfresh Hs1.
  destruct (numeric_parameter 5 (ig_score grade2)) as [score2|e] eqn:Hs2.
  - now apply createGrade_last_write_wins with (score1 := score1).
  - now apply createGrade_refused_keeps with (e := e).
Qed.

Lemma createGrade_twice_one_row_example :
  (NoDup (map grade_key (grades example_store))
   /\ grade_parents_ok example_store score_80
   /\ grade_parents_ok example_store score_95
   /\ grade_parents_ok example_store score_1000
   /\ numeric_parameter 5 (ig_score score_80) = Ok (hundredths 8000))
  /\ map g_score
       (grades_of "s1" "a1"
          (perform_all with_unique_keys example_store
             [CreateGrade score_80 "g1" 1; CreateGrade score_95 "g2" 2]))
     = [hundredths 9500]
  /\ map g_score
       (grades_of "s1" "a1"
          (perform_all with_unique_keys example_store
             [CreateGrade score_80 "g1" 1; CreateGrade score_1000 "g2" 2]))
     = [hundredths 8000].
Proof.
  assert (H1 : NoDup (map grade_key (grades example_store))) by constructor.
  assert (H2 : grade_parents_ok example_store score_80)
    by (repeat split; reflexivity).
  assert (H3 : grade_parents_ok example_store score_95)
    by (repeat split; reflexivity).
  assert (H4 : grade_parents_ok example_store score_1000)
    by (repeat split; reflexivity).
  split; [repeat split; auto|]. split.
  - exact (createGrade_twice_one_row example_store score_80 "g1" 1 score_95
             "g2" 2 (hundredths 8000) H1 H2 H3 eq_refl eq_refl
             (fun _ => eq_refl) eq_refl).
  - exact (createGrade_twice_one_row example_store score_80 "g1" 1 score_1000
             "g2" 2 (hundredths 8000) H1 H2 H4 eq_refl eq_refl
             (fun _ => eq_refl) eq_refl).
Defined.

(** X20.  On tables with the unique index, when the student, course and
    marker exist and the first id drawn is new, two [markAttendance] calls
    for the same student, course and date leave exactly one row under
    that key, with the status of the second call. *)
Theorem markAttendance_twice_one_row db a1 uuid1 now1 a2 uuid2 now2 :
  NoDup (map attendance_key (attendance db)) ->
  attendance_parents_ok db a1 -> attendance_parents_ok db a2 ->
  ia_studentId a2 = ia_studentId a1 -> ia_courseId a2 = ia_courseId a1 ->
  ia_date a2 = ia_date a1 ->
  (attendance_of (ia_studentId a1) (ia_courseId a1) (ia_date a1) db = [] ->
   mem uuid1 (map at_id (attendance db)) = false) ->
  map at_status
    (attendance_of (ia_studentId a1) (ia_courseId a1) (ia_date a1)
       (perform_all with_unique_keys db
          [MarkAttendance a1 uuid1 now1; MarkAttendance a2 uuid2 now2]))
  = [ia_status a2].
Proof.
  apply markAttendance_last_write_wins.
Qed.

Lemma markAttendance_twice_one_row_example :
  (NoDup (map attendance_key (attendance example_store))
   /\ attendance_parents_ok example_store (mark PRESENT)
   /\ attendance_parents_ok example_store (mark ABSENT))
  /\ map at_status
       (attendance_of "s1" "c1" 100
          (perform_all with_unique_keys example_store
             [MarkAttendance (mark PRESENT) "m1" 1;
              MarkAttendance (mark ABSENT) "m2" 2]))
     = [ABSENT].
Proof.
  assert (H1 : NoDup (map attendance_key (attendance example_store)))
    by constructor.
  assert (H2 : attendance_parents_ok example_store (mark PRESENT))
    by (repeat split; reflexivity).
  assert (H3 : attendance_parents_ok example_store (mark ABSENT))
    by (repeat split; reflexivity).
  split; [auto|].
  exact (markAttendance_twice_one_row example_store (mark PRESENT) "m1" 1
           (mark ABSENT) "m2" 2 H1 H2 H3 eq_refl eq_refl eq_refl
           (fun _ => eq_refl)).
Defined.

End UpsertsWithIndexes.

(** ** Letters follow the percentage *)

Section LetterOrder.

Local Open Scope float_scope.

Lemma SFleb_trans (x y z : spec_float) :
  SFleb x y = true -> SFleb y z = true -> SFleb x z = true.
Proof.
  unfold SFleb.
  destruct x as [sx|sx| |sx mx ex], y as [sy|sy| |sy my ey],
    z as [sz|sz| |sz mz ez]; simpl;
    try (destruct sx); try (destruct sy); try (destruct sz); simpl;
    try reflexivity; try discriminate; try (intros; discriminate);
    change (Pos.compare_cont Eq mx my) with (mx ?= my)%positive;
    change (Pos.compare_cont Eq my mz) with (my ?= mz)%positive;
    change (Pos.compare_cont Eq mx mz) with (mx ?= mz)%positive;
    destruct (Z.compare_spec ex ey), (Z.compare_spec ey ez),
      (Z.compare_spec ex ez);
    destruct (Pos.compare_spec mx my), (Pos.compare_spec my mz),
      (Pos.compare_spec mx mz);
    simpl; intros; try reflexivity; try discriminate; exfalso; lia.
Qed.

Lemma leb_trans (x y z : float) :
  (x <=? y) = true -> (y <=? z) = true -> (x <=? z) = true.
Proof.
  rewrite !FloatAxioms.leb_spec. apply SFleb_trans.
Qed.

(** X21.  A higher percentage never earns a lower letter: when p <= q
    the letter of p ranks at most as high as the letter of q, in the
    order F, D, C, B, A. *)
Theorem getLetterGrade_monotone (p q : number) :
  (p <=? q) = true ->
  (letter_rank (getLetterGrade p) <= letter_rank (getLetterGrade q))%nat.
Proof.
  intros H.
  assert (T : forall c, (c <=? p) = true -> (c <=? q) = true).
  { intros c Hc. exact (leb_trans c p q Hc H). }
  unfold getLetterGrade.
  destruct (90 <=? p) eqn:P90.
  { rewrite (T _ P90). apply Nat.le_refl. }
  destruct (80 <=? p) eqn:P80.
  { rewrite (T _ P80). destruct (90 <=? q); cbn; lia. }
  destruct (70 <=? p) eqn:P70.
  { rewrite (T _ P70). destruct (90 <=? q), (80 <=? q); cbn; lia. }
  destruct (60 <=? p) eqn:P60.
  { rewrite (T _ P60). destruct (90 <=? q), (80 <=? q), (70 <=? q); cbn; lia. }
  cbn. lia.
Qed.

Lemma getLetterGrade_monotone_example :
  (64 <=? 80) = true
  /\ (letter_rank (getLetterGrade 64%float)
      <= letter_rank (getLetterGrade 80%float))%nat
  /\ getLetterGrade 64 = "D"%string /\ getLetterGrade 80 = "B"%string.
Proof.
  split; [reflexivity|]. split; [|split; reflexivity].
  exact (getLetterGrade_monotone 64 80 eq_refl).
Defined.

End LetterOrder.


(** ** The window of the attendance rate *)

Section RateWindow.

(** X22.  Attendance rows dated more than 30 days before the current date
    never change the rate of the dashboard: adding such rows to the table
    leaves [attendanceRate] as it was. *)
Theorem attendanceRate_ignores_old_rows current_date db old :
  (forall r, In r old -> (at_date r < current_date - 30)%Z) ->
  getDashboardStats_attendanceRate current_date
    (set_attendance db (attendance db ++ old))
  = getDashboardStats_attendanceRate current_date db.
Proof.
  intros Hold. unfold getDashboardStats_attendanceRate. simpl.
  rewrite filter_app.
  rewrite (filter_ext_in (in_window current_date) (fun _ => false) old).
  - now rewrite filter_false, app_nil_r.
  - intros r Hr. unfold in_window. apply Z.leb_gt. now apply Hold.
Qed.

Lemma attendanceRate_ignores_old_rows_example :
  (forall r, In r (session 60 0 3) -> (at_date r < 100 - 30)%Z)
  /\ getDashboardStats_attendanceRate 100
       (set_attendance (store_with (session 100 27 30))
          (attendance (store_with (session 100 27 30)) ++ session 60 0 3))
     = 90%float.
Proof.
  assert (H : forall r, In r (session 60 0 3) -> (at_date r < 100 - 30)%Z).
  { intros r Hr. simpl in Hr.
    repeat (destruct Hr as [<-|Hr]; [reflexivity|]). contradiction. }
  split; [exact H|].
  rewrite (attendanceRate_ignores_old_rows 100
             (store_with (session 100 27 30)) (session 60 0 3) H).
  vm_compute. reflexivity.
Defined.

End RateWindow.
